(** * s3verify: checksum verification of a local file against an S3 object

    A shallow embedding of the verification logic of s3verify (Go) and the
    properties of its specification.

    Sources embedded here:
    - [src/unnamed/part_001]: main.go, version 0.0.1 (module [V001]);
    - [src/unnamed/part_000]: utils.go with [getChecksumAlgorithm],
      [getChecksum], [getPartChecksum], [newHash] (module [Utils]);
    - [src/Makefile], lines 77-452: main.go, version 0.1.0 (module [V010]);
    - [src/README.md], lines 33-177: the utils.go that goes with it
      (module [Utils010]).

    The Go standard library (crypto/sha1, crypto/sha256, hash/crc32,
    encoding/base64, io, os) and the AWS SDK types are outside the
    repository; they are modelled by their documented behaviour in the first
    part of the file. *)

From Stdlib Require Import ZArith List Bool Lia.
From Stdlib.Strings Require Import String Ascii Byte.
From Stdlib Require Import DecimalString.
Import ListNotations.

Local Open Scope string_scope.
Local Open Scope list_scope.
Local Open Scope Z_scope.

(** ** Machine integers *)

(** Go's [int64] and [int32]: signed, wrapping on overflow. *)
Definition wrap (w : Z) (x : Z) : Z :=
  (x + 2 ^ (w - 1)) mod 2 ^ w - 2 ^ (w - 1).

Definition wrap64 : Z -> Z := wrap 64.
Definition wrap32 : Z -> Z := wrap 32.

Definition maxint64 : Z := 2 ^ 63 - 1.

(** ** Bytes *)

Definition byte_to_Z (b : byte) : Z := Z.of_N (Byte.to_N b).

Definition byte_of_Z (z : Z) : byte :=
  match Byte.of_N (Z.to_N (z mod 256)) with
  | Some b => b
  | None => x00
  end.

(** [[]byte(s)] for a string literal. *)
Definition bytes (s : string) : list byte := list_byte_of_string s.

(** Big-endian encoding of a 32-bit word, as [hash.Hash.Sum] emits it. *)
Definition be32 (x : Z) : list byte :=
  [byte_of_Z (Z.shiftr x 24); byte_of_Z (Z.shiftr x 16);
   byte_of_Z (Z.shiftr x 8); byte_of_Z x].

Definition be64 (x : Z) : list byte :=
  be32 (Z.shiftr x 32) ++ be32 x.

(** ** hash.Hash

    The interface of Go's incremental hashes.  A hasher is the digest
    function of its algorithm together with everything written to it so far:
    [Write] appends, and [Sum(nil)] returns the digest of all that was
    written without changing the state (there is no implicit reset). *)
Module hash.

Record Hash : Type := mkHash {
  digest : list byte -> list byte;
  written : list byte
}.

Definition New (digest : list byte -> list byte) : Hash :=
  {| digest := digest; written := [] |}.

Definition Write (h : Hash) (p : list byte) : Hash :=
  {| digest := digest h; written := written h ++ p |}.

Definition Sum (h : Hash) : list byte := digest h (written h).

End hash.

(** ** encoding/base64: [base64.StdEncoding.EncodeToString] *)
Module base64.

Definition encodeStd : string :=
  "ABCDEFGHIJKLMNOPQRSTUVWXYZabcdefghijklmnopqrstuvwxyz0123456789+/".

Definition sextet (i : Z) : ascii :=
  match String.get (Z.to_nat (Z.land i 63)) encodeStd with
  | Some c => c
  | None => "="%char
  end.

(** Three source bytes give four characters; a short final group is padded
    with [=]. *)
Fixpoint EncodeToString (src : list byte) : string :=
  match src with
  | [] => EmptyString
  | [a] =>
      let v := Z.shiftl (byte_to_Z a) 16 in
      String (sextet (Z.shiftr v 18)) (String (sextet (Z.shiftr v 12)) "==")
  | [a; b] =>
      let v := Z.lor (Z.shiftl (byte_to_Z a) 16) (Z.shiftl (byte_to_Z b) 8) in
      String (sextet (Z.shiftr v 18)) (String (sextet (Z.shiftr v 12))
        (String (sextet (Z.shiftr v 6)) "="))
  | a :: b :: c :: rest =>
      let v := Z.lor (Z.lor (Z.shiftl (byte_to_Z a) 16) (Z.shiftl (byte_to_Z b) 8))
                     (byte_to_Z c) in
      String (sextet (Z.shiftr v 18)) (String (sextet (Z.shiftr v 12))
        (String (sextet (Z.shiftr v 6)) (String (sextet v)
          (EncodeToString rest))))
  end.

End base64.

(** ** hash/crc32 *)
Module crc32.

(** Reversed polynomials, as in the package's constants. *)
Definition IEEE : Z := 0xedb88320.
Definition Castagnoli : Z := 0x82f63b78.

(** One bit of the table construction of [simpleMakeTable]. *)
Definition shift1 (poly crc : Z) : Z :=
  if Z.testbit crc 0 then Z.lxor (Z.shiftr crc 1) poly else Z.shiftr crc 1.

(** [tab[i]]: eight shifts of [i]. *)
Definition entry (poly i : Z) : Z :=
  shift1 poly (shift1 poly (shift1 poly (shift1 poly
    (shift1 poly (shift1 poly (shift1 poly (shift1 poly i))))))).

(** The loop of [simpleUpdate]: [crc = tab[byte(crc)^v] ^ (crc >> 8)]. *)
Definition update1 (poly crc : Z) (v : byte) : Z :=
  Z.lxor (entry poly (Z.lxor (Z.land crc 255) (byte_to_Z v))) (Z.shiftr crc 8).

Definition Checksum (poly : Z) (data : list byte) : Z :=
  Z.lxor (fold_left (update1 poly) data 0xFFFFFFFF) 0xFFFFFFFF.

(** The digest a [crc32] hasher returns from [Sum(nil)]. *)
Definition Sum (poly : Z) (data : list byte) : list byte :=
  be32 (Checksum poly data).

(** A table is identified by its polynomial. *)
Definition MakeTable (poly : Z) : Z := poly.
Definition New (tab : Z) : hash.Hash := hash.New (Sum tab).
Definition NewIEEE : hash.Hash := New (MakeTable IEEE).

End crc32.

(** ** 32-bit word operations shared by SHA-1 and SHA-256 *)
Module word32.

Definition mask (x : Z) : Z := Z.land x 0xFFFFFFFF.
Definition add (x y : Z) : Z := mask (x + y).
Definition rotl (n x : Z) : Z :=
  mask (Z.lor (Z.shiftl x n) (Z.shiftr x (32 - n))).
Definition rotr (n x : Z) : Z := rotl (32 - n) x.
Definition not (x : Z) : Z := Z.lxor x 0xFFFFFFFF.

Definition of_bytes (a b c d : byte) : Z :=
  Z.lor (Z.lor (Z.shiftl (byte_to_Z a) 24) (Z.shiftl (byte_to_Z b) 16))
        (Z.lor (Z.shiftl (byte_to_Z c) 8) (byte_to_Z d)).

Fixpoint words (bs : list byte) : list Z :=
  match bs with
  | a :: b :: c :: d :: rest => of_bytes a b c d :: words rest
  | _ => []
  end.

(** Merkle-Damgard padding: 0x80, zeros up to 56 mod 64, and the length in
    bits as a 64-bit big-endian integer. *)
Definition pad (msg : list byte) : list byte :=
  let len := Z.of_nat (List.length msg) in
  let zeros := Z.to_nat ((55 - len) mod 64) in
  msg ++ [x80] ++ repeat x00 zeros ++ be64 (8 * len).

(** The padded message as 16-word blocks. *)
Fixpoint blocks (fuel : nat) (ws : list Z) : list (list Z) :=
  match fuel, ws with
  | S fuel', _ :: _ => firstn 16 ws :: blocks fuel' (skipn 16 ws)
  | _, _ => []
  end.

Definition schedule (msg : list byte) : list (list Z) :=
  let ws := words (pad msg) in blocks (List.length ws) ws.

End word32.

(** ** crypto/sha256 *)
Module sha256.
Import word32.

(** The first sixty-four primes. *)
Definition isPrime (n : Z) : bool :=
  forallb (fun d => negb (n mod Z.of_nat d =? 0)) (seq 2 (Z.to_nat n - 2)).

Definition primes : list Z :=
  filter isPrime (map Z.of_nat (seq 2 310)).

(** The integer cube root below 2^36, bit by bit from the top. *)
Definition cbrtBit (n r : Z) (b : nat) : Z :=
  let r' := r + 2 ^ Z.of_nat b in
  if r' * r' * r' <=? n then r' else r.

Definition cbrt (n : Z) : Z := fold_left (cbrtBit n) (rev (seq 0 36)) 0.

(** The round constants: the first thirty-two bits of the fractional parts
    of the cube roots of the primes. *)
Definition K : list Z := map (fun p => mask (cbrt (p * 2 ^ 96))) primes.

(** The initial hash value: the same of the square roots of the first eight
    primes. *)
Definition init : list Z := map (fun p => mask (Z.sqrt (p * 2 ^ 64))) (firstn 8 primes).

Definition w (win : list Z) (i : nat) : Z := nth i win 0.

Definition sigma0 (x : Z) := Z.lxor (Z.lxor (rotr 7 x) (rotr 18 x)) (Z.shiftr x 3).
Definition sigma1 (x : Z) := Z.lxor (Z.lxor (rotr 17 x) (rotr 19 x)) (Z.shiftr x 10).
Definition Sigma0 (x : Z) := Z.lxor (Z.lxor (rotr 2 x) (rotr 13 x)) (rotr 22 x).
Definition Sigma1 (x : Z) := Z.lxor (Z.lxor (rotr 6 x) (rotr 11 x)) (rotr 25 x).
Definition Ch (x y z : Z) := Z.lxor (Z.land x y) (Z.land (not x) z).
Definition Maj (x y z : Z) := Z.lxor (Z.lxor (Z.land x y) (Z.land x z)) (Z.land y z).

(** One round; [win] holds the sixteen schedule words W[t..t+15]. *)
Definition round (st : list Z * list Z) (k : Z) : list Z * list Z :=
  let (v, win) := st in
  let a := w v 0 in let b := w v 1 in let c := w v 2 in let d := w v 3 in
  let e := w v 4 in let f := w v 5 in let g := w v 6 in let h := w v 7 in
  let t1 := add (add (add (add h (Sigma1 e)) (Ch e f g)) k) (w win 0) in
  let t2 := add (Sigma0 a) (Maj a b c) in
  let next := add (add (add (sigma1 (w win 14)) (w win 9)) (sigma0 (w win 1))) (w win 0) in
  ([add t1 t2; a; b; c; add d t1; e; f; g], tl win ++ [next]).

Definition block (v : list Z) (blk : list Z) : list Z :=
  let (v', _) := fold_left round K (v, blk) in
  map (fun p => add (fst p) (snd p)) (combine v v').

Definition Sum (data : list byte) : list byte :=
  flat_map be32 (fold_left block (schedule data) init).

Definition New : hash.Hash := hash.New Sum.

End sha256.

(** ** crypto/sha1 *)
Module sha1.
Import word32.

Definition init : list Z :=
  [0x67452301; 0xEFCDAB89; 0x98BADCFE; 0x10325476; 0xC3D2E1F0].

Definition w (win : list Z) (i : nat) : Z := nth i win 0.

Definition f (t : nat) (b c d : Z) : Z :=
  if (t <? 20)%nat then Z.lor (Z.land b c) (Z.land (not b) d)
  else if (t <? 40)%nat then Z.lxor (Z.lxor b c) d
  else if (t <? 60)%nat then Z.lor (Z.lor (Z.land b c) (Z.land b d)) (Z.land c d)
  else Z.lxor (Z.lxor b c) d.

Definition K (t : nat) : Z :=
  if (t <? 20)%nat then 0x5A827999
  else if (t <? 40)%nat then 0x6ED9EBA1
  else if (t <? 60)%nat then 0x8F1BBCDC
  else 0xCA62C1D6.

Definition round (st : list Z * list Z) (t : nat) : list Z * list Z :=
  let (v, win) := st in
  let a := w v 0 in let b := w v 1 in let c := w v 2 in
  let d := w v 3 in let e := w v 4 in
  let tmp := add (add (add (add (rotl 5 a) (f t b c d)) e) (w win 0)) (K t) in
  let next := rotl 1 (Z.lxor (Z.lxor (w win 13) (w win 8))
                             (Z.lxor (w win 2) (w win 0))) in
  ([tmp; a; rotl 30 b; c; d], tl win ++ [next]).

Definition block (v : list Z) (blk : list Z) : list Z :=
  let (v', _) := fold_left round (seq 0 80) (v, blk) in
  map (fun p => add (fst p) (snd p)) (combine v v').

Definition Sum (data : list byte) : list byte :=
  flat_map be32 (fold_left block (schedule data) init).

Definition New : hash.Hash := hash.New Sum.

End sha1.

(** ** Results of Go functions

    A function of type [(A, error)] returns a value and an error ([None] is
    the nil error), or the goroutine panics. *)
Inductive result (A : Type) : Type :=
| Return (a : A) (err : option string)
| Panic.

Arguments Return {A} a err.
Arguments Panic {A}.

(** [*p] on a [*string]: a nil pointer dereference is a runtime panic. *)
Definition deref (p : option string) : result string :=
  match p with
  | Some s => Return s None
  | None => Panic
  end.

(** [p != nil] *)
Definition notNil {A : Type} (p : option A) : bool :=
  match p with
  | Some _ => true
  | None => false
  end.

(** ** os

    The local file is held in memory: its contents can always be read, and
    they do not change while the program runs.  A call of the operating
    system therefore reports an error only where the library itself refuses
    the request; what the operating system may still choose is how many bytes
    a single read hands out. *)
Module os.

(** The text of an [*os.PathError]: [e.Op + " " + e.Path + ": " + e.Err.Error()]. *)
Definition PathError (op path err : string) : string :=
  (op ++ " " ++ path ++ ": " ++ err)%string.

(** [os.Stat(localPath)], as far as the program reads it: [stat.Size()] and
    the error. *)
Definition Stat (f : list byte) : result Z :=
  Return (Z.of_nat (List.length f)) None.

(** [f.Read(p)] for a buffer [p] of [len] bytes, [len] at least 1, when
    [rest] is what is left to read of the file: the bytes handed out.  At the
    end of the file there are none ([io.EOF]); before it a read hands out at
    least one byte and at most [len], and [reads n] is the number the
    operating system chooses when [n] bytes are left. *)
Definition Read (reads : Z -> Z) (len : Z) (rest : list byte) : list byte :=
  firstn (Z.to_nat (Z.max 1 (Z.min len (reads (Z.of_nat (List.length rest)))))) rest.

End os.

(** ** io

    A copy is given by the bytes it writes to its destination, in order, and
    the error it returns; a [hash.Hash] only accumulates what is written to
    it, so the writes of the successive reads are given as one list. *)
Module io.

(** The loop of [io.Copy] on an [*os.File]: read into a buffer of 32768
    bytes, write what was read, until a read reaches the end of the file.
    Every read before the end hands out at least one byte, so as many rounds
    as the file has bytes are enough. *)
Fixpoint copyBuffer (fuel : nat) (reads : Z -> Z) (rest : list byte) : list byte :=
  match fuel with
  | O => []
  | S fuel' =>
      match os.Read reads 32768 rest with
      | [] => []
      | b :: p =>
          (b :: p) ++ copyBuffer fuel' reads (skipn (List.length (b :: p)) rest)
      end
  end.

(** [io.Copy(h, f)] on a file with contents [f], read from its start. *)
Definition Copy (reads : Z -> Z) (f : list byte) : result (list byte) :=
  Return (copyBuffer (List.length f) reads f) None.

(** [io.NewSectionReader(r, off, n)]: the offset at which the section
    stops.  The addition is guarded against overflow by the library. *)
Definition sectionLimit (off n : Z) : Z :=
  if off <=? wrap64 (maxint64 - n) then wrap64 (n + off) else maxint64.

(** [io.Copy(h, io.NewSectionReader(f, off, n))] on the file [name] with
    contents [f].  [SectionReader.Read] returns [io.EOF] when the section's
    limit is not beyond [off]; otherwise it cuts the buffer down to
    [max = limit - off] bytes when the buffer is longer, a subtraction in
    [int64] whose negative result makes the slice expression panic; then it
    calls [f.ReadAt(p, off)], which refuses a negative offset with an
    [*os.PathError] and otherwise reads until [p] is full or the file ends
    (it repeats short reads itself).  For [0 <= off] and [0 <= n] the bytes
    copied are those of [f] from [off] up to [off + n], or up to the end of
    the file when it comes first. *)
Definition CopySection (name : string) (f : list byte) (off n : Z) : result (list byte) :=
  let limit := sectionLimit off n in
  if limit <=? off then Return [] None
  else if wrap64 (limit - off) <? 0 then Panic
  else if off <? 0 then Return [] (Some (os.PathError "readat" name "negative offset"))
  else Return (firstn (Z.to_nat (limit - off)) (skipn (Z.to_nat off) f)) None.

(** The loop of [io.Copy] on [io.LimitReader(f, n)]: the buffer is as long
    as the limit when that is less than 32768 bytes; the reader returns
    [io.EOF] once the limit is used up ([n <= 0]), and what it reads from [f]
    counts against the limit. *)
Fixpoint copyLimited (fuel : nat) (reads : Z -> Z) (rest : list byte) (n : Z)
    : list byte :=
  match fuel with
  | O => []
  | S fuel' =>
      if n <=? 0 then []
      else
        match os.Read reads (Z.min 32768 n) rest with
        | [] => []
        | b :: p =>
            (b :: p)
            ++ copyLimited fuel' reads (skipn (List.length (b :: p)) rest)
                 (n - Z.of_nat (List.length (b :: p)))
        end
  end.

(** [io.Copy(partHash, io.LimitReader(f, n))] on a stream with [f] left to
    read: the bytes copied and what is left of the stream after them.  A
    limit [n <= 0] reads nothing. *)
Definition CopyLimit (reads : Z -> Z) (f : list byte) (n : Z)
    : result (list byte * list byte) :=
  let p := copyLimited (List.length f) reads f n in
  Return (p, skipn (List.length p) f) None.

End io.

(** ** fmt *)
Module fmt.

(** The verb [%d] on an integer. *)
Definition d (n : Z) : string := NilZero.string_of_int (Z.to_int n).

End fmt.

(** ** The AWS SDK types the program reads

    Only the fields the program reads are kept.  An optional ([*string])
    field is an [option]; [None] is the nil pointer. *)
Module s3Types.

(** [type ChecksumAlgorithm string] and its constants. *)
Definition ChecksumAlgorithm : Type := string.
Definition ChecksumAlgorithmCrc32 : ChecksumAlgorithm := "CRC32".
Definition ChecksumAlgorithmCrc32c : ChecksumAlgorithm := "CRC32C".
Definition ChecksumAlgorithmSha1 : ChecksumAlgorithm := "SHA1".
Definition ChecksumAlgorithmSha256 : ChecksumAlgorithm := "SHA256".

Module Checksum.
Record t : Type := mk {
  ChecksumCRC32 : option string;
  ChecksumCRC32C : option string;
  ChecksumSHA1 : option string;
  ChecksumSHA256 : option string
}.
End Checksum.

Module ObjectPart.
Record t : Type := mk {
  ChecksumCRC32 : option string;
  ChecksumCRC32C : option string;
  ChecksumSHA1 : option string;
  ChecksumSHA256 : option string;
  PartNumber : Z;   (* int32 *)
  Size : Z          (* int64 *)
}.
End ObjectPart.

Record GetObjectAttributesParts : Type := mkParts {
  IsTruncated : bool;
  Parts : list ObjectPart.t;
  TotalPartsCount : Z   (* int32 *)
}.

End s3Types.

Module s3.
Import s3Types.

(** In the SDK of version 0.1.0 the numeric and boolean fields of these
    records are pointers that the program reads only through
    [aws.ToInt32], [aws.ToInt64] and [aws.ToBool], which read nil as the
    zero value; the records hold the value so read. *)
Record GetObjectAttributesOutput : Type := mkOutput {
  Checksum : option Checksum.t;
  ObjectParts : option GetObjectAttributesParts;
  ObjectSize : Z   (* int64 *)
}.

End s3.

Module aws.
(** [aws.ToString]: the string pointed to, or the empty string for nil. *)
Definition ToString (p : option string) : string :=
  match p with
  | Some s => s
  | None => EmptyString
  end.
End aws.

(** The [switch] on a [ChecksumAlgorithm] shared by the lookups below. *)
Inductive Case : Type := CaseSha1 | CaseSha256 | CaseCrc32 | CaseCrc32c | CaseDefault.

Definition switch (algorithm : s3Types.ChecksumAlgorithm) : Case :=
  if (algorithm =? s3Types.ChecksumAlgorithmSha1)%string then CaseSha1
  else if (algorithm =? s3Types.ChecksumAlgorithmSha256)%string then CaseSha256
  else if (algorithm =? s3Types.ChecksumAlgorithmCrc32)%string then CaseCrc32
  else if (algorithm =? s3Types.ChecksumAlgorithmCrc32c)%string then CaseCrc32c
  else CaseDefault.

(** ** utils.go ([src/unnamed/part_000]) *)
Module Utils.
Import s3Types.

Definition getChecksumAlgorithm (v : Checksum.t) : result ChecksumAlgorithm :=
  if notNil (Checksum.ChecksumSHA1 v) then Return ChecksumAlgorithmSha1 None
  else if notNil (Checksum.ChecksumSHA256 v) then Return ChecksumAlgorithmSha256 None
  else if notNil (Checksum.ChecksumCRC32 v) then Return ChecksumAlgorithmCrc32 None
  else if notNil (Checksum.ChecksumCRC32C v) then Return ChecksumAlgorithmCrc32c None
  else Return EmptyString (Some "unsupported checksum algorithm").

Definition getChecksum (v : Checksum.t) (algorithm : ChecksumAlgorithm) : result string :=
  match switch algorithm with
  | CaseSha1 => deref (Checksum.ChecksumSHA1 v)
  | CaseSha256 => deref (Checksum.ChecksumSHA256 v)
  | CaseCrc32 => deref (Checksum.ChecksumCRC32 v)
  | CaseCrc32c => deref (Checksum.ChecksumCRC32C v)
  | CaseDefault => Return EmptyString (Some ("unsupported checksum algorithm, " ++ algorithm)%string)
  end.

Definition getPartChecksum (v : ObjectPart.t) (algorithm : ChecksumAlgorithm) : result string :=
  match switch algorithm with
  | CaseSha1 => deref (ObjectPart.ChecksumSHA1 v)
  | CaseSha256 => deref (ObjectPart.ChecksumSHA256 v)
  | CaseCrc32 => deref (ObjectPart.ChecksumCRC32 v)
  | CaseCrc32c => deref (ObjectPart.ChecksumCRC32C v)
  | CaseDefault => Return EmptyString (Some ("unsupported checksum algorithm, " ++ algorithm)%string)
  end.

Definition newHash (v : ChecksumAlgorithm) : result (option hash.Hash) :=
  match switch v with
  | CaseSha1 => Return (Some sha1.New) None
  | CaseSha256 => Return (Some sha256.New) None
  | CaseCrc32 => Return (Some crc32.NewIEEE) None
  | CaseCrc32c => Return (Some (crc32.New (crc32.MakeTable crc32.Castagnoli))) None
  | CaseDefault => Return None (Some ("unsupported checksum algorithm, " ++ v)%string)
  end.

End Utils.

(** ** utils.go of version 0.1.0 ([src/README.md], lines 33-177)

    [getChecksumAlgorithm] and [newHash] are those of [Utils]; the two
    lookups read the field through [aws.ToString]. *)
Module Utils010.
Import s3Types.

Definition getChecksumAlgorithm := Utils.getChecksumAlgorithm.
Definition newHash := Utils.newHash.

Definition getChecksum (v : Checksum.t) (algorithm : ChecksumAlgorithm) : result string :=
  match switch algorithm with
  | CaseSha1 => Return (aws.ToString (Checksum.ChecksumSHA1 v)) None
  | CaseSha256 => Return (aws.ToString (Checksum.ChecksumSHA256 v)) None
  | CaseCrc32 => Return (aws.ToString (Checksum.ChecksumCRC32 v)) None
  | CaseCrc32c => Return (aws.ToString (Checksum.ChecksumCRC32C v)) None
  | CaseDefault => Return EmptyString (Some ("unsupported checksum algorithm, " ++ algorithm)%string)
  end.

Definition getPartChecksum (v : ObjectPart.t) (algorithm : ChecksumAlgorithm) : result string :=
  match switch algorithm with
  | CaseSha1 => Return (aws.ToString (ObjectPart.ChecksumSHA1 v)) None
  | CaseSha256 => Return (aws.ToString (ObjectPart.ChecksumSHA256 v)) None
  | CaseCrc32 => Return (aws.ToString (ObjectPart.ChecksumCRC32 v)) None
  | CaseCrc32c => Return (aws.ToString (ObjectPart.ChecksumCRC32C v)) None
  | CaseDefault => Return EmptyString (Some ("unsupported checksum algorithm: " ++ algorithm)%string)
  end.

End Utils010.

(** ** What a run produces

    Every [os.Exit] of [main] is an outcome.  What is written just before an
    exit, the verdict on standard output or the message on standard error, is
    determined by the outcome and is not recorded apart from it; [Failed]
    carries the text of the error printed there. *)
Inductive Outcome : Type :=
| NoChecksum                                   (* objAttrs.Checksum == nil *)
| ObjectSizeMismatch (objectSize fileSize : Z) (* sizes differ *)
| UnsupportedAlgorithm                         (* no checksum field populated *)
| Failed (err : string)                        (* fmt.Fprintln(os.Stderr, err); os.Exit(1) *)
| Panicked                                     (* runtime panic *)
| PartsTruncated                               (* version 0.1.0: more parts than returned *)
| PartsNotSorted                               (* version 0.1.0: part numbers out of sequence *)
| PartMismatch (partNumber from to : Z)        (* Local file did not match part n (bytes from to to) *)
| ChecksumMismatch                             (* Checksum MISMATCH! *)
| ChecksumMatch.                               (* Checksum matches! *)

Definition exitStatus (o : Outcome) : Z :=
  match o with
  | ChecksumMatch => 0
  | Panicked => 2
  | _ => 1
  end.

(** What a run does, in order: the reads it feeds to a hasher and the lines
    it prints on standard output. *)
Inductive Event : Type :=
| CopyFile                                     (* io.Copy(h, f) *)
| CopySection (offset size : Z)                (* io.Copy(h, io.NewSectionReader(f, offset, size)) *)
| CopyLimit (size : Z)                         (* io.Copy(partHash, io.LimitReader(f, size)) *)
| PrintObjectChecksum (objSum : string)        (* S3 object checksum: %s *)
| PrintLocalChecksum (sum : string)            (* Local file checksum: %s *)
| PrintNumParts (numParts : Z)                 (* Object consists of %d part%s. *)
| PrintPart (partNumber : Z) (partSumEncoded : string)   (* Part %d: %s *)
| PrintOK
| PrintFAILED
| PrintChecksumOfChecksums (sum : string).     (* Checksum of checksums: %s *)

(** The local file and the output of the process: the name the file was
    opened under ([f.Name()]), its contents, the number of bytes the
    operating system hands out to a read (see [os.Read]), what has been read
    and printed on standard output so far, and the lines written to standard
    error so far. *)
Record World : Type := mkWorld {
  name : string;
  file : list byte;
  reads : Z -> Z;
  stdout : list Event;
  stderr : list string
}.

Definition print (w : World) (es : list Event) : World :=
  {| name := name w; file := file w; reads := reads w; stdout := stdout w ++ es;
     stderr := stderr w |}.

(** [fmt.Fprintln(os.Stderr, line)] *)
Definition eprintln (w : World) (line : string) : World :=
  {| name := name w; file := file w; reads := reads w; stdout := stdout w;
     stderr := stderr w ++ [line] |}.

(** ** main.go, version 0.0.1 ([src/unnamed/part_001]) *)
Module V001.
Import s3Types s3.

(** Lines 252-277: the whole-object checksum, the hasher [h] and the hasher
    [checksumOfChecksums]; [None] is the final [else]. *)
Definition selectChecksum (c : Checksum.t) : option (string * hash.Hash * hash.Hash) :=
  match Checksum.ChecksumSHA1 c with
  | Some objSum => Some (objSum, sha1.New, sha1.New)
  | None =>
  match Checksum.ChecksumSHA256 c with
  | Some objSum => Some (objSum, sha256.New, sha256.New)
  | None =>
  match Checksum.ChecksumCRC32 c with
  | Some objSum => Some (objSum, crc32.NewIEEE, crc32.NewIEEE)
  | None =>
  match Checksum.ChecksumCRC32C c with
  | Some objSum =>
      Some (objSum, crc32.New (crc32.MakeTable crc32.Castagnoli),
                    crc32.New (crc32.MakeTable crc32.Castagnoli))
  | None => None
  end end end end.

(** Lines 255, 260, 265 and 270: the line written to standard error in the
    branch that is taken. *)
Definition notice (c : Checksum.t) : string :=
  match Checksum.ChecksumSHA1 c with
  | Some _ => "S3 object was uploaded using the SHA1 checksum algorithm."
  | None =>
  match Checksum.ChecksumSHA256 c with
  | Some _ => "S3 object was uploaded using the SHA256 checksum algorithm."
  | None =>
  match Checksum.ChecksumCRC32 c with
  | Some _ => "S3 object was uploaded using the CRC32 checksum algorithm."
  | None =>
  match Checksum.ChecksumCRC32C c with
  | Some _ => "S3 object was uploaded using the CRC32C checksum algorithm."
  | None => EmptyString
  end end end end.

(** Lines 281-298: not a multi-part object. *)
Definition single (objSum : string) (h : hash.Hash) (w : World) : Outcome * World :=
  let w := print w [CopyFile] in
  match io.Copy (reads w) (file w) with
  | Panic => (Panicked, w)
  | Return _ (Some err) => (Failed err, w)
  | Return p None =>
      let h := hash.Write h p in
      let sum := base64.EncodeToString (hash.Sum h) in
      let w := print w [PrintLocalChecksum sum] in
      if negb (sum =? objSum)%string then (ChecksumMismatch, w)
      else (ChecksumMatch, w)
  end.

(** The variables that live across the iterations of the loop of lines
    308-330. *)
Record Loop : Type := mkLoop {
  h : hash.Hash;
  checksumOfChecksums : hash.Hash;
  offset : Z;
  out : World
}.

Inductive Step : Type :=
| Continue (st : Loop)
| Exit (o : Outcome) (w : World).

(** Lines 318-321. *)
Definition differs (p : option string) (partSumEncoded : string) : bool :=
  match p with
  | Some s => negb (partSumEncoded =? s)%string
  | None => false
  end.

Definition partFailed (part : ObjectPart.t) (partSumEncoded : string) : bool :=
  differs (ObjectPart.ChecksumSHA1 part) partSumEncoded
  || differs (ObjectPart.ChecksumSHA256 part) partSumEncoded
  || differs (ObjectPart.ChecksumCRC32 part) partSumEncoded
  || differs (ObjectPart.ChecksumCRC32C part) partSumEncoded.

(** Lines 310-329: one iteration. *)
Definition iteration (part : ObjectPart.t) (st : Loop) : Step :=
  let w := print (out st) [CopySection (offset st) (ObjectPart.Size part)] in
  match io.CopySection (name w) (file w) (offset st) (ObjectPart.Size part) with
  | Panic => Exit Panicked w
  | Return _ (Some err) => Exit (Failed err) w
  | Return p None =>
      let h := hash.Write (h st) p in
      let partSum := hash.Sum h in
      let partSumEncoded := base64.EncodeToString partSum in
      let w := print w [PrintPart (ObjectPart.PartNumber part) partSumEncoded] in
      if partFailed part partSumEncoded then
        Exit (PartMismatch (ObjectPart.PartNumber part) (offset st)
                (wrap64 (offset st + ObjectPart.Size part)))
             (print w [PrintFAILED])
      else
        Continue {| h := h;
                    checksumOfChecksums := hash.Write (checksumOfChecksums st) partSum;
                    offset := wrap64 (offset st + ObjectPart.Size part);
                    out := print w [PrintOK] |}
  end.

(** Lines 309-330: [for _, part := range objAttrs.ObjectParts.Parts]. *)
Fixpoint range (parts : list ObjectPart.t) (st : Loop) : Step :=
  match parts with
  | [] => Continue st
  | part :: rest =>
      match iteration part st with
      | Continue st' => range rest st'
      | Exit o w => Exit o w
      end
  end.

(** Lines 300-341: a multi-part object. *)
Definition multipart (objSum : string) (h0 checksumOfChecksums0 : hash.Hash)
    (objectParts : GetObjectAttributesParts) (w : World) : Outcome * World :=
  let numParts := Z.of_nat (List.length (Parts objectParts)) in
  let w := print w [PrintNumParts numParts] in
  match range (Parts objectParts)
          {| h := h0; checksumOfChecksums := checksumOfChecksums0; offset := 0; out := w |} with
  | Exit o w => (o, w)
  | Continue st =>
      let sum := base64.EncodeToString (hash.Sum (checksumOfChecksums st)) in
      let w := print (out st) [PrintChecksumOfChecksums sum] in
      if negb (sum =? objSum)%string then (ChecksumMismatch, w)
      else (ChecksumMatch, w)
  end.

(** Lines 252-341: what follows the comparison of the sizes. *)
Definition verify (checksum : Checksum.t) (objAttrs : GetObjectAttributesOutput)
    (w : World) : Outcome * World :=
  match selectChecksum checksum with
  | None => (UnsupportedAlgorithm, w)
  | Some (objSum, h0, checksumOfChecksums0) =>
      let w := eprintln w (notice checksum) in
      let w := print w [PrintObjectChecksum objSum] in
      match ObjectParts objAttrs with
      | None => single objSum h0 w
      | Some objectParts => multipart objSum h0 checksumOfChecksums0 objectParts w
      end
  end.

(** Lines 240-341 of [main]: from the response of GetObjectAttributes to
    the exit.  [fileSize] is the size [os.Stat] reports for the local
    file. *)
Definition main (objAttrs : GetObjectAttributesOutput) (w : World) : Outcome * World :=
  let fileSize := Z.of_nat (List.length (file w)) in
  match Checksum objAttrs with
  | None => (NoChecksum, w)
  | Some checksum =>
      if negb (ObjectSize objAttrs =? fileSize) then
        (ObjectSizeMismatch (ObjectSize objAttrs) fileSize, w)
      else verify checksum objAttrs w
  end.

End V001.

(** ** main.go, version 0.1.0 ([src/Makefile], lines 77-452) *)
Module V010.
Import s3Types s3.

(** Lines 367-384: not a multi-part object. *)
Definition single (objSum : string) (h : hash.Hash) (w : World) : Outcome * World :=
  let w := print w [CopyFile] in
  match io.Copy (reads w) (file w) with
  | Panic => (Panicked, w)
  | Return _ (Some err) => (Failed err, w)
  | Return p None =>
      let h := hash.Write h p in
      let sum := base64.EncodeToString (hash.Sum h) in
      let w := print w [PrintLocalChecksum sum] in
      if negb (sum =? objSum)%string then (ChecksumMismatch, w)
      else (ChecksumMatch, w)
  end.

(** The variables that live across the iterations of the loop of lines
    401-436; [f] is what is left to read of the local stream, [h] the hasher
    of the checksum of checksums. *)
Record Loop : Type := mkLoop {
  f : list byte;
  h : hash.Hash;
  offset : Z;
  partNumber : Z;
  out : World
}.

Inductive Step : Type :=
| Continue (st : Loop)
| Exit (o : Outcome) (w : World).

(** Lines 402-435: one iteration. *)
Definition iteration (algorithm : ChecksumAlgorithm) (part : ObjectPart.t)
    (st : Loop) : Step :=
  if negb (partNumber st =? ObjectPart.PartNumber part) then Exit PartsNotSorted (out st)
  else
  let partSize := ObjectPart.Size part in
  match Utils010.newHash algorithm with
  | Panic => Exit Panicked (out st)
  | Return _ (Some err) => Exit (Failed err) (out st)
  | Return None None => Exit Panicked (out st)
  | Return (Some partHash) None =>
      let w := print (out st) [CopyLimit partSize] in
      match io.CopyLimit (reads w) (f st) partSize with
      | Panic => Exit Panicked w
      | Return _ (Some err) => Exit (Failed err) w
      | Return (p, f) None =>
      let partHash := hash.Write partHash p in
      let partSum := hash.Sum partHash in
      let partSumEncoded := base64.EncodeToString partSum in
      let w := print w [PrintPart (partNumber st) partSumEncoded] in
      match Utils010.getPartChecksum part algorithm with
      | Panic => Exit Panicked w
      | Return _ (Some err) => Exit (Failed err) w
      | Return partChecksum None =>
          if negb (partSumEncoded =? partChecksum)%string then
            Exit (PartMismatch (partNumber st) (offset st) (wrap64 (offset st + partSize)))
                 (print w [PrintFAILED])
          else
            Continue {| f := f;
                        h := hash.Write (h st) partSum;
                        offset := wrap64 (offset st + partSize);
                        partNumber := wrap32 (partNumber st + 1);
                        out := print w [PrintOK] |}
      end
      end
  end.

(** Lines 401-436: [for _, part := range objAttrs.ObjectParts.Parts]. *)
Fixpoint range (algorithm : ChecksumAlgorithm) (parts : list ObjectPart.t)
    (st : Loop) : Step :=
  match parts with
  | [] => Continue st
  | part :: rest =>
      match iteration algorithm part st with
      | Continue st' => range algorithm rest st'
      | Exit o w => Exit o w
      end
  end.

(** Lines 386-451: a multi-part object. *)
Definition multipart (algorithm : ChecksumAlgorithm) (objSum : string) (h0 : hash.Hash)
    (objectParts : GetObjectAttributesParts) (w : World) : Outcome * World :=
  let numParts := TotalPartsCount objectParts in
  let w := print w [PrintNumParts numParts] in
  if negb (numParts =? Z.of_nat (List.length (Parts objectParts)))
     || IsTruncated objectParts then (PartsTruncated, w)
  else
  match range algorithm (Parts objectParts)
          {| f := file w; h := h0; offset := 0; partNumber := 1; out := w |} with
  | Exit o w => (o, w)
  | Continue st =>
      let sum := base64.EncodeToString (hash.Sum (h st)) in
      let sum :=
        if negb (String.length sum =? String.length objSum)%nat
        then (sum ++ "-" ++ fmt.d numParts)%string
        else sum in
      let w := print (out st) [PrintChecksumOfChecksums sum] in
      if negb (sum =? objSum)%string then (ChecksumMismatch, w)
      else (ChecksumMatch, w)
  end.

(** Lines 349-451: what follows the comparison of the sizes. *)
Definition verify (checksum : Checksum.t) (objAttrs : GetObjectAttributesOutput)
    (w : World) : Outcome * World :=
  match Utils010.getChecksumAlgorithm checksum with
  | Panic => (Panicked, w)
  | Return _ (Some _) => (UnsupportedAlgorithm, w)
  | Return algorithm None =>
  match Utils010.getChecksum checksum algorithm with
  | Panic => (Panicked, w)
  | Return _ (Some err) => (Failed err, w)
  | Return objSum None =>
  match Utils010.newHash algorithm with
  | Panic => (Panicked, w)
  | Return _ (Some err) => (Failed err, w)
  | Return None None => (Panicked, w)
  | Return (Some h0) None =>
      let w := print w [PrintObjectChecksum objSum] in
      match ObjectParts objAttrs with
      | None => single objSum h0 w
      | Some objectParts => multipart algorithm objSum h0 objectParts w
      end
  end end end.

(** Lines 327-451 of [main]: from the response of GetObjectAttributes to
    the exit.  The local path [-] is standard input, whose size is not
    looked up. *)
Definition main (localPath : string) (objAttrs : GetObjectAttributesOutput)
    (w : World) : Outcome * World :=
  match Checksum objAttrs with
  | None => (NoChecksum, w)
  | Some checksum =>
      if negb (localPath =? "-")%string then
        match os.Stat (file w) with
        | Panic => (Panicked, w)
        | Return _ (Some err) => (Failed err, w)
        | Return fileSize None =>
            let objectSize := ObjectSize objAttrs in
            if negb (objectSize =? fileSize) then
              (ObjectSizeMismatch objectSize fileSize, w)
            else verify checksum objAttrs w
        end
      else verify checksum objAttrs w
  end.

End V010.

(** ** The specification's reading of algorithm selection

    The four optional fields in the fixed order SHA1, SHA256, CRC32, CRC32C,
    each with its algorithm; selection is the first populated one. *)
Definition selectionOrder :
    list ((s3Types.Checksum.t -> option string) * s3Types.ChecksumAlgorithm) :=
  [(s3Types.Checksum.ChecksumSHA1, s3Types.ChecksumAlgorithmSha1);
   (s3Types.Checksum.ChecksumSHA256, s3Types.ChecksumAlgorithmSha256);
   (s3Types.Checksum.ChecksumCRC32, s3Types.ChecksumAlgorithmCrc32);
   (s3Types.Checksum.ChecksumCRC32C, s3Types.ChecksumAlgorithmCrc32c)].

Definition firstPopulated (v : s3Types.Checksum.t) : option s3Types.ChecksumAlgorithm :=
  option_map snd (find (fun fa => notNil (fst fa v)) selectionOrder).

(** The checksum fields of a part record. *)
Definition partChecksums (part : s3Types.ObjectPart.t) : list (option string) :=
  [s3Types.ObjectPart.ChecksumSHA1 part; s3Types.ObjectPart.ChecksumSHA256 part;
   s3Types.ObjectPart.ChecksumCRC32 part; s3Types.ObjectPart.ChecksumCRC32C part].

(** ** The loop of version 0.0.1, seen from its input

    [offsetAfter parts offset] is the value of [offset] after the loop has
    gone over [parts]: the sizes added up in [int64]. *)
Definition offsetAfter (parts : list s3Types.ObjectPart.t) (offset : Z) : Z :=
  fold_left (fun o part => wrap64 (o + s3Types.ObjectPart.Size part)) parts offset.

(** The values [partSum] of line 315 as the loop of version 0.0.1 computes
    them, one for each part in the order of the listing, for as long as the
    reads succeed.  They come from the one hasher [h], which is never reset:
    the value taken at a part is the digest of everything read so far, that
    part included, not of the part alone. *)
Fixpoint partSums (path : string) (f : list byte) (parts : list s3Types.ObjectPart.t)
    (h : hash.Hash) (offset : Z) : list (list byte) :=
  match parts with
  | [] => []
  | part :: rest =>
      match io.CopySection path f offset (s3Types.ObjectPart.Size part) with
      | Return p None =>
          let h := hash.Write h p in
          hash.Sum h :: partSums path f rest h (wrap64 (offset + s3Types.ObjectPart.Size part))
      | _ => []
      end
  end.

(** Every part is read and passes the test of lines 318-321, which compares
    the value of [partSums] with the fields of the part record. *)
Fixpoint everyPartMatches (path : string) (f : list byte) (parts : list s3Types.ObjectPart.t)
    (h : hash.Hash) (offset : Z) : bool :=
  match parts with
  | [] => true
  | part :: rest =>
      match io.CopySection path f offset (s3Types.ObjectPart.Size part) with
      | Return p None =>
          let h := hash.Write h p in
          negb (V001.partFailed part (base64.EncodeToString (hash.Sum h)))
          && everyPartMatches path f rest h (wrap64 (offset + s3Types.ObjectPart.Size part))
      | _ => false
      end
  end.

(** Everything the loop of version 0.0.1 reads from the file for [parts],
    concatenated, for as long as the reads succeed. *)
Fixpoint sectionsRead (path : string) (f : list byte) (parts : list s3Types.ObjectPart.t)
    (offset : Z) : list byte :=
  match parts with
  | [] => []
  | part :: rest =>
      match io.CopySection path f offset (s3Types.ObjectPart.Size part) with
      | Return p None =>
          p ++ sectionsRead path f rest (wrap64 (offset + s3Types.ObjectPart.Size part))
      | _ => []
      end
  end.

(** The outcomes by which version 0.1.0 refuses a part listing. *)
Definition refusesListing (o : Outcome) : bool :=
  match o with
  | PartsTruncated | PartsNotSorted => true
  | _ => false
  end.

(** The reads of the local file recorded in a run's output. *)
Definition isCopy (e : Event) : bool :=
  match e with
  | CopyFile | CopySection _ _ | CopyLimit _ => true
  | _ => false
  end.

(** Two worlds with the same file: the same name and the same contents,
    whatever the operating system does with the reads and whatever has been
    printed.  Two loop states, or two results of the loop, that differ at
    most in these. *)
Definition sameFile (v w : World) : Prop :=
  name v = name w /\ file v = file w.

Definition sameState (a b : V001.Loop) : Prop :=
  V001.h a = V001.h b
  /\ V001.checksumOfChecksums a = V001.checksumOfChecksums b
  /\ V001.offset a = V001.offset b
  /\ sameFile (V001.out a) (V001.out b).

Definition sameStep (a b : V001.Step) : Prop :=
  match a, b with
  | V001.Continue x, V001.Continue y => sameState x y
  | V001.Exit o w, V001.Exit o' w' => o = o' /\ sameFile w w'
  | _, _ => False
  end.

Definition stepWorld (a : V001.Step) : World :=
  match a with
  | V001.Continue st => V001.out st
  | V001.Exit _ w => w
  end.

(** A response without a checksum record, for a local file of another
    size. *)
Definition responseWithoutChecksum : s3.GetObjectAttributesOutput :=
  {| s3.Checksum := None; s3.ObjectParts := None; s3.ObjectSize := 5 |}.

Definition threeBytes : World :=
  {| name := "abc.txt"; file := bytes "abc"; reads := fun n => n; stdout := [];
     stderr := [] |}.

(** ** Example inputs *)

(** Two local files, read in one piece: every read hands out all that is
    left. *)
Definition hello : World :=
  {| name := "hello.txt"; file := bytes "hello"; reads := fun n => n; stdout := [];
     stderr := [] |}.
Definition helloworld : World :=
  {| name := "helloworld.txt"; file := bytes "helloworld"; reads := fun n => n;
     stdout := []; stderr := [] |}.

(** A part record and an object checksum that carry a CRC32 checksum. *)
Definition crc32Part (partNumber size : Z) (sum : string) : s3Types.ObjectPart.t :=
  {| s3Types.ObjectPart.ChecksumCRC32 := Some sum;
     s3Types.ObjectPart.ChecksumCRC32C := None;
     s3Types.ObjectPart.ChecksumSHA1 := None;
     s3Types.ObjectPart.ChecksumSHA256 := None;
     s3Types.ObjectPart.PartNumber := partNumber;
     s3Types.ObjectPart.Size := size |}.

Definition crc32Checksum (sum : string) : s3Types.Checksum.t :=
  {| s3Types.Checksum.ChecksumCRC32 := Some sum;
     s3Types.Checksum.ChecksumCRC32C := None;
     s3Types.Checksum.ChecksumSHA1 := None;
     s3Types.Checksum.ChecksumSHA256 := None |}.

(** A part record and an object checksum with no field populated. *)
Definition barePart (partNumber size : Z) : s3Types.ObjectPart.t :=
  {| s3Types.ObjectPart.ChecksumCRC32 := None;
     s3Types.ObjectPart.ChecksumCRC32C := None;
     s3Types.ObjectPart.ChecksumSHA1 := None;
     s3Types.ObjectPart.ChecksumSHA256 := None;
     s3Types.ObjectPart.PartNumber := partNumber;
     s3Types.ObjectPart.Size := size |}.

Definition bareChecksum : s3Types.Checksum.t :=
  {| s3Types.Checksum.ChecksumCRC32 := None;
     s3Types.Checksum.ChecksumCRC32C := None;
     s3Types.Checksum.ChecksumSHA1 := None;
     s3Types.Checksum.ChecksumSHA256 := None |}.

(** The ten bytes of [helloworld] uploaded in two parts of five bytes: each
    part record carries the CRC32 of its five bytes, the object the CRC32 of
    the two raw part digests. *)
Definition twoPartObject : s3.GetObjectAttributesOutput :=
  {| s3.Checksum := Some (crc32Checksum "wpn7tg==");
     s3.ObjectParts :=
       Some {| s3Types.IsTruncated := false;
               s3Types.Parts := [crc32Part 1 5 "NhCmhg=="; crc32Part 2 5 "OncRQw=="];
               s3Types.TotalPartsCount := 2 |};
     s3.ObjectSize := 10 |}.

(** The five bytes of [hello] uploaded as a multi-part object of one part. *)
Definition onePartObject : s3.GetObjectAttributesOutput :=
  {| s3.Checksum := Some (crc32Checksum "FKTmaw==");
     s3.ObjectParts :=
       Some {| s3Types.IsTruncated := false;
               s3Types.Parts := [crc32Part 1 5 "NhCmhg=="];
               s3Types.TotalPartsCount := 1 |};
     s3.ObjectSize := 5 |}.

(** The same object in a directory bucket, which appends the number of parts
    to the checksum of checksums. *)
Definition directoryBucketObject : s3.GetObjectAttributesOutput :=
  {| s3.Checksum := Some (crc32Checksum "FKTmaw==-1");
     s3.ObjectParts :=
       Some {| s3Types.IsTruncated := false;
               s3Types.Parts := [crc32Part 1 5 "NhCmhg=="];
               s3Types.TotalPartsCount := 1 |};
     s3.ObjectSize := 5 |}.

(** [twoPartObject] with a listing that stops after the first part. *)
Definition truncatedListing : s3.GetObjectAttributesOutput :=
  {| s3.Checksum := Some (crc32Checksum "wpn7tg==");
     s3.ObjectParts :=
       Some {| s3Types.IsTruncated := true;
               s3Types.Parts := [crc32Part 1 5 "NhCmhg=="];
               s3Types.TotalPartsCount := 2 |};
     s3.ObjectSize := 10 |}.

(** [onePartObject] with a declared count of three parts. *)
Definition shortListing : s3.GetObjectAttributesOutput :=
  {| s3.Checksum := Some (crc32Checksum "FKTmaw==");
     s3.ObjectParts :=
       Some {| s3Types.IsTruncated := false;
               s3Types.Parts := [crc32Part 1 5 "NhCmhg=="];
               s3Types.TotalPartsCount := 3 |};
     s3.ObjectSize := 5 |}.

(** [onePartObject] with its only part numbered 2. *)
Definition misnumberedPart : s3.GetObjectAttributesOutput :=
  {| s3.Checksum := Some (crc32Checksum "FKTmaw==");
     s3.ObjectParts :=
       Some {| s3Types.IsTruncated := false;
               s3Types.Parts := [crc32Part 2 5 "NhCmhg=="];
               s3Types.TotalPartsCount := 1 |};
     s3.ObjectSize := 5 |}.

(** The loop of version 0.0.1 on [helloworld] with CRC32 hashers: at its
    start, and after a first part of four bytes has passed. *)
Definition loopStart : V001.Loop :=
  {| V001.h := crc32.NewIEEE;
     V001.checksumOfChecksums := crc32.NewIEEE;
     V001.offset := 0;
     V001.out := helloworld |}.

Definition loopAfterHell : V001.Loop :=
  {| V001.h := hash.Write crc32.NewIEEE (bytes "hell");
     V001.checksumOfChecksums :=
       hash.Write crc32.NewIEEE (crc32.Sum crc32.IEEE (bytes "hell"));
     V001.offset := 4;
     V001.out := print helloworld [CopySection 0 4; PrintPart 1 "HIYA4w=="; PrintOK] |}.

(** ** strings *)
Module strings.

(** [strings.HasPrefix(s, prefix)] *)
Definition HasPrefix (s prefix : string) : bool := String.prefix prefix s.

(** [s[n:]], for [n] up to the length of [s]. *)
Fixpoint drop (n : nat) (s : string) : string :=
  match n, s with
  | O, _ => s
  | S n', String _ s' => drop n' s'
  | S _, EmptyString => EmptyString
  end.

(** [strings.Cut(s, sep)]: the text before and after the first [sep]. *)
Fixpoint Cut (s sep : string) : option (string * string) :=
  if String.prefix sep s then Some (EmptyString, drop (String.length sep) s)
  else
    match s with
    | EmptyString => None
    | String c s' =>
        match Cut s' sep with
        | Some (before, after) => Some (String c before, after)
        | None => None
        end
    end.

(** The loop of [genSplit]: at most [fuel] cuts, the rest as last piece. *)
Fixpoint pieces (fuel : nat) (s sep : string) : list string :=
  match fuel with
  | O => [s]
  | S fuel' =>
      match Cut s sep with
      | Some (before, after) => before :: pieces fuel' after sep
      | None => [s]
      end
  end.

Fixpoint explode (fuel : nat) (s : string) : list string :=
  match fuel, s with
  | _, EmptyString => []
  | O, _ => [s]
  | S fuel', String c s' =>
      match s' with
      | EmptyString => [s]
      | _ => String c EmptyString :: explode fuel' s'
      end
  end.

(** [strings.SplitN(s, sep, n)]: nothing for [n = 0], every piece for
    [n < 0], at most [n] pieces otherwise.  With the empty separator the
    string is split into its characters (here its bytes, which is the same
    for ASCII text; the program never passes the empty separator). *)
Definition SplitN (s sep : string) (n : Z) : list string :=
  if n =? 0 then []
  else
    let cuts := if n <? 0 then String.length s else Z.to_nat (n - 1) in
    match sep with
    | EmptyString => explode cuts s
    | _ => pieces cuts s sep
    end.

End strings.

(** ** The helpers of utils.go ([src/utils.go]; the same text is lines 17-94
    of [src/unnamed/part_000]) *)
Module Helpers.

Definition pluralize (n : Z) : string :=
  if n =? 1 then EmptyString else "s".

(** The loop ranges over the runes of [s].  A digit is a single byte, and
    no byte of a longer or broken sequence is one, so the test on the bytes
    is the same test. *)
Fixpoint isNumeric (s : string) : bool :=
  match s with
  | EmptyString => true
  | String c s' =>
      if (c <? "0")%char || ("9" <? c)%char then false else isNumeric s'
  end.

Definition parseS3Uri (s : string) : string * string :=
  if negb (strings.HasPrefix s "s3://") then (EmptyString, EmptyString)
  else
    let parts := strings.SplitN (strings.drop 5 s) "/" 2 in
    match parts with
    | [] => (EmptyString, EmptyString)
    | [bucket] => (bucket, EmptyString)
    | bucket :: key :: _ => (bucket, key)
    end.

Definition normalizeBucketLocation (loc : string) : string :=
  if (loc =? EmptyString)%string then "us-east-1" else loc.

(** What [mfaTokenProvider] writes to the terminal. *)
Inductive Terminal : Type :=
| AskCode      (* Assume Role MFA token code: *)
| TryAgain.    (* Code must consist of 6 digits. Please try again. *)

(** [mfaTokenProvider] against the successive results of [fmt.Scanln]: the
    token read and the error of the read.  The loop has no exit of its own:
    when the results run out it is still asking, which is [None]. *)
Fixpoint mfaTokenProvider (scans : list (string * option string))
    : option (string * option string) * list Terminal :=
  match scans with
  | [] => (None, [AskCode])
  | (code, err) :: rest =>
      if (String.length code =? 6)%nat && isNumeric code
      then (Some (code, err), [AskCode])
      else
        let (r, out) := mfaTokenProvider rest in
        (r, AskCode :: TryAgain :: out)
  end.

(** Lines 108-113 of [main] (version 0.0.1): the S3Uri argument is taken
    when both the bucket and the key come out non-empty. *)
Definition acceptS3Uri (arg : string) : option (string * string) :=
  let (bucket, key) := parseS3Uri arg in
  if (bucket =? EmptyString)%string || (key =? EmptyString)%string then None
  else Some (bucket, key).

End Helpers.

(** The token is taken: six bytes, all digits. *)
Definition sixDigits (code : string) : bool :=
  (String.length code =? 6)%nat && Helpers.isNumeric code.

(** What the terminal shows for the scans refused before one is taken. *)
Fixpoint refusals (n : nat) : list Helpers.Terminal :=
  match n with
  | O => [Helpers.AskCode]
  | S n' => Helpers.AskCode :: Helpers.TryAgain :: refusals n'
  end.

(** The size of a digest of each algorithm, in bytes and in base64
    characters. *)
Definition digestSize (a : s3Types.ChecksumAlgorithm) : nat :=
  match switch a with
  | CaseSha1 => 20
  | CaseSha256 => 32
  | CaseCrc32 | CaseCrc32c => 4
  | CaseDefault => 0
  end.

Definition encodedSize (a : s3Types.ChecksumAlgorithm) : nat :=
  match switch a with
  | CaseSha1 => 28
  | CaseSha256 => 44
  | CaseCrc32 | CaseCrc32c => 8
  | CaseDefault => 0
  end.

(** The sizes of a listing added up, without wrapping. *)
Definition totalSize (parts : list s3Types.ObjectPart.t) : Z :=
  fold_right (fun part sum => s3Types.ObjectPart.Size part + sum) 0 parts.

(** A listing as the store gives it: no negative size, and a total that an
    [int64] holds. *)
Definition sizesFit (parts : list s3Types.ObjectPart.t) : Prop :=
  Forall (fun part => 0 <= s3Types.ObjectPart.Size part) parts
  /\ totalSize parts <= maxint64.

(** Two results of the loop of version 0.0.1 that end alike, whatever the
    files and the output are. *)
Definition sameOutcome (a b : V001.Step) : Prop :=
  match a, b with
  | V001.Continue x, V001.Continue y =>
      V001.h x = V001.h y
      /\ V001.checksumOfChecksums x = V001.checksumOfChecksums y
      /\ V001.offset x = V001.offset y
  | V001.Exit o _, V001.Exit o' _ => o = o'
  | _, _ => False
  end.

(** The field of a record that belongs to an algorithm. *)
Definition partField (a : s3Types.ChecksumAlgorithm) (part : s3Types.ObjectPart.t)
    : option string :=
  match switch a with
  | CaseSha1 => s3Types.ObjectPart.ChecksumSHA1 part
  | CaseSha256 => s3Types.ObjectPart.ChecksumSHA256 part
  | CaseCrc32 => s3Types.ObjectPart.ChecksumCRC32 part
  | CaseCrc32c => s3Types.ObjectPart.ChecksumCRC32C part
  | CaseDefault => None
  end.

Definition checksumField (a : s3Types.ChecksumAlgorithm) (v : s3Types.Checksum.t)
    : option string :=
  match switch a with
  | CaseSha1 => s3Types.Checksum.ChecksumSHA1 v
  | CaseSha256 => s3Types.Checksum.ChecksumSHA256 v
  | CaseCrc32 => s3Types.Checksum.ChecksumCRC32 v
  | CaseCrc32c => s3Types.Checksum.ChecksumCRC32C v
  | CaseDefault => None
  end.

(** The value of [partNumber] in version 0.1.0 after [n] iterations from
    [p], counted in [int32], and the numbers it takes on the way. *)
Fixpoint numberAfter (p : Z) (n : nat) : Z :=
  match n with
  | O => p
  | S n' => numberAfter (wrap32 (p + 1)) n'
  end.

Fixpoint numbers (p : Z) (n : nat) : list Z :=
  match n with
  | O => []
  | S n' => p :: numbers (wrap32 (p + 1)) n'
  end.

(** The stream [f] cut into the parts of a listing, one after the other, as
    [io.LimitReader] hands them out. *)
Fixpoint chunks (f : list byte) (parts : list s3Types.ObjectPart.t) : list (list byte) :=
  match parts with
  | [] => []
  | part :: rest =>
      firstn (Z.to_nat (s3Types.ObjectPart.Size part)) f
      :: chunks (skipn (Z.to_nat (s3Types.ObjectPart.Size part)) f) rest
  end.

(** The candidate of the specification (section 4.4, steps 2 to 5): every
    part goes through a hasher of its own, made as [h0] is, so its digest is
    that of its own bytes; the raw digests, in the order of the parts, go
    through the composite hasher, and the result is encoded. *)
Definition perPartDigests (h0 : hash.Hash) (f : list byte)
    (parts : list s3Types.ObjectPart.t) : list (list byte) :=
  map (hash.digest h0) (chunks f parts).

Definition checksumOfPartDigests (h0 : hash.Hash) (f : list byte)
    (parts : list s3Types.ObjectPart.t) : string :=
  base64.EncodeToString (hash.digest h0 (List.concat (perPartDigests h0 f parts))).

(** [twoPartObject] with part records that carry no checksum, for two sizes
    and for those of [twoPartObject]. *)
Definition twoBareParts (size1 size2 : Z) : s3.GetObjectAttributesOutput :=
  {| s3.Checksum := Some (crc32Checksum "wpn7tg==");
     s3.ObjectParts :=
       Some {| s3Types.IsTruncated := false;
               s3Types.Parts := [barePart 1 size1; barePart 2 size2];
               s3Types.TotalPartsCount := 2 |};
     s3.ObjectSize := 10 |}.

Definition unlistedPartChecksums : s3.GetObjectAttributesOutput := twoBareParts 5 5.

(** The ten bytes of [helloworld] uploaded in one piece, and the same file
    after a first run, read three bytes at a time. *)
Definition wholeObject : s3.GetObjectAttributesOutput :=
  {| s3.Checksum := Some (crc32Checksum "+esgrQ==");
     s3.ObjectParts := None;
     s3.ObjectSize := 10 |}.

Definition helloworldAgain : World :=
  {| name := "helloworld.txt"; file := bytes "helloworld"; reads := fun _ => 3;
     stdout := [PrintObjectChecksum "+esgrQ=="; CopyFile; PrintLocalChecksum "+esgrQ=="];
     stderr := ["S3 object was uploaded using the CRC32 checksum algorithm."] |}.

(** The bytes a listing asks for, a negative size counting as none. *)
Definition bytesAsked (parts : list s3Types.ObjectPart.t) : nat :=
  fold_right (fun part n => (Z.to_nat (s3Types.ObjectPart.Size part) + n)%nat) O parts.

(** Two results of the loop of version 0.1.0 that end alike. *)
Definition sameOutcome010 (a b : V010.Step) : Prop :=
  match a, b with
  | V010.Continue x, V010.Continue y =>
      V010.h x = V010.h y /\ V010.offset x = V010.offset y
      /\ V010.partNumber x = V010.partNumber y
  | V010.Exit o _, V010.Exit o' _ => o = o'
  | _, _ => False
  end.

(** More example inputs: the five bytes of [hello] uploaded in one piece; a
    file that differs from [helloworld] after its fifth byte; the loop of
    version 0.1.0 on [hello] for the one part of [directoryBucketObject], at
    its start and at its end. *)
Definition singleObject : s3.GetObjectAttributesOutput :=
  {| s3.Checksum := Some (crc32Checksum "NhCmhg==");
     s3.ObjectParts := None;
     s3.ObjectSize := 5 |}.

Definition helloWORLD : World :=
  {| name := "helloWORLD.txt"; file := bytes "helloWORLD"; reads := fun n => n;
     stdout := []; stderr := [] |}.

Definition loopStart010 : V010.Loop :=
  {| V010.f := bytes "hello";
     V010.h := crc32.NewIEEE;
     V010.offset := 0;
     V010.partNumber := 1;
     V010.out := print hello [PrintNumParts 1] |}.

Definition loopEnd010 : V010.Loop :=
  {| V010.f := [];
     V010.h := hash.Write crc32.NewIEEE (crc32.Sum crc32.IEEE (bytes "hello"));
     V010.offset := 5;
     V010.partNumber := 2;
     V010.out :=
       print hello [PrintNumParts 1; CopyLimit 5; PrintPart 1 "NhCmhg=="; PrintOK] |}.

(** A string holds the character [c]. *)
Fixpoint holds (c : ascii) (s : string) : bool :=
  match s with
  | EmptyString => false
  | String c' s' => (c' =? c)%char || holds c s'
  end.

(** * Properties *)

(** ** The library models agree with the published test vectors *)

Example base64_vectors :
  base64.EncodeToString (bytes "f") = "Zg==" /\
  base64.EncodeToString (bytes "fo") = "Zm8=" /\
  base64.EncodeToString (bytes "foo") = "Zm9v" /\
  base64.EncodeToString (bytes "foobar") = "Zm9vYmFy".
Proof. repeat split; reflexivity. Qed.

Example crc32_vectors :
  crc32.Checksum crc32.IEEE (bytes "123456789") = 0xCBF43926 /\
  crc32.Checksum crc32.Castagnoli (bytes "123456789") = 0xE3069283.
Proof. split; vm_compute; reflexivity. Qed.

Example sha1_vectors :
  base64.EncodeToString (sha1.Sum (bytes "abc")) = "qZk+NkcGgWq6PiVxeFDCbJzQ2J0="
  /\ base64.EncodeToString (sha1.Sum (repeat "a"%byte 64)) = "AJi6gktcFkJ716ESKlpEKiXsZE0="
  /\ base64.EncodeToString (sha1.Sum (repeat "a"%byte 100)) = "f5AAJXpJGNcHJlXqRoVAzcvULgw=".
Proof. repeat split; vm_compute; reflexivity. Qed.

Example sha256_vectors :
  base64.EncodeToString (sha256.Sum (bytes "abc"))
  = "ungWv48Bz+pBQUDeXa4iI7ADYaOWF3qctBD/YfIAFa0="
  /\ base64.EncodeToString (sha256.Sum (repeat "a"%byte 56))
     = "s1Q5pKxvCUi21vnjxq8PX1kM4g8b3nCQ73lwaG7Gc4o="
  /\ base64.EncodeToString (sha256.Sum (repeat "a"%byte 100))
     = "KBZZeIjkoNOja4K4MxarMmgOuPAPjNO5BNaBJG0oWg4=".
Proof. repeat split; vm_compute; reflexivity. Qed.

(** The process exits with status 0 only on a match. *)
Lemma exitStatus_zero (o : Outcome) : exitStatus o = 0 <-> o = ChecksumMatch.
Proof. destruct o; cbn; split; intros H; try reflexivity; discriminate. Qed.

(** ** The reads of the operating system *)
Section OperatingSystem.

Lemma firstn_then_skipn {A : Type} (k : nat) (l : list A) :
  firstn k l ++ skipn (List.length (firstn k l)) l = l.
Proof.
  revert k. induction l as [|a l IH]; intros [|k]; cbn; try reflexivity.
  now rewrite IH.
Qed.

Lemma skipn_length_firstn {A : Type} (k : nat) (l : list A) :
  skipn (List.length (firstn k l)) l = skipn k l.
Proof.
  revert k. induction l as [|a l IH]; intros [|k]; cbn; try reflexivity.
  apply IH.
Qed.

Lemma firstn_in_two {A : Type} (m n : nat) (l : list A) :
  (m <= n)%nat -> firstn m l ++ firstn (n - m) (skipn m l) = firstn n l.
Proof.
  intros H. rewrite firstn_skipn_comm.
  replace (m + (n - m))%nat with n by lia.
  transitivity (firstn m (firstn n l) ++ skipn m (firstn n l)).
  - f_equal. rewrite firstn_firstn. f_equal. lia.
  - apply firstn_skipn.
Qed.

(** A read hands out a prefix of what is left, of at least one byte and at
    most the length of the buffer. *)
Lemma Read_prefix (reads : Z -> Z) (len : Z) (rest : list byte) :
  1 <= len ->
  exists k, (1 <= k <= Z.to_nat len)%nat /\ os.Read reads len rest = firstn k rest.
Proof.
  intros H. unfold os.Read. eexists. split; [|reflexivity]. lia.
Qed.

(** However the reads are cut, [io.Copy] writes the whole file. *)
Lemma copyBuffer_all (reads : Z -> Z) (fuel : nat) (rest : list byte) :
  (List.length rest <= fuel)%nat -> io.copyBuffer fuel reads rest = rest.
Proof.
  revert rest. induction fuel as [|fuel IH]; intros rest Hl.
  - destruct rest; [reflexivity | cbn in Hl; lia].
  - cbn [io.copyBuffer].
    destruct (Read_prefix reads 32768 rest) as (k & Hk & ->); [lia|].
    destruct (firstn k rest) as [|b p] eqn:E.
    + destruct rest; [reflexivity|]. destruct k; [lia | discriminate].
    + rewrite <- E. rewrite IH.
      * apply firstn_then_skipn.
      * rewrite length_skipn. rewrite E. cbn [List.length]. lia.
Qed.

Lemma Copy_all (reads : Z -> Z) (f : list byte) : io.Copy reads f = Return f None.
Proof. unfold io.Copy. now rewrite copyBuffer_all. Qed.

(** However the reads are cut, the copy of a limited reader writes the first
    [n] bytes of what is left, or all of it when it is shorter. *)
Lemma copyLimited_all (reads : Z -> Z) (fuel : nat) (rest : list byte) (n : Z) :
  (List.length rest <= fuel)%nat ->
  io.copyLimited fuel reads rest n = firstn (Z.to_nat n) rest.
Proof.
  revert rest n. induction fuel as [|fuel IH]; intros rest n Hl.
  - destruct rest; [now rewrite firstn_nil | cbn in Hl; lia].
  - cbn [io.copyLimited]. destruct (Z.leb_spec n 0) as [Hn|Hn].
    { replace (Z.to_nat n) with 0%nat by lia. reflexivity. }
    destruct (Read_prefix reads (Z.min 32768 n) rest) as (k & Hk & ->); [lia|].
    destruct (firstn k rest) as [|b p] eqn:E.
    + destruct rest; [now rewrite firstn_nil|]. destruct k; [lia | discriminate].
    + rewrite <- E. rewrite IH by (rewrite length_skipn, E; cbn [List.length]; lia).
      rewrite skipn_length_firstn.
      assert (Hlen : (List.length (firstn k rest) <= k)%nat) by apply firstn_le_length.
      pose proof (length_firstn k rest) as Hm.
      replace (Z.to_nat (n - Z.of_nat (List.length (firstn k rest))))
        with (Z.to_nat n - List.length (firstn k rest))%nat by lia.
      destruct (Nat.le_gt_cases k (List.length rest)) as [Hk'|Hk'].
      * rewrite Hm. replace (Nat.min k (List.length rest)) with k by lia.
        apply firstn_in_two. lia.
      * rewrite (firstn_all2 (n := k)) by lia. rewrite skipn_all2 by lia.
        rewrite firstn_nil, app_nil_r.
        destruct (Nat.le_gt_cases (Z.to_nat n) (List.length rest)) as [Hn'|Hn'];
          [lia|].
        now rewrite firstn_all2 by lia.
Qed.

Lemma CopyLimit_all (reads : Z -> Z) (f : list byte) (n : Z) :
  io.CopyLimit reads f n
  = Return (firstn (Z.to_nat n) f, skipn (Z.to_nat n) f) None.
Proof.
  unfold io.CopyLimit. rewrite copyLimited_all by lia.
  now rewrite skipn_length_firstn.
Qed.

(** A single read, by contrast, depends on the operating system. *)
Example Read_depends_on_the_reads :
  os.Read (fun n => n) 32768 (bytes "helloworld") = bytes "helloworld"
  /\ os.Read (fun _ => 3) 32768 (bytes "helloworld") = bytes "hel".
Proof. split; vm_compute; reflexivity. Qed.

End OperatingSystem.

(** ** Machine integers *)
Section MachineIntegers.

(** The values of Go's [int64]. *)
Lemma maxint64_value : maxint64 = 9223372036854775807.
Proof. reflexivity. Qed.

Lemma wrap64_range (x : Z) :
  - 9223372036854775808 <= wrap64 x <= 9223372036854775807.
Proof.
  unfold wrap64, wrap.
  change (2 ^ (64 - 1)) with 9223372036854775808.
  change (2 ^ 64) with 18446744073709551616.
  pose proof (Z.mod_pos_bound (x + 9223372036854775808) 18446744073709551616).
  lia.
Qed.

Lemma wrap64_small (x : Z) :
  - 9223372036854775808 <= x <= 9223372036854775807 -> wrap64 x = x.
Proof.
  intros H. unfold wrap64, wrap.
  change (2 ^ (64 - 1)) with 9223372036854775808.
  change (2 ^ 64) with 18446744073709551616.
  rewrite Z.mod_small; lia.
Qed.

(** One overflow upwards, and one downwards. *)
Lemma wrap64_above (x : Z) :
  9223372036854775807 < x <= 9223372036854775807 + 18446744073709551616 ->
  wrap64 x = x - 18446744073709551616.
Proof.
  intros H. unfold wrap64, wrap.
  change (2 ^ (64 - 1)) with 9223372036854775808.
  change (2 ^ 64) with 18446744073709551616.
  replace (x + 9223372036854775808)
    with (x - 9223372036854775808 + 1 * 18446744073709551616) by lia.
  rewrite Z.mod_add by lia. rewrite Z.mod_small; lia.
Qed.

Lemma wrap64_below (x : Z) :
  - 9223372036854775808 - 18446744073709551616 <= x < - 9223372036854775808 ->
  wrap64 x = x + 18446744073709551616.
Proof.
  intros H. unfold wrap64, wrap.
  change (2 ^ (64 - 1)) with 9223372036854775808.
  change (2 ^ 64) with 18446744073709551616.
  replace (x + 9223372036854775808)
    with (x + 9223372036854775808 + 18446744073709551616
          + (-1) * 18446744073709551616) by lia.
  rewrite Z.mod_add by lia. rewrite Z.mod_small; lia.
Qed.

End MachineIntegers.

(** ** Reading a section of the file *)
Section SectionReads.

(** From an offset that is not negative a section is copied without error,
    whatever its size. *)
Lemma CopySection_from_the_file (path : string) (f : list byte) (off n : Z) :
  0 <= off ->
  exists p, io.CopySection path f off n = Return p None.
Proof.
  intros Ho. unfold io.CopySection.
  set (limit := io.sectionLimit off n).
  assert (Hl : limit <= 9223372036854775807).
  { subst limit. unfold io.sectionLimit. rewrite maxint64_value.
    destruct (off <=? _); [apply wrap64_range | lia]. }
  destruct (Z.leb_spec limit off); [eauto|].
  rewrite wrap64_small by lia.
  destruct (Z.ltb_spec (limit - off) 0); [lia|].
  destruct (Z.ltb_spec off 0); [lia | eauto].
Qed.

(** From a negative offset, for an offset and a size that are [int64]
    values: the section of size 0 is empty, a size above 0 makes [ReadAt]
    refuse the offset, and a negative size makes [Read] panic on its own
    buffer. *)
Lemma CopySection_negative_offset (path : string) (f : list byte) (off n : Z) :
  - 9223372036854775808 <= off < 0 ->
  - 9223372036854775808 <= n <= 9223372036854775807 ->
  io.CopySection path f off n
  = if n =? 0 then Return [] None
    else if 0 <? n
         then Return [] (Some (os.PathError "readat" path "negative offset"))
         else Panic.
Proof.
  intros Ho Hn. unfold io.CopySection, io.sectionLimit. rewrite maxint64_value.
  destruct (Z.eqb_spec n 0) as [->|Hn0].
  - rewrite (wrap64_small (9223372036854775807 - 0)) by lia.
    destruct (Z.leb_spec off (9223372036854775807 - 0)); [|lia].
    rewrite (wrap64_small (0 + off)) by lia.
    destruct (Z.leb_spec (0 + off) off); [reflexivity | lia].
  - destruct (Z.ltb_spec 0 n) as [Hpos|Hneg].
    + rewrite (wrap64_small (9223372036854775807 - n)) by lia.
      destruct (Z.leb_spec off (9223372036854775807 - n)); [|lia].
      rewrite (wrap64_small (n + off)) by lia.
      destruct (Z.leb_spec (n + off) off); [lia|].
      rewrite wrap64_small by lia.
      destruct (Z.ltb_spec (n + off - off) 0); [lia|].
      destruct (Z.ltb_spec off 0); [reflexivity | lia].
    + rewrite (wrap64_above (9223372036854775807 - n)) by lia.
      destruct (Z.leb_spec off (9223372036854775807 - n - 18446744073709551616)).
      * rewrite (wrap64_below (n + off)) by lia.
        destruct (Z.leb_spec (n + off + 18446744073709551616) off); [lia|].
        rewrite wrap64_above by lia.
        destruct (Z.ltb_spec (n + off + 18446744073709551616 - off - 18446744073709551616) 0);
          [reflexivity | lia].
      * destruct (Z.leb_spec 9223372036854775807 off); [lia|].
        rewrite wrap64_above by lia.
        destruct (Z.ltb_spec (9223372036854775807 - off - 18446744073709551616) 0);
          [reflexivity | lia].
Qed.

End SectionReads.

(** ** Algorithm selection *)
Section Selection.
Import s3Types.

Lemma switch_Sha1 : switch ChecksumAlgorithmSha1 = CaseSha1.
Proof. reflexivity. Qed.
Lemma switch_Sha256 : switch ChecksumAlgorithmSha256 = CaseSha256.
Proof. reflexivity. Qed.
Lemma switch_Crc32 : switch ChecksumAlgorithmCrc32 = CaseCrc32.
Proof. reflexivity. Qed.
Lemma switch_Crc32c : switch ChecksumAlgorithmCrc32c = CaseCrc32c.
Proof. reflexivity. Qed.

(** C6. [getChecksumAlgorithm] returns the algorithm of the first populated
    field in the order SHA1, SHA256, CRC32, CRC32C, and an error when no
    field is populated; the selection written out in [main] (version
    0.0.1) makes the same choice, takes that field's value and the hashers
    of that algorithm, and exits as unsupported when nothing is
    populated. *)
Theorem C6_selection_first_populated (v : Checksum.t) :
  Utils.getChecksumAlgorithm v
  = match firstPopulated v with
    | Some a => Return a None
    | None => Return EmptyString (Some "unsupported checksum algorithm")
    end
  /\ match firstPopulated v with
     | Some a =>
         exists objSum h,
           Utils.getChecksum v a = Return objSum None
           /\ Utils.newHash a = Return (Some h) None
           /\ V001.selectChecksum v = Some (objSum, h, h)
     | None =>
         V001.selectChecksum v = None
         /\ forall objAttrs w, V001.verify v objAttrs w = (UnsupportedAlgorithm, w)
     end.
Proof.
  destruct v as [c32 c32c s1 s256].
  unfold firstPopulated, Utils.getChecksumAlgorithm, V001.selectChecksum, V001.verify,
    selectionOrder; cbn [find fst snd notNil option_map
      Checksum.ChecksumSHA1 Checksum.ChecksumSHA256
      Checksum.ChecksumCRC32 Checksum.ChecksumCRC32C].
  destruct s1 as [x1|]; cbn.
  { split; [reflexivity|]. eexists _, _. repeat split; reflexivity. }
  destruct s256 as [x2|]; cbn.
  { split; [reflexivity|]. eexists _, _. repeat split; reflexivity. }
  destruct c32 as [x3|]; cbn.
  { split; [reflexivity|]. eexists _, _. repeat split; reflexivity. }
  destruct c32c as [x4|]; cbn.
  { split; [reflexivity|]. eexists _, _. repeat split; reflexivity. }
  repeat split; reflexivity.
Qed.

End Selection.

(** ** The loop of version 0.0.1 *)
Section Loop001.
Import s3Types s3.

Lemma print_file (w : World) (es : list Event) : file (print w es) = file w.
Proof. reflexivity. Qed.

Lemma print_print (w : World) (es es' : list Event) :
  print (print w es) es' = print w (es ++ es').
Proof. unfold print; cbn. now rewrite <- app_assoc. Qed.

Lemma print_name (w : World) (es : list Event) : name (print w es) = name w.
Proof. reflexivity. Qed.

Lemma print_reads (w : World) (es : list Event) : reads (print w es) = reads w.
Proof. reflexivity. Qed.

(** An object that is not multi-part: the whole file goes through the
    hasher, however the reads are cut, and the two texts are compared. *)
Lemma single_whole_file (objSum : string) (h : hash.Hash) (w : World) :
  let sum := base64.EncodeToString (hash.Sum (hash.Write h (file w))) in
  V001.single objSum h w
  = (if (sum =? objSum)%string then ChecksumMatch else ChecksumMismatch,
     print w [CopyFile; PrintLocalChecksum sum]).
Proof.
  cbv zeta. unfold V001.single. rewrite print_file, print_reads, Copy_all.
  rewrite print_print. cbn [app]. now destruct (_ =? _)%string.
Qed.

Lemma single010_whole_file (objSum : string) (h : hash.Hash) (w : World) :
  let sum := base64.EncodeToString (hash.Sum (hash.Write h (file w))) in
  V010.single objSum h w
  = (if (sum =? objSum)%string then ChecksumMatch else ChecksumMismatch,
     print w [CopyFile; PrintLocalChecksum sum]).
Proof. exact (single_whole_file objSum h w). Qed.

Lemma eqb_differs (p : option string) (enc : string) :
  V001.differs p enc = true <-> exists s, p = Some s /\ s <> enc.
Proof.
  destruct p as [s|]; cbn.
  - destruct (String.eqb_spec enc s) as [->|Hne]; cbn; split.
    + discriminate.
    + intros (s' & [= <-] & Hs). now elim Hs.
    + intros _. exists s. split; [reflexivity|]. intros ->. now elim Hne.
    + reflexivity.
  - split; [discriminate|]. now intros (s & [=] & _).
Qed.

Lemma partFailed_iff (part : ObjectPart.t) (enc : string) :
  V001.partFailed part enc = true
  <-> exists s, In (Some s) (partChecksums part) /\ s <> enc.
Proof.
  unfold V001.partFailed, partChecksums.
  rewrite !orb_true_iff, !eqb_differs. cbn [In]. split.
  - intros [[[(s & E & H)|(s & E & H)]|(s & E & H)]|(s & E & H)];
      exists s; rewrite E; (split; [tauto | exact H]).
  - intros (s & [E|[E|[E|[E|[]]]]] & H); rewrite E; eauto 8.
Qed.

(** One iteration, case by case. *)
Lemma iteration_read_error (part : ObjectPart.t) (st : V001.Loop) (p : list byte)
    (err : string) :
  io.CopySection (name (V001.out st)) (file (V001.out st)) (V001.offset st)
    (ObjectPart.Size part) = Return p (Some err) ->
  V001.iteration part st
  = V001.Exit (Failed err)
      (print (V001.out st) [CopySection (V001.offset st) (ObjectPart.Size part)]).
Proof.
  intros E. unfold V001.iteration. rewrite print_file, print_name, E. reflexivity.
Qed.

Lemma iteration_panic (part : ObjectPart.t) (st : V001.Loop) :
  io.CopySection (name (V001.out st)) (file (V001.out st)) (V001.offset st)
    (ObjectPart.Size part) = Panic ->
  V001.iteration part st
  = V001.Exit Panicked
      (print (V001.out st) [CopySection (V001.offset st) (ObjectPart.Size part)]).
Proof.
  intros E. unfold V001.iteration. rewrite print_file, print_name, E. reflexivity.
Qed.

Lemma iteration_failed (part : ObjectPart.t) (st : V001.Loop) (p : list byte) :
  io.CopySection (name (V001.out st)) (file (V001.out st)) (V001.offset st)
    (ObjectPart.Size part) = Return p None ->
  V001.partFailed part (base64.EncodeToString (hash.Sum (hash.Write (V001.h st) p))) = true ->
  V001.iteration part st
  = V001.Exit
      (PartMismatch (ObjectPart.PartNumber part) (V001.offset st)
         (wrap64 (V001.offset st + ObjectPart.Size part)))
      (print (V001.out st)
         [CopySection (V001.offset st) (ObjectPart.Size part);
          PrintPart (ObjectPart.PartNumber part)
            (base64.EncodeToString (hash.Sum (hash.Write (V001.h st) p)));
          PrintFAILED]).
Proof.
  intros E F. unfold V001.iteration. rewrite print_file, print_name, E. cbv zeta.
  rewrite F. now rewrite !print_print.
Qed.

Lemma iteration_ok (part : ObjectPart.t) (st : V001.Loop) (p : list byte) :
  io.CopySection (name (V001.out st)) (file (V001.out st)) (V001.offset st)
    (ObjectPart.Size part) = Return p None ->
  V001.partFailed part (base64.EncodeToString (hash.Sum (hash.Write (V001.h st) p))) = false ->
  V001.iteration part st
  = V001.Continue
      {| V001.h := hash.Write (V001.h st) p;
         V001.checksumOfChecksums :=
           hash.Write (V001.checksumOfChecksums st) (hash.Sum (hash.Write (V001.h st) p));
         V001.offset := wrap64 (V001.offset st + ObjectPart.Size part);
         V001.out :=
           print (V001.out st)
             [CopySection (V001.offset st) (ObjectPart.Size part);
              PrintPart (ObjectPart.PartNumber part)
                (base64.EncodeToString (hash.Sum (hash.Write (V001.h st) p)));
              PrintOK] |}.
Proof.
  intros E F. unfold V001.iteration. rewrite print_file, print_name, E. cbv zeta.
  rewrite F. now rewrite !print_print.
Qed.

(** The four ways an iteration can go. *)
Lemma iteration_cases (part : ObjectPart.t) (st : V001.Loop) :
  let read := io.CopySection (name (V001.out st)) (file (V001.out st)) (V001.offset st)
                (ObjectPart.Size part) in
  let w := print (V001.out st) [CopySection (V001.offset st) (ObjectPart.Size part)] in
  (read = Panic /\ V001.iteration part st = V001.Exit Panicked w)
  \/ (exists p err,
        read = Return p (Some err) /\ V001.iteration part st = V001.Exit (Failed err) w)
  \/ (exists p,
        read = Return p None
        /\ V001.partFailed part
             (base64.EncodeToString (hash.Sum (hash.Write (V001.h st) p))) = true
        /\ exists w',
             V001.iteration part st
             = V001.Exit
                 (PartMismatch (ObjectPart.PartNumber part) (V001.offset st)
                    (wrap64 (V001.offset st + ObjectPart.Size part))) w')
  \/ (exists p,
        read = Return p None
        /\ V001.partFailed part
             (base64.EncodeToString (hash.Sum (hash.Write (V001.h st) p))) = false
        /\ V001.iteration part st
           = V001.Continue
               {| V001.h := hash.Write (V001.h st) p;
                  V001.checksumOfChecksums :=
                    hash.Write (V001.checksumOfChecksums st)
                      (hash.Sum (hash.Write (V001.h st) p));
                  V001.offset := wrap64 (V001.offset st + ObjectPart.Size part);
                  V001.out :=
                    print (V001.out st)
                      [CopySection (V001.offset st) (ObjectPart.Size part);
                       PrintPart (ObjectPart.PartNumber part)
                         (base64.EncodeToString (hash.Sum (hash.Write (V001.h st) p)));
                       PrintOK] |}).
Proof.
  cbv zeta.
  destruct (io.CopySection (name (V001.out st)) (file (V001.out st)) (V001.offset st)
              (ObjectPart.Size part)) as [p [err|]|] eqn:E.
  - right. left. exists p, err. split; [reflexivity|].
    now apply iteration_read_error with (p := p).
  - destruct (V001.partFailed part
                (base64.EncodeToString (hash.Sum (hash.Write (V001.h st) p)))) eqn:F.
    + right. right. left. exists p. split; [reflexivity|]. split; [exact F|].
      rewrite (iteration_failed _ _ _ E F). eauto.
    + right. right. right. exists p. split; [reflexivity|]. split; [exact F|].
      exact (iteration_ok _ _ _ E F).
  - left. split; [reflexivity|]. now apply iteration_panic.
Qed.

Lemma range_app (before rest : list ObjectPart.t) (st : V001.Loop) :
  V001.range (before ++ rest) st
  = match V001.range before st with
    | V001.Continue st' => V001.range rest st'
    | V001.Exit o w => V001.Exit o w
    end.
Proof.
  revert st. induction before as [|part before IH]; intros st; cbn; [reflexivity|].
  destruct (V001.iteration part st); [apply IH | reflexivity].
Qed.

(** What a completed loop leaves behind. *)
Lemma range_continue (parts : list ObjectPart.t) (st st' : V001.Loop) :
  V001.range parts st = V001.Continue st' ->
  sameFile (V001.out st') (V001.out st)
  /\ V001.offset st' = offsetAfter parts (V001.offset st)
  /\ hash.digest (V001.checksumOfChecksums st') = hash.digest (V001.checksumOfChecksums st)
  /\ hash.written (V001.checksumOfChecksums st')
     = hash.written (V001.checksumOfChecksums st)
       ++ List.concat (partSums (name (V001.out st)) (file (V001.out st)) parts
                         (V001.h st) (V001.offset st))
  /\ everyPartMatches (name (V001.out st)) (file (V001.out st)) parts
       (V001.h st) (V001.offset st) = true.
Proof.
  revert st. induction parts as [|part rest IH]; intros st; cbn [V001.range].
  - intros [= <-]. cbn. rewrite app_nil_r. now repeat split.
  - destruct (iteration_cases part st)
      as [(_ & ->)|[(p & err & _ & ->)|[(p & _ & _ & w' & ->)|(p & E & F & ->)]]];
      try discriminate.
    intros R. apply IH in R. cbn in R. destruct R as (Rf & Ro & Rd & Rw & Rm).
    cbn [partSums everyPartMatches offsetAfter fold_left]. rewrite E. cbv zeta.
    rewrite F. cbn [negb andb List.concat].
    repeat split; try assumption; try apply Rf.
    rewrite Rw. now rewrite <- app_assoc.
Qed.

Lemma range_complete (parts : list ObjectPart.t) (st : V001.Loop) :
  everyPartMatches (name (V001.out st)) (file (V001.out st)) parts
    (V001.h st) (V001.offset st) = true ->
  exists st', V001.range parts st = V001.Continue st'.
Proof.
  revert st. induction parts as [|part rest IH]; intros st; cbn [V001.range everyPartMatches].
  - eauto.
  - destruct (io.CopySection (name (V001.out st)) (file (V001.out st)) (V001.offset st)
                (ObjectPart.Size part)) as [p [err|]|] eqn:E; try discriminate.
    cbv zeta. rewrite andb_true_iff, negb_true_iff. intros [F M].
    rewrite (iteration_ok _ _ _ E F). apply IH. exact M.
Qed.

(** The one hasher [h] keeps everything written to it: after the loop has
    gone over [parts] it holds all the sections read, so the digest taken for
    a part covers the parts before it as well. *)
Lemma range_hasher (parts : list ObjectPart.t) (st st' : V001.Loop) :
  V001.range parts st = V001.Continue st' ->
  hash.digest (V001.h st') = hash.digest (V001.h st)
  /\ hash.written (V001.h st')
     = hash.written (V001.h st)
       ++ sectionsRead (name (V001.out st)) (file (V001.out st)) parts (V001.offset st).
Proof.
  revert st. induction parts as [|part rest IH]; intros st; cbn [V001.range].
  - intros [= <-]. cbn. now rewrite app_nil_r.
  - destruct (iteration_cases part st)
      as [(_ & ->)|[(p & err & _ & ->)|[(p & _ & _ & w' & ->)|(p & E & F & ->)]]];
      try discriminate.
    intros R. apply IH in R. cbn in R. destruct R as (Rd & Rw).
    cbn [sectionsRead]. rewrite E. split; [exact Rd|].
    rewrite Rw. now rewrite <- app_assoc.
Qed.

Lemma part_digest_covers_earlier_parts (before : list ObjectPart.t) (part : ObjectPart.t)
    (st0 st : V001.Loop) (p : list byte) :
  V001.range before st0 = V001.Continue st ->
  hash.Sum (hash.Write (V001.h st) p)
  = hash.digest (V001.h st0)
      (hash.written (V001.h st0)
       ++ sectionsRead (name (V001.out st0)) (file (V001.out st0)) before (V001.offset st0)
       ++ p).
Proof.
  intros R. destruct (range_hasher _ _ _ R) as (Rd & Rw).
  unfold hash.Sum, hash.Write. cbn. now rewrite Rd, Rw, <- app_assoc.
Qed.

(** The loop ends a run only on a read that panics or fails, or on a failed
    part. *)
Lemma iteration_exit (part : ObjectPart.t) (st : V001.Loop) (o : Outcome) (w : World) :
  V001.iteration part st = V001.Exit o w ->
  (o = Panicked /\ V001.offset st < 0)
  \/ (exists err, o = Failed err /\ V001.offset st < 0)
  \/ o = PartMismatch (ObjectPart.PartNumber part) (V001.offset st)
           (wrap64 (V001.offset st + ObjectPart.Size part)).
Proof.
  assert (Hneg : forall r,
            io.CopySection (name (V001.out st)) (file (V001.out st)) (V001.offset st)
              (ObjectPart.Size part) = r ->
            (forall p, r <> Return p None) -> V001.offset st < 0).
  { intros r Hr Hno. destruct (Z.lt_ge_cases (V001.offset st) 0) as [|H0]; [assumption|].
    destruct (CopySection_from_the_file (name (V001.out st)) (file (V001.out st))
                (V001.offset st) (ObjectPart.Size part)) as [p Hp]; [lia|].
    exfalso. apply (Hno p). congruence. }
  destruct (iteration_cases part st)
    as [(E & ->)|[(p & err & E & ->)|[(p & _ & _ & w' & ->)|(p & _ & _ & ->)]]];
    intros [= <- _].
  - left. split; [reflexivity|]. apply (Hneg _ E). discriminate.
  - right. left. exists err. split; [reflexivity|]. apply (Hneg _ E). discriminate.
  - now right; right.
Qed.

Lemma range_exit (parts : list ObjectPart.t) (st : V001.Loop) (o : Outcome) (w : World) :
  V001.range parts st = V001.Exit o w -> refusesListing o = false.
Proof.
  revert st. induction parts as [|part rest IH]; intros st; cbn [V001.range];
    [discriminate|].
  destruct (V001.iteration part st) as [st'|o' w'] eqn:E; [apply IH|].
  intros [= <- _].
  now destruct (iteration_exit _ _ _ _ E) as [(-> & _)|[(err & -> & _)| ->]].
Qed.

End Loop001.

(** ** The claims about the loop of version 0.0.1 *)
Section Claims001.
Import s3Types s3.

(** C4. In the loop over the parts, once the parts before have passed, a
    part whose encoded digest differs from a checksum of its record ends the
    run at once: the outcome is the mismatch of that part number with the
    byte range from [offset] to [offset + Size], [offset] being the sizes of
    the parts before added up, and the output ends with that part's read and
    its FAILED line, so that no later part is read or hashed. *)
Theorem C4_part_mismatch_stops (before rest : list ObjectPart.t) (part : ObjectPart.t)
    (st0 st : V001.Loop) (p : list byte) (remote : string) :
  V001.range before st0 = V001.Continue st ->
  io.CopySection (name (V001.out st)) (file (V001.out st)) (V001.offset st)
    (ObjectPart.Size part) = Return p None ->
  In (Some remote) (partChecksums part) ->
  remote <> base64.EncodeToString (hash.Sum (hash.Write (V001.h st) p)) ->
  V001.range (before ++ part :: rest) st0
  = V001.Exit
      (PartMismatch (ObjectPart.PartNumber part) (V001.offset st)
         (wrap64 (V001.offset st + ObjectPart.Size part)))
      (print (V001.out st)
         [CopySection (V001.offset st) (ObjectPart.Size part);
          PrintPart (ObjectPart.PartNumber part)
            (base64.EncodeToString (hash.Sum (hash.Write (V001.h st) p)));
          PrintFAILED])
  /\ V001.offset st = offsetAfter before (V001.offset st0)
  /\ filter isCopy (stdout (stepWorld (V001.range (before ++ part :: rest) st0)))
     = filter isCopy (stdout (V001.out st))
       ++ [CopySection (V001.offset st) (ObjectPart.Size part)].
Proof.
  intros Hbefore Hread Hin Hne.
  assert (Hfailed : V001.partFailed part
            (base64.EncodeToString (hash.Sum (hash.Write (V001.h st) p))) = true).
  { apply partFailed_iff. exists remote. now split. }
  assert (Hrun : V001.range (before ++ part :: rest) st0
                 = V001.iteration part st).
  { rewrite range_app, Hbefore. cbn [V001.range].
    rewrite (iteration_failed _ _ _ Hread Hfailed). reflexivity. }
  rewrite Hrun, (iteration_failed _ _ _ Hread Hfailed).
  split; [reflexivity|]. split.
  - now destruct (range_continue _ _ _ Hbefore) as (_ & Ho & _).
  - cbn [stepWorld print stdout]. rewrite filter_app. reflexivity.
Qed.

(** C10. The test that fails a part looks at each of the four checksum
    fields of the part record: the iteration ends in a part mismatch exactly
    when some populated field differs from the encoded digest, whichever
    algorithm the object's own checksum selected; a part record with no
    field populated passes and the loop goes on. *)
Theorem C10_part_compared_with_every_populated_field (part : ObjectPart.t)
    (st : V001.Loop) (p : list byte) :
  io.CopySection (name (V001.out st)) (file (V001.out st)) (V001.offset st)
    (ObjectPart.Size part) = Return p None ->
  let partSumEncoded := base64.EncodeToString (hash.Sum (hash.Write (V001.h st) p)) in
  ((exists w, V001.iteration part st
              = V001.Exit (PartMismatch (ObjectPart.PartNumber part) (V001.offset st)
                             (wrap64 (V001.offset st + ObjectPart.Size part))) w)
   <-> exists s, In (Some s) (partChecksums part) /\ s <> partSumEncoded)
  /\ (partChecksums part = [None; None; None; None] ->
      exists st', V001.iteration part st = V001.Continue st').
Proof.
  intros Hread enc. split.
  - rewrite <- partFailed_iff. fold enc.
    destruct (V001.partFailed part enc) eqn:F; subst enc.
    + rewrite (iteration_failed _ _ _ Hread F). split; eauto.
    + rewrite (iteration_ok _ _ _ Hread F). split; [|discriminate].
      intros (w & [=]).
  - intros Hnone.
    assert (F : V001.partFailed part enc = false).
    { destruct (V001.partFailed part enc) eqn:F; [|reflexivity].
      apply partFailed_iff in F. destruct F as (s & Hin & _).
      rewrite Hnone in Hin. cbn in Hin. intuition discriminate. }
    subst enc. rewrite (iteration_ok _ _ _ Hread F). eauto.
Qed.

Lemma selectChecksum_fresh (c : Checksum.t) (objSum : string) (h0 c0 : hash.Hash) :
  V001.selectChecksum c = Some (objSum, h0, c0) ->
  c0 = h0 /\ hash.written h0 = [].
Proof.
  unfold V001.selectChecksum.
  destruct (Checksum.ChecksumSHA1 c); [now intros [= <- <- <-]|].
  destruct (Checksum.ChecksumSHA256 c); [now intros [= <- <- <-]|].
  destruct (Checksum.ChecksumCRC32 c); [now intros [= <- <- <-]|].
  destruct (Checksum.ChecksumCRC32C c); [now intros [= <- <- <-]|].
  discriminate.
Qed.

(** When every part passes the test of version 0.0.1, the checksum of
    checksums is the base64 encoding of the digest of the values [partSum]
    concatenated in the order of the listing; it is printed, and the run ends
    in a match exactly when it equals the object's checksum as a string.
    These values are the running digests of the one hasher. *)
Lemma candidate_of_running_digests (checksum : Checksum.t)
    (objAttrs : GetObjectAttributesOutput) (objectParts : GetObjectAttributesParts)
    (w : World) (objSum : string) (h0 c0 : hash.Hash) :
  V001.selectChecksum checksum = Some (objSum, h0, c0) ->
  ObjectParts objAttrs = Some objectParts ->
  everyPartMatches (name w) (file w) (Parts objectParts) h0 0 = true ->
  let sum :=
    base64.EncodeToString
      (hash.digest h0
         (List.concat (partSums (name w) (file w) (Parts objectParts) h0 0))) in
  exists w',
    V001.verify checksum objAttrs w
    = (if (sum =? objSum)%string then ChecksumMatch else ChecksumMismatch,
       print w' [PrintChecksumOfChecksums sum]).
Proof.
  intros Hsel Hparts Hall sum.
  destruct (selectChecksum_fresh _ _ _ _ Hsel) as [-> Hfresh].
  unfold V001.verify. rewrite Hsel, Hparts. unfold V001.multipart.
  set (st0 := {| V001.h := h0; V001.checksumOfChecksums := h0; V001.offset := 0;
                 V001.out := _ |}).
  destruct (range_complete (Parts objectParts) st0 Hall) as [st Hrange].
  rewrite Hrange.
  destruct (range_continue _ _ _ Hrange) as (_ & _ & Hd & Hw & _).
  cbn in Hd, Hw. rewrite Hfresh in Hw. cbn [app] in Hw.
  assert (Hsum : base64.EncodeToString (hash.Sum (V001.checksumOfChecksums st)) = sum).
  { unfold hash.Sum. now rewrite Hd, Hw. }
  rewrite Hsum. exists (V001.out st).
  now destruct (sum =? objSum)%string.
Qed.

End Claims001.

(** ** The run of version 0.0.1 as a whole *)
Section Run001.
Import s3Types s3.

(** C7, as amended. When the response carries a checksum record, a local
    file whose size differs from the object's ends the run in the size
    mismatch with nothing read, hashed or printed; when the sizes are equal
    the run is what follows the comparison. *)
Theorem C7_size_check_follows_checksum_guard (objAttrs : GetObjectAttributesOutput)
    (w : World) (checksum : Checksum.t) :
  Checksum objAttrs = Some checksum ->
  (ObjectSize objAttrs <> Z.of_nat (List.length (file w)) ->
   V001.main objAttrs w
   = (ObjectSizeMismatch (ObjectSize objAttrs) (Z.of_nat (List.length (file w))), w))
  /\ (ObjectSize objAttrs = Z.of_nat (List.length (file w)) ->
      V001.main objAttrs w = V001.verify checksum objAttrs w).
Proof.
  intros Hc. unfold V001.main. rewrite Hc.
  destruct (Z.eqb_spec (ObjectSize objAttrs) (Z.of_nat (List.length (file w))));
    cbn [negb]; split; intros; congruence.
Qed.

Lemma iteration_same (part : ObjectPart.t) (a b : V001.Loop) :
  sameState a b -> sameStep (V001.iteration part a) (V001.iteration part b).
Proof.
  intros (Hh & Hc & Ho & Hn & Hf). unfold V001.iteration.
  rewrite !print_file, !print_name, Hh, Hc, Ho, Hn, Hf.
  destruct (io.CopySection (name (V001.out b)) (file (V001.out b)) (V001.offset b)
              (ObjectPart.Size part)) as [p [err|]|];
    cbn; unfold sameFile; cbn; auto.
  destruct (V001.partFailed part _); cbn; unfold sameState, sameFile; cbn; auto.
Qed.

Lemma range_same (parts : list ObjectPart.t) (a b : V001.Loop) :
  sameState a b -> sameStep (V001.range parts a) (V001.range parts b).
Proof.
  revert a b. induction parts as [|part rest IH]; intros a b Hab; cbn [V001.range].
  - exact Hab.
  - pose proof (iteration_same part a b Hab) as H.
    destruct (V001.iteration part a), (V001.iteration part b); cbn in H;
      try contradiction; [now apply IH | exact H].
Qed.

Lemma iteration_file (part : ObjectPart.t) (st : V001.Loop) :
  sameFile (stepWorld (V001.iteration part st)) (V001.out st).
Proof.
  unfold V001.iteration. rewrite print_file, print_name.
  destruct (io.CopySection _ _ _ _) as [p [err|]|]; try (now split).
  cbv zeta. destruct (V001.partFailed _ _); now split.
Qed.

Lemma range_file (parts : list ObjectPart.t) (st : V001.Loop) :
  sameFile (stepWorld (V001.range parts st)) (V001.out st).
Proof.
  revert st. induction parts as [|part rest IH]; intros st; cbn [V001.range];
    [now split|].
  pose proof (iteration_file part st) as H.
  destruct (V001.iteration part st) as [st'|o w']; cbn in H; [|exact H].
  destruct (IH st') as [In If], H as [Hn Hf]. split; congruence.
Qed.

(** The outcome depends on the response, on the name and on the contents of
    the file only: not on what was printed before, and not on the number of
    bytes each read hands out. *)
Lemma single_same (objSum : string) (h0 : hash.Hash) (w1 w2 : World) :
  sameFile w1 w2 ->
  fst (V001.single objSum h0 w1) = fst (V001.single objSum h0 w2).
Proof.
  intros [_ Hf]. rewrite !single_whole_file, Hf. cbv zeta.
  now destruct (_ =? _)%string.
Qed.

Lemma verify_same (checksum : Checksum.t) (objAttrs : GetObjectAttributesOutput)
    (w1 w2 : World) :
  sameFile w1 w2 ->
  fst (V001.verify checksum objAttrs w1) = fst (V001.verify checksum objAttrs w2).
Proof.
  intros Hf. unfold V001.verify.
  destruct (V001.selectChecksum checksum) as [[[objSum h0] c0]|]; [|reflexivity].
  destruct (ObjectParts objAttrs) as [objectParts|].
  - unfold V001.multipart.
    match goal with
    | |- fst (match V001.range ?ps ?a with _ => _ end)
         = fst (match V001.range ?ps ?b with _ => _ end) =>
        assert (Hab : sameState a b) by (unfold sameState; cbn; auto);
        pose proof (range_same ps a b Hab) as H;
        destruct (V001.range ps a) as [sa|oa wa], (V001.range ps b) as [sb|ob wb]
    end; cbn in H; try contradiction.
    + destruct H as (_ & Hc & _). rewrite Hc.
      now destruct (negb _).
    + now destruct H.
  - apply single_same. exact Hf.
Qed.

Lemma main_same (objAttrs : GetObjectAttributesOutput) (w1 w2 : World) :
  sameFile w1 w2 ->
  fst (V001.main objAttrs w1) = fst (V001.main objAttrs w2).
Proof.
  intros Hf. unfold V001.main. rewrite (proj2 Hf).
  destruct (Checksum objAttrs) as [checksum|]; [|reflexivity].
  destruct (negb _); [reflexivity|]. now apply verify_same.
Qed.

(** A run leaves the file as it was. *)
Lemma main_file (objAttrs : GetObjectAttributesOutput) (w : World) :
  sameFile (snd (V001.main objAttrs w)) w.
Proof.
  unfold V001.main.
  destruct (Checksum objAttrs) as [checksum|]; [|now split].
  destruct (negb _); [now split|]. unfold V001.verify.
  destruct (V001.selectChecksum checksum) as [[[objSum h0] c0]|]; [|now split].
  destruct (ObjectParts objAttrs) as [objectParts|].
  - unfold V001.multipart.
    match goal with
    | |- sameFile (snd (match V001.range ?ps ?a with _ => _ end)) _ =>
        pose proof (range_file ps a) as H; destruct (V001.range ps a) as [sa|oa wa]
    end; cbn in H.
    + destruct (negb _); exact H.
    + exact H.
  - rewrite single_whole_file. cbv zeta. now split.
Qed.

(** C9. Verification is deterministic: two runs for the same response on
    the same file (the same name, the same contents) end with the same
    outcome, whatever had been printed before each of them and however the
    operating system cuts the reads of each into pieces; so does a second
    run that follows the first.  Each run reads the file from its start and
    makes its own hashers, and a copy repeats the reads until the file ends:
    a single read would not do, see [Read_depends_on_the_reads]. *)
Theorem C9_verification_deterministic (objAttrs : GetObjectAttributesOutput)
    (w1 w2 : World) :
  name w1 = name w2 ->
  file w1 = file w2 ->
  fst (V001.main objAttrs w1) = fst (V001.main objAttrs w2)
  /\ fst (V001.main objAttrs (snd (V001.main objAttrs w1)))
     = fst (V001.main objAttrs w1).
Proof.
  intros Hn Hf. split.
  - apply main_same. now split.
  - apply main_same, main_file.
Qed.

(** Version 0.0.1 reads the list of parts only: the declared count and the
    truncation flag have no influence on the run, and no run ends by
    refusing the listing. *)
Lemma multipart_reads_parts_only (objSum : string) (h0 c0 : hash.Hash)
    (parts : list ObjectPart.t) (truncated truncated' : bool) (count count' : Z)
    (w : World) :
  V001.multipart objSum h0 c0
    {| IsTruncated := truncated; Parts := parts; TotalPartsCount := count |} w
  = V001.multipart objSum h0 c0
      {| IsTruncated := truncated'; Parts := parts; TotalPartsCount := count' |} w.
Proof. reflexivity. Qed.

Lemma main_never_refuses_listing (objAttrs : GetObjectAttributesOutput) (w : World) :
  refusesListing (fst (V001.main objAttrs w)) = false.
Proof.
  unfold V001.main.
  destruct (Checksum objAttrs) as [checksum|]; [|reflexivity].
  destruct (negb _); [reflexivity|]. unfold V001.verify.
  destruct (V001.selectChecksum checksum) as [[[objSum h0] c0]|]; [|reflexivity].
  destruct (ObjectParts objAttrs) as [objectParts|].
  - unfold V001.multipart.
    match goal with
    | |- context [V001.range ?ps ?a] =>
        destruct (V001.range ps a) as [sa|oa wa] eqn:E
    end.
    + now destruct (negb _).
    + cbn. exact (range_exit _ _ _ _ E).
  - rewrite single_whole_file. cbv zeta. now destruct (_ =? _)%string.
Qed.

End Run001.

(** ** Version 0.1.0 *)
Section Run010.
Import s3Types s3.

Lemma newHash_fresh (a : ChecksumAlgorithm) (h : hash.Hash) (err : option string) :
  Utils.newHash a = Return (Some h) err -> hash.written h = [].
Proof.
  unfold Utils.newHash. destruct (switch a); intros [= <- _]; reflexivity.
Qed.

(** The comparison of the sizes in version 0.1.0. *)
Lemma main010_sizes (localPath : string) (objAttrs : GetObjectAttributesOutput)
    (w : World) (checksum : Checksum.t) :
  Checksum objAttrs = Some checksum ->
  V010.main localPath objAttrs w
  = if negb (localPath =? "-")%string
       && negb (ObjectSize objAttrs =? Z.of_nat (List.length (file w)))
    then (ObjectSizeMismatch (ObjectSize objAttrs) (Z.of_nat (List.length (file w))), w)
    else V010.verify checksum objAttrs w.
Proof.
  intros Hc. unfold V010.main, os.Stat. rewrite Hc.
  destruct (localPath =? "-")%string; cbn [negb andb]; [reflexivity|].
  now destruct (ObjectSize objAttrs =? _).
Qed.

(** Each part has a hasher of its own: the digest compared for a part is
    that of the bytes read for it, whatever was read before. *)
Lemma iteration010_continue (algorithm : ChecksumAlgorithm) (part : ObjectPart.t)
    (st st' : V010.Loop) :
  V010.iteration algorithm part st = V010.Continue st' ->
  exists partHash,
    Utils010.newHash algorithm = Return (Some partHash) None
    /\ V010.partNumber st = ObjectPart.PartNumber part
    /\ Utils010.getPartChecksum part algorithm
       = Return (base64.EncodeToString
                   (hash.digest partHash
                      (firstn (Z.to_nat (ObjectPart.Size part)) (V010.f st)))) None
    /\ V010.h st'
       = hash.Write (V010.h st)
           (hash.digest partHash (firstn (Z.to_nat (ObjectPart.Size part)) (V010.f st)))
    /\ V010.f st' = skipn (Z.to_nat (ObjectPart.Size part)) (V010.f st)
    /\ V010.offset st' = wrap64 (V010.offset st + ObjectPart.Size part)
    /\ V010.partNumber st' = wrap32 (V010.partNumber st + 1).
Proof.
  unfold V010.iteration.
  destruct (Z.eqb_spec (V010.partNumber st) (ObjectPart.PartNumber part)) as [En|];
    cbn [negb]; [|discriminate].
  destruct (Utils010.newHash algorithm) as [[partHash|] [err|]|] eqn:EH; try discriminate.
  rewrite CopyLimit_all.
  destruct (Utils010.getPartChecksum part algorithm) as [sum [err|]|] eqn:EP;
    try discriminate.
  pose proof (newHash_fresh _ _ _ EH) as Hfresh.
  unfold hash.Sum, hash.Write; cbn [hash.digest hash.written]. rewrite Hfresh. cbn [app].
  match goal with
  | |- (if negb (?a =? ?b)%string then _ else _) = _ -> _ =>
      destruct (String.eqb_spec a b) as [Heq|]; cbn [negb]; [|discriminate]
  end.
  intros [= <-]. exists partHash. cbn. rewrite Heq. repeat split; assumption.
Qed.

(** The listing is refused when the declared count is not the number of
    parts returned or when it is marked truncated. *)
Lemma multipart010_refuses (algorithm : ChecksumAlgorithm) (objSum : string)
    (h0 : hash.Hash) (objectParts : GetObjectAttributesParts) (w : World) :
  TotalPartsCount objectParts <> Z.of_nat (List.length (Parts objectParts))
  \/ IsTruncated objectParts = true ->
  V010.multipart algorithm objSum h0 objectParts w
  = (PartsTruncated, print w [PrintNumParts (TotalPartsCount objectParts)]).
Proof.
  intros H. unfold V010.multipart.
  destruct (Z.eqb_spec (TotalPartsCount objectParts)
              (Z.of_nat (List.length (Parts objectParts)))) as [E|E]; cbn [negb orb].
  - destruct H as [H|H]; [contradiction|]. now rewrite H.
  - reflexivity.
Qed.

(** A part whose number is not the next one is refused before it is read. *)
Lemma iteration010_not_sorted (algorithm : ChecksumAlgorithm) (part : ObjectPart.t)
    (st : V010.Loop) :
  V010.partNumber st <> ObjectPart.PartNumber part ->
  V010.iteration algorithm part st = V010.Exit PartsNotSorted (V010.out st).
Proof.
  intros H. unfold V010.iteration.
  now destruct (Z.eqb_spec (V010.partNumber st) (ObjectPart.PartNumber part)).
Qed.

(** The candidate gets the suffix exactly when its length is not that of the
    object's checksum. *)
Lemma multipart010_suffix (algorithm : ChecksumAlgorithm) (objSum : string)
    (h0 : hash.Hash) (objectParts : GetObjectAttributesParts) (w : World)
    (st : V010.Loop) :
  TotalPartsCount objectParts = Z.of_nat (List.length (Parts objectParts)) ->
  IsTruncated objectParts = false ->
  V010.range algorithm (Parts objectParts)
    {| V010.f := file w; V010.h := h0; V010.offset := 0; V010.partNumber := 1;
       V010.out := print w [PrintNumParts (TotalPartsCount objectParts)] |}
  = V010.Continue st ->
  let candidate := base64.EncodeToString (hash.Sum (V010.h st)) in
  let sum :=
    if (String.length candidate =? String.length objSum)%nat then candidate
    else (candidate ++ "-" ++ fmt.d (TotalPartsCount objectParts))%string in
  V010.multipart algorithm objSum h0 objectParts w
  = (if (sum =? objSum)%string then ChecksumMatch else ChecksumMismatch,
     print (V010.out st) [PrintChecksumOfChecksums sum]).
Proof.
  intros Hcount Htrunc Hrange candidate sum. unfold V010.multipart.
  rewrite Htrunc. rewrite (proj2 (Z.eqb_eq _ _) Hcount). cbn [negb orb].
  rewrite print_file, Hrange. fold candidate. subst sum.
  destruct (String.length candidate =? String.length objSum)%nat; cbn [negb];
    match goal with |- context [(?a =? ?b)%string] => now destruct (a =? b)%string end.
Qed.

End Run010.

(** ** The lookups of utils.go *)
Section Lookups.
Import s3Types.

(** A populated field is returned with a nil error. *)
Lemma getPartChecksum_populated (v : ObjectPart.t) (s : string) :
  (ObjectPart.ChecksumSHA1 v = Some s ->
   Utils.getPartChecksum v ChecksumAlgorithmSha1 = Return s None)
  /\ (ObjectPart.ChecksumSHA256 v = Some s ->
      Utils.getPartChecksum v ChecksumAlgorithmSha256 = Return s None)
  /\ (ObjectPart.ChecksumCRC32 v = Some s ->
      Utils.getPartChecksum v ChecksumAlgorithmCrc32 = Return s None)
  /\ (ObjectPart.ChecksumCRC32C v = Some s ->
      Utils.getPartChecksum v ChecksumAlgorithmCrc32c = Return s None).
Proof.
  unfold Utils.getPartChecksum.
  rewrite switch_Sha1, switch_Sha256, switch_Crc32, switch_Crc32c.
  repeat split; intros ->; reflexivity.
Qed.

(** An absent field is dereferenced all the same. *)
Lemma getPartChecksum_absent (v : ObjectPart.t) :
  (ObjectPart.ChecksumSHA1 v = None ->
   Utils.getPartChecksum v ChecksumAlgorithmSha1 = Panic)
  /\ (ObjectPart.ChecksumSHA256 v = None ->
      Utils.getPartChecksum v ChecksumAlgorithmSha256 = Panic)
  /\ (ObjectPart.ChecksumCRC32 v = None ->
      Utils.getPartChecksum v ChecksumAlgorithmCrc32 = Panic)
  /\ (ObjectPart.ChecksumCRC32C v = None ->
      Utils.getPartChecksum v ChecksumAlgorithmCrc32c = Panic).
Proof.
  unfold Utils.getPartChecksum.
  rewrite switch_Sha1, switch_Sha256, switch_Crc32, switch_Crc32c.
  repeat split; intros ->; reflexivity.
Qed.

Lemma getChecksum_absent (v : Checksum.t) :
  (Checksum.ChecksumSHA1 v = None ->
   Utils.getChecksum v ChecksumAlgorithmSha1 = Panic)
  /\ (Checksum.ChecksumSHA256 v = None ->
      Utils.getChecksum v ChecksumAlgorithmSha256 = Panic)
  /\ (Checksum.ChecksumCRC32 v = None ->
      Utils.getChecksum v ChecksumAlgorithmCrc32 = Panic)
  /\ (Checksum.ChecksumCRC32C v = None ->
      Utils.getChecksum v ChecksumAlgorithmCrc32c = Panic).
Proof.
  unfold Utils.getChecksum.
  rewrite switch_Sha1, switch_Sha256, switch_Crc32, switch_Crc32c.
  repeat split; intros ->; reflexivity.
Qed.

(** C8, at the failing input. On a part record, or an object checksum, with
    no checksum field populated and the algorithm SHA1, the lookups of
    [src/unnamed/part_000] dereference the nil field and panic, where the
    claim has them return an error; a populated field is returned.  The
    lookups of version 0.1.0 read the field through [aws.ToString] and return
    the empty string with a nil error. *)
Theorem C8_lookup_of_absent_field_panics :
  Utils.getPartChecksum (barePart 1 5) ChecksumAlgorithmSha1 = Panic
  /\ Utils.getChecksum bareChecksum ChecksumAlgorithmSha1 = Panic
  /\ Utils.getPartChecksum (crc32Part 1 5 "NhCmhg==") ChecksumAlgorithmSha1 = Panic
  /\ Utils.getPartChecksum (crc32Part 1 5 "NhCmhg==") ChecksumAlgorithmCrc32
     = Return "NhCmhg==" None
  /\ Utils010.getPartChecksum (barePart 1 5) ChecksumAlgorithmSha1
     = Return EmptyString None
  /\ Utils010.getChecksum bareChecksum ChecksumAlgorithmSha1
     = Return EmptyString None.
Proof. repeat split; reflexivity. Qed.

End Lookups.

(** ** The two versions of [main] side by side *)
Section Versions.
Import s3Types s3.

(** The checksums of the example inputs are the true ones. *)
Example example_checksums :
  base64.EncodeToString (crc32.Sum crc32.IEEE (bytes "hello")) = "NhCmhg=="
  /\ base64.EncodeToString (crc32.Sum crc32.IEEE (bytes "world")) = "OncRQw=="
  /\ base64.EncodeToString (crc32.Sum crc32.IEEE (bytes "helloworld")) = "+esgrQ=="
  /\ base64.EncodeToString
       (crc32.Sum crc32.IEEE
          (crc32.Sum crc32.IEEE (bytes "hello") ++ crc32.Sum crc32.IEEE (bytes "world")))
     = "wpn7tg=="
  /\ base64.EncodeToString
       (crc32.Sum crc32.IEEE (crc32.Sum crc32.IEEE (bytes "hello")))
     = "FKTmaw==".
Proof. repeat split; vm_compute; reflexivity. Qed.

(** C1, at the failing input. The ten bytes of [helloworld] against the
    object uploaded from them in two parts of five bytes.  Version 0.0.1
    feeds both parts to the one hasher [h], so the digest it prints and
    compares for part 2 is that of bytes 0 to 10, not of bytes 5 to 10, and
    the run ends in a mismatch at part 2 of an identical file.  Version
    0.1.0, with a hasher for each part, prints the digest of bytes 5 to 10
    and ends in a match. *)
Theorem C1_one_hasher_for_all_parts :
  V001.main twoPartObject helloworld
  = (PartMismatch 2 5 10,
     print (eprintln helloworld "S3 object was uploaded using the CRC32 checksum algorithm.")
       [PrintObjectChecksum "wpn7tg=="; PrintNumParts 2;
        CopySection 0 5; PrintPart 1 "NhCmhg=="; PrintOK;
        CopySection 5 5; PrintPart 2 "+esgrQ=="; PrintFAILED])
  /\ io.CopySection (name helloworld) (file helloworld) 5 5 = Return (bytes "world") None
  /\ V010.main "helloworld.txt" twoPartObject helloworld
     = (ChecksumMatch,
        print helloworld
          [PrintObjectChecksum "wpn7tg=="; PrintNumParts 2;
           CopyLimit 5; PrintPart 1 "NhCmhg=="; PrintOK;
           CopyLimit 5; PrintPart 2 "OncRQw=="; PrintOK;
           PrintChecksumOfChecksums "wpn7tg=="]).
Proof. repeat split; vm_compute; reflexivity. Qed.

(** C2, at the failing input. The five bytes of [hello] against the object
    uploaded from them in one part to a directory bucket, whose checksum is
    the checksum of checksums followed by [-1].  The candidate of version
    0.0.1 is shorter than the object's checksum, nothing is appended to it,
    and the run ends in a mismatch; version 0.1.0 appends [-1] and ends in a
    match. *)
Theorem C2_no_suffix_for_directory_buckets :
  V001.main directoryBucketObject hello
  = (ChecksumMismatch,
     print (eprintln hello "S3 object was uploaded using the CRC32 checksum algorithm.")
       [PrintObjectChecksum "FKTmaw==-1"; PrintNumParts 1;
        CopySection 0 5; PrintPart 1 "NhCmhg=="; PrintOK;
        PrintChecksumOfChecksums "FKTmaw=="])
  /\ String.length "FKTmaw==" <> String.length "FKTmaw==-1"
  /\ V010.main "hello.txt" directoryBucketObject hello
     = (ChecksumMatch,
        print hello
          [PrintObjectChecksum "FKTmaw==-1"; PrintNumParts 1;
           CopyLimit 5; PrintPart 1 "NhCmhg=="; PrintOK;
           PrintChecksumOfChecksums "FKTmaw==-1"]).
Proof. repeat split; try (vm_compute; reflexivity). cbn. lia. Qed.

(** C3, at the failing inputs. Version 0.0.1 reads neither the declared
    count, nor the truncation flag, nor the part numbers: a listing marked
    truncated ends in a checksum mismatch after its first part, and a listing
    whose declared count is three, or whose only part is numbered 2, ends in
    a match.  Version 0.1.0 refuses all three before or at the first part. *)
Theorem C3_listing_not_validated :
  fst (V001.main truncatedListing helloworld) = ChecksumMismatch
  /\ fst (V001.main shortListing hello) = ChecksumMatch
  /\ fst (V001.main misnumberedPart hello) = ChecksumMatch
  /\ V010.main "helloworld.txt" truncatedListing helloworld
     = (PartsTruncated,
        print helloworld [PrintObjectChecksum "wpn7tg=="; PrintNumParts 2])
  /\ V010.main "hello.txt" shortListing hello
     = (PartsTruncated, print hello [PrintObjectChecksum "FKTmaw=="; PrintNumParts 3])
  /\ V010.main "hello.txt" misnumberedPart hello
     = (PartsNotSorted, print hello [PrintObjectChecksum "FKTmaw=="; PrintNumParts 1]).
Proof. repeat split; vm_compute; reflexivity. Qed.

(** C5, at the failing inputs. The ten bytes of [helloworld] against the
    object uploaded from them in two parts of five bytes, whose checksum
    [wpn7tg==] is the candidate of the claim: the CRC32 of the raw CRC32
    digests of [hello] and of [world].  With the part checksums of the
    listing, version 0.0.1 ends at part 2 and computes no candidate.  With
    part records that carry no checksum, both parts pass, and the candidate
    of version 0.0.1 is [04czBw==], the CRC32 of the two values its one hasher
    gave: the digest of [hello] and the digest of [helloworld]; the run ends
    in a mismatch of an identical file.  Version 0.1.0, with a hasher for
    each part, computes [wpn7tg==] and ends in a match. *)
Theorem C5_candidate_of_running_digests :
  checksumOfPartDigests crc32.NewIEEE (file helloworld)
    [crc32Part 1 5 "NhCmhg=="; crc32Part 2 5 "OncRQw=="]
  = "wpn7tg=="
  /\ fst (V001.main twoPartObject helloworld) = PartMismatch 2 5 10
  /\ V001.main unlistedPartChecksums helloworld
     = (ChecksumMismatch,
        print (eprintln helloworld "S3 object was uploaded using the CRC32 checksum algorithm.")
          [PrintObjectChecksum "wpn7tg=="; PrintNumParts 2;
           CopySection 0 5; PrintPart 1 "NhCmhg=="; PrintOK;
           CopySection 5 5; PrintPart 2 "+esgrQ=="; PrintOK;
           PrintChecksumOfChecksums "04czBw=="])
  /\ base64.EncodeToString
       (crc32.Sum crc32.IEEE
          (crc32.Sum crc32.IEEE (bytes "hello")
           ++ crc32.Sum crc32.IEEE (bytes "helloworld")))
     = "04czBw=="
  /\ V010.main "helloworld.txt" twoPartObject helloworld
     = (ChecksumMatch,
        print helloworld
          [PrintObjectChecksum "wpn7tg=="; PrintNumParts 2;
           CopyLimit 5; PrintPart 1 "NhCmhg=="; PrintOK;
           CopyLimit 5; PrintPart 2 "OncRQw=="; PrintOK;
           PrintChecksumOfChecksums "wpn7tg=="]).
Proof. repeat split; vm_compute; reflexivity. Qed.

(** The claim C7 as written fails where the response has no checksum record:
    the sizes differ, and the run ends on the missing checksum, not on the
    sizes. *)
Lemma C7_counterexample_missing_checksum_first :
  ObjectSize responseWithoutChecksum <> Z.of_nat (List.length (file threeBytes))
  /\ V001.main responseWithoutChecksum threeBytes = (NoChecksum, threeBytes).
Proof. split; [discriminate | reflexivity]. Qed.

End Versions.

(** ** The theorems at concrete inputs *)
Section Witnesses.
Import s3Types s3.

Lemma C4_witness :
  V001.range [crc32Part 1 4 "HIYA4w=="] loopStart = V001.Continue loopAfterHell
  /\ io.CopySection (name helloworld) (file helloworld) 4 3 = Return (bytes "owo") None
  /\ In (Some "AAAAAA==") (partChecksums (crc32Part 2 3 "AAAAAA=="))
  /\ V001.range ([crc32Part 1 4 "HIYA4w=="]
                  ++ crc32Part 2 3 "AAAAAA==" :: [crc32Part 3 3 "AbnG9w=="]) loopStart
     = V001.Exit (PartMismatch 2 4 7)
         (print helloworld
            [CopySection 0 4; PrintPart 1 "HIYA4w=="; PrintOK;
             CopySection 4 3; PrintPart 2 "rsaOBw=="; PrintFAILED]).
Proof.
  assert (H1 : V001.range [crc32Part 1 4 "HIYA4w=="] loopStart
               = V001.Continue loopAfterHell) by reflexivity.
  assert (H2 : io.CopySection (name (V001.out loopAfterHell)) (file (V001.out loopAfterHell))
                 (V001.offset loopAfterHell) (ObjectPart.Size (crc32Part 2 3 "AAAAAA=="))
               = Return (bytes "owo") None)
    by (vm_compute; reflexivity).
  assert (H3 : In (Some "AAAAAA==") (partChecksums (crc32Part 2 3 "AAAAAA==")))
    by (cbn; tauto).
  assert (H4 : "AAAAAA=="
               <> base64.EncodeToString
                    (hash.Sum (hash.Write (V001.h loopAfterHell) (bytes "owo"))))
    by (vm_compute; discriminate).
  split; [exact H1|]. split; [exact H2|]. split; [exact H3|].
  destruct (C4_part_mismatch_stops [crc32Part 1 4 "HIYA4w=="] [crc32Part 3 3 "AbnG9w=="]
              (crc32Part 2 3 "AAAAAA==") loopStart loopAfterHell (bytes "owo")
              "AAAAAA==" H1 H2 H3 H4)
    as [H _].
  rewrite H. vm_compute. reflexivity.
Defined.

Lemma C10_witness :
  io.CopySection (name (V001.out loopAfterHell)) (file (V001.out loopAfterHell))
    (V001.offset loopAfterHell) (ObjectPart.Size (barePart 2 3)) = Return (bytes "owo") None
  /\ exists st', V001.iteration (barePart 2 3) loopAfterHell = V001.Continue st'.
Proof.
  assert (H : io.CopySection (name (V001.out loopAfterHell)) (file (V001.out loopAfterHell))
                (V001.offset loopAfterHell) (ObjectPart.Size (barePart 2 3))
              = Return (bytes "owo") None)
    by (vm_compute; reflexivity).
  split; [exact H|].
  apply (C10_part_compared_with_every_populated_field (barePart 2 3) loopAfterHell
           (bytes "owo") H).
  reflexivity.
Defined.

Lemma C9_witness :
  name helloworld = name helloworldAgain
  /\ file helloworld = file helloworldAgain
  /\ reads helloworld 10 <> reads helloworldAgain 10
  /\ fst (V001.main wholeObject helloworldAgain) = ChecksumMatch.
Proof.
  split; [reflexivity|]. split; [reflexivity|]. split; [discriminate|].
  rewrite <- (proj1 (C9_verification_deterministic wholeObject helloworld helloworldAgain
                       eq_refl eq_refl)).
  vm_compute. reflexivity.
Defined.

Lemma C7_witness :
  Checksum onePartObject = Some (crc32Checksum "FKTmaw==")
  /\ V001.main onePartObject helloworld = (ObjectSizeMismatch 5 10, helloworld)
  /\ V001.main onePartObject hello
     = V001.verify (crc32Checksum "FKTmaw==") onePartObject hello.
Proof.
  split; [reflexivity|].
  destruct (C7_size_check_follows_checksum_guard onePartObject helloworld
              (crc32Checksum "FKTmaw==") eq_refl) as [H _].
  destruct (C7_size_check_follows_checksum_guard onePartObject hello
              (crc32Checksum "FKTmaw==") eq_refl) as [_ H'].
  split; [apply H; discriminate | apply H'; reflexivity].
Defined.

End Witnesses.

(** ** The helpers of utils.go *)
Section HelperProperties.

Lemma prefix_drop (p s : string) :
  String.prefix p s = true -> s = (p ++ strings.drop (String.length p) s)%string.
Proof.
  revert s. induction p as [|a p IH]; intros s.
  - now destruct s.
  - destruct s as [|b s]; cbn; [discriminate|].
    destruct (ascii_dec a b) as [->|]; [|discriminate].
    intros H. f_equal. now apply IH.
Qed.

Lemma prefix_append (p s : string) : String.prefix p (p ++ s) = true.
Proof.
  induction p as [|a p IH]; cbn; [now destruct s|].
  now destruct (ascii_dec a a).
Qed.

Lemma drop_append (p s : string) : strings.drop (String.length p) (p ++ s) = s.
Proof. induction p as [|a p IH]; cbn; [now destruct s | exact IH]. Qed.

Lemma prefix_char (c : ascii) (s : string) :
  String.prefix (String c EmptyString) s = true
  <-> exists s', s = String c s'.
Proof.
  destruct s as [|b s]; cbn.
  { split; [discriminate | intros (s' & H); discriminate]. }
  destruct (ascii_dec c b) as [->|Hne].
  - split; [eauto | now destruct s].
  - split; [discriminate|]. intros (s' & H). injection H as H _. now elim Hne.
Qed.

(** Cutting at a one-character separator. *)
Lemma prefix_char_cons (c b : ascii) (s : string) :
  String.prefix (String c EmptyString) (String b s) = (b =? c)%char.
Proof.
  cbn. destruct (ascii_dec c b) as [->|Hne].
  - rewrite Ascii.eqb_refl. now destruct s.
  - symmetry. apply Ascii.eqb_neq. congruence.
Qed.

Lemma Cut_char_cons (c b : ascii) (s : string) :
  strings.Cut (String b s) (String c EmptyString)
  = if (b =? c)%char then Some (EmptyString, s)
    else match strings.Cut s (String c EmptyString) with
         | Some (before, after) => Some (String b before, after)
         | None => None
         end.
Proof.
  cbn [strings.Cut]. rewrite prefix_char_cons.
  now destruct (b =? c)%char.
Qed.

Lemma Cut_char_sound (c : ascii) (s before after : string) :
  strings.Cut s (String c EmptyString) = Some (before, after) ->
  s = (before ++ String c after)%string /\ holds c before = false.
Proof.
  revert before. induction s as [|b s IH]; intros before.
  - cbn. discriminate.
  - rewrite Cut_char_cons. destruct (Ascii.eqb_spec b c) as [->|Hne].
    + intros [= <- <-]. now split.
    + destruct (strings.Cut s (String c EmptyString)) as [[x y]|]; [|discriminate].
      intros [= <- <-]. destruct (IH x eq_refl) as [-> Hh].
      split; [reflexivity|]. cbn. rewrite Hh.
      now destruct (Ascii.eqb_spec b c).
Qed.

Lemma Cut_char_found (c : ascii) (before after : string) :
  holds c before = false ->
  strings.Cut (before ++ String c after) (String c EmptyString) = Some (before, after).
Proof.
  induction before as [|b before IH]; intros Hh.
  - cbn [append]. rewrite Cut_char_cons. now rewrite Ascii.eqb_refl.
  - cbn [append]. rewrite Cut_char_cons. cbn in Hh. apply orb_false_iff in Hh.
    destruct Hh as [Hb Hh]. rewrite Hb. now rewrite (IH Hh).
Qed.

Lemma Cut_char (c : ascii) (s before after : string) :
  strings.Cut s (String c EmptyString) = Some (before, after)
  <-> s = (before ++ String c after)%string /\ holds c before = false.
Proof.
  split; [apply Cut_char_sound|]. intros [-> Hh]. now apply Cut_char_found.
Qed.

Lemma Cut_char_none (c : ascii) (s : string) :
  strings.Cut s (String c EmptyString) = None <-> holds c s = false.
Proof.
  induction s as [|b s IH].
  - cbn. tauto.
  - rewrite Cut_char_cons. cbn [holds].
    destruct (b =? c)%char; cbn [orb]; [split; discriminate|].
    destruct (strings.Cut s (String c EmptyString)) as [[x y]|].
    + split; [discriminate|]. intros H. apply IH in H. discriminate.
    + split; [intros _; now apply IH | reflexivity].
Qed.

(** [parseS3Uri] on a string that does not start with [s3://]. *)
Lemma parseS3Uri_no_prefix (s : string) :
  String.prefix "s3://" s = false ->
  Helpers.parseS3Uri s = (EmptyString, EmptyString).
Proof. intros H. unfold Helpers.parseS3Uri, strings.HasPrefix. now rewrite H. Qed.

(** [parseS3Uri] on a string that does: the rest is cut at its first
    slash. *)
Lemma parseS3Uri_prefix (rest : string) :
  Helpers.parseS3Uri ("s3://" ++ rest)
  = match strings.Cut rest "/" with
    | Some (bucket, key) => (bucket, key)
    | None => (rest, EmptyString)
    end.
Proof.
  unfold Helpers.parseS3Uri, strings.HasPrefix.
  rewrite prefix_append. cbn [negb].
  change 5%nat with (String.length "s3://"). rewrite drop_append.
  change (strings.SplitN rest "/" 2) with (strings.pieces 1 rest "/").
  cbn [strings.pieces].
  destruct (strings.Cut rest "/") as [[bucket key]|]; reflexivity.
Qed.

Lemma parseS3Uri_built (bucket key : string) :
  holds "/" bucket = false ->
  Helpers.parseS3Uri ("s3://" ++ bucket ++ "/" ++ key) = (bucket, key)
  /\ Helpers.parseS3Uri ("s3://" ++ bucket) = (bucket, EmptyString).
Proof.
  intros H. rewrite !parseS3Uri_prefix. split.
  - assert (E : strings.Cut (bucket ++ "/" ++ key) "/" = Some (bucket, key))
      by (apply Cut_char; now split).
    now rewrite E.
  - apply Cut_char_none in H. now rewrite H.
Qed.

(** X1. An S3 URI built from a bucket name without a slash and a key is
    taken apart into that bucket and that key, whatever slashes the key
    holds; without a slash after the bucket the key is empty. *)
Theorem X1_parseS3Uri_round_trip (bucket key : string) :
  holds "/" bucket = false ->
  Helpers.parseS3Uri ("s3://" ++ bucket ++ "/" ++ key) = (bucket, key)
  /\ Helpers.parseS3Uri ("s3://" ++ bucket) = (bucket, EmptyString).
Proof. apply parseS3Uri_built. Qed.

(** X2. [main] takes its S3Uri argument exactly when it reads [s3://], a
    non-empty bucket name without a slash, a slash and a non-empty key; the
    bucket and the key it goes on with are those. *)
Theorem X2_S3Uri_accepted (arg bucket key : string) :
  Helpers.acceptS3Uri arg = Some (bucket, key)
  <-> arg = ("s3://" ++ bucket ++ "/" ++ key)%string
      /\ holds "/" bucket = false
      /\ bucket <> EmptyString /\ key <> EmptyString.
Proof.
  unfold Helpers.acceptS3Uri. split.
  - destruct (String.prefix "s3://" arg) eqn:P.
    + rewrite (prefix_drop _ _ P). rewrite parseS3Uri_prefix.
      set (rest := strings.drop _ arg).
      destruct (strings.Cut rest "/") as [[b k]|] eqn:E.
      * apply Cut_char in E. destruct E as [-> Hh].
        destruct (String.eqb_spec b EmptyString); cbn [orb]; [discriminate|].
        destruct (String.eqb_spec k EmptyString); [discriminate|].
        intros [= <- <-]. repeat split; assumption.
      * rewrite String.eqb_refl, orb_true_r. discriminate.
    + rewrite (parseS3Uri_no_prefix _ P). cbn. discriminate.
  - intros (-> & Hh & Hb & Hk).
    destruct (parseS3Uri_built bucket key Hh) as [E _]. rewrite E.
    destruct (String.eqb_spec bucket EmptyString); [contradiction|].
    destruct (String.eqb_spec key EmptyString); [contradiction|]. reflexivity.
Qed.

End HelperProperties.

Section Mfa.

Lemma mfaTokenProvider_cons (code : string) (err : option string)
    (rest : list (string * option string)) :
  Helpers.mfaTokenProvider ((code, err) :: rest)
  = if sixDigits code then (Some (code, err), [Helpers.AskCode])
    else (fst (Helpers.mfaTokenProvider rest),
          Helpers.AskCode :: Helpers.TryAgain :: snd (Helpers.mfaTokenProvider rest)).
Proof.
  cbn [Helpers.mfaTokenProvider]. unfold sixDigits.
  destruct ((String.length code =? 6)%nat && Helpers.isNumeric code); [reflexivity|].
  now destruct (Helpers.mfaTokenProvider rest).
Qed.

Lemma mfaTokenProvider_found (refused rest : list (string * option string))
    (code : string) (err : option string) :
  Forall (fun scan => sixDigits (fst scan) = false) refused ->
  sixDigits code = true ->
  Helpers.mfaTokenProvider (refused ++ (code, err) :: rest)
  = (Some (code, err), refusals (List.length refused)).
Proof.
  intros Hf Hv. induction Hf as [|[c e] refused Hc _ IH]; cbn [app List.length refusals].
  - rewrite mfaTokenProvider_cons. now rewrite Hv.
  - rewrite mfaTokenProvider_cons. cbn in Hc. rewrite Hc, IH. reflexivity.
Qed.

Lemma mfaTokenProvider_asking (scans : list (string * option string)) :
  Forall (fun scan => sixDigits (fst scan) = false) scans ->
  Helpers.mfaTokenProvider scans = (None, refusals (List.length scans)).
Proof.
  intros Hf. induction Hf as [|[c e] scans Hc _ IH]; [reflexivity|].
  rewrite mfaTokenProvider_cons. cbn in Hc. rewrite Hc, IH. reflexivity.
Qed.

Lemma scans_split (scans : list (string * option string)) :
  (exists refused code err rest,
     scans = refused ++ (code, err) :: rest
     /\ Forall (fun scan => sixDigits (fst scan) = false) refused
     /\ sixDigits code = true)
  \/ Forall (fun scan => sixDigits (fst scan) = false) scans.
Proof.
  induction scans as [|[c e] scans IH]; [now right|].
  destruct (sixDigits c) eqn:Hc.
  - left. exists [], c, e, scans. repeat split; auto.
  - destruct IH as [(refused & code & err & rest & -> & Hf & Hv)|Hf].
    + left. exists ((c, e) :: refused), code, err, rest. repeat split; auto.
    + right. constructor; auto.
Qed.

(** X3. [mfaTokenProvider] returns a token exactly when some scan yields six
    bytes that are all digits: it returns the first such token together with
    the error of that very scan, after asking once for it and once, with a
    refusal, for each scan before it.  Until then it keeps asking. *)
Theorem X3_mfaTokenProvider_first_six_digits (scans : list (string * option string)) :
  (forall code err out,
     Helpers.mfaTokenProvider scans = (Some (code, err), out)
     <-> exists refused rest,
           scans = refused ++ (code, err) :: rest
           /\ Forall (fun scan => sixDigits (fst scan) = false) refused
           /\ sixDigits code = true
           /\ out = refusals (List.length refused))
  /\ (forall out,
        Helpers.mfaTokenProvider scans = (None, out)
        <-> Forall (fun scan => sixDigits (fst scan) = false) scans
            /\ out = refusals (List.length scans)).
Proof.
  split.
  - intros code err out. split.
    + intros H.
      destruct (scans_split scans) as [(refused & c & e & rest & -> & Hf & Hv)|Hf].
      * rewrite (mfaTokenProvider_found _ _ _ _ Hf Hv) in H. injection H as -> -> <-.
        exists refused, rest. repeat split; auto.
      * rewrite (mfaTokenProvider_asking _ Hf) in H. discriminate.
    + intros (refused & rest & -> & Hf & Hv & ->). now apply mfaTokenProvider_found.
  - intros out. split.
    + intros H.
      destruct (scans_split scans) as [(refused & c & e & rest & -> & Hf & Hv)|Hf].
      * rewrite (mfaTokenProvider_found _ _ _ _ Hf Hv) in H. discriminate.
      * rewrite (mfaTokenProvider_asking _ Hf) in H. injection H as <-. now split.
    + intros [Hf ->]. now apply mfaTokenProvider_asking.
Qed.

End Mfa.

Section DigestSizes.
Import s3Types.

Lemma be32_length (x : Z) : List.length (be32 x) = 4%nat.
Proof. reflexivity. Qed.

Lemma flat_map_be32_length (l : list Z) :
  List.length (flat_map be32 l) = (4 * List.length l)%nat.
Proof.
  induction l as [|x l IH]; [reflexivity|].
  cbn [flat_map]. rewrite length_app, be32_length, IH. cbn [List.length]. lia.
Qed.

Lemma base64_length_step (a b c : byte) (rest : list byte) :
  String.length (base64.EncodeToString (a :: b :: c :: rest))
  = (4 + String.length (base64.EncodeToString rest))%nat.
Proof. reflexivity. Qed.

Lemma base64_length (src : list byte) :
  String.length (base64.EncodeToString src) = (4 * ((List.length src + 2) / 3))%nat.
Proof.
  assert (H : forall n src, (List.length src <= n)%nat ->
            String.length (base64.EncodeToString src)
            = (4 * ((List.length src + 2) / 3))%nat).
  { clear src. induction n as [|n IH]; intros src Hn.
    - destruct src; [reflexivity | cbn in Hn; lia].
    - destruct src as [|a [|b [|c rest]]]; try reflexivity.
      rewrite base64_length_step, (IH rest) by (cbn in Hn; lia).
      cbn [List.length].
      replace (S (S (S (List.length rest))) + 2)%nat
        with ((List.length rest + 2) + 1 * 3)%nat by lia.
      rewrite Nat.div_add by lia. lia. }
  apply (H (List.length src)). lia.
Qed.

Lemma fold_left_keeps_length {A B : Type} (f : list A -> B -> list A) (n : nat) :
  (forall v b, List.length v = n -> List.length (f v b) = n) ->
  forall bs v, List.length v = n -> List.length (fold_left f bs v) = n.
Proof.
  intros Hf. induction bs as [|b bs IH]; intros v Hv; [exact Hv|].
  cbn [fold_left]. apply IH. now apply Hf.
Qed.

(** The working state of SHA-1 keeps its five words, that of SHA-256 its
    eight. *)
Lemma sha1_round_length (st : list Z * list Z) (t : nat) :
  List.length (fst (sha1.round st t)) = 5%nat.
Proof. now destruct st. Qed.

Lemma sha1_rounds_length (ts : list nat) (st : list Z * list Z) :
  ts <> [] -> List.length (fst (fold_left sha1.round ts st)) = 5%nat.
Proof.
  revert st. induction ts as [|t ts IH]; intros st H; [contradiction|].
  cbn [fold_left]. destruct ts as [|t' ts].
  - apply sha1_round_length.
  - apply IH. discriminate.
Qed.

Lemma sha1_block_length (v blk : list Z) :
  List.length v = 5%nat -> List.length (sha1.block v blk) = 5%nat.
Proof.
  intros Hv. unfold sha1.block.
  pose proof (sha1_rounds_length (seq 0 80) (v, blk)) as H.
  destruct (fold_left sha1.round (seq 0 80) (v, blk)) as [v' win].
  rewrite length_map, length_combine, Hv. cbn [fst] in H. rewrite H; [reflexivity|].
  discriminate.
Qed.

Lemma sha1_blocks_length (blks : list (list Z)) (v : list Z) :
  List.length v = 5%nat -> List.length (fold_left sha1.block blks v) = 5%nat.
Proof. apply fold_left_keeps_length, sha1_block_length. Qed.

Lemma sha1_Sum_length (data : list byte) : List.length (sha1.Sum data) = 20%nat.
Proof.
  unfold sha1.Sum. rewrite flat_map_be32_length.
  rewrite (sha1_blocks_length _ sha1.init eq_refl). reflexivity.
Qed.

Lemma sha256_round_length (st : list Z * list Z) (k : Z) :
  List.length (fst (sha256.round st k)) = 8%nat.
Proof. now destruct st. Qed.

Lemma sha256_rounds_length (ks : list Z) (st : list Z * list Z) :
  ks <> [] -> List.length (fst (fold_left sha256.round ks st)) = 8%nat.
Proof.
  revert st. induction ks as [|k ks IH]; intros st H; [contradiction|].
  cbn [fold_left]. destruct ks as [|k' ks].
  - apply sha256_round_length.
  - apply IH. discriminate.
Qed.

Lemma sha256_K_length : List.length sha256.K = 64%nat.
Proof. vm_compute. reflexivity. Qed.

Lemma sha256_init_length : List.length sha256.init = 8%nat.
Proof. vm_compute. reflexivity. Qed.

Lemma sha256_block_length (v blk : list Z) :
  List.length v = 8%nat -> List.length (sha256.block v blk) = 8%nat.
Proof.
  intros Hv. unfold sha256.block.
  pose proof (sha256_rounds_length sha256.K (v, blk)) as H.
  destruct (fold_left sha256.round sha256.K (v, blk)) as [v' win].
  rewrite length_map, length_combine, Hv. cbn [fst] in H. rewrite H; [reflexivity|].
  intros E. pose proof sha256_K_length as L. rewrite E in L. discriminate.
Qed.

Lemma sha256_blocks_length (blks : list (list Z)) (v : list Z) :
  List.length v = 8%nat -> List.length (fold_left sha256.block blks v) = 8%nat.
Proof. apply fold_left_keeps_length, sha256_block_length. Qed.

Lemma sha256_Sum_length (data : list byte) : List.length (sha256.Sum data) = 32%nat.
Proof.
  unfold sha256.Sum. rewrite flat_map_be32_length.
  rewrite (sha256_blocks_length _ sha256.init sha256_init_length). reflexivity.
Qed.

Lemma newHash_cases (a : ChecksumAlgorithm) (h : hash.Hash) (err : option string) :
  Utils.newHash a = Return (Some h) err ->
  err = None
  /\ ((switch a = CaseSha1 /\ h = sha1.New)
      \/ (switch a = CaseSha256 /\ h = sha256.New)
      \/ (switch a = CaseCrc32 /\ h = crc32.NewIEEE)
      \/ (switch a = CaseCrc32c /\ h = crc32.New (crc32.MakeTable crc32.Castagnoli))).
Proof.
  unfold Utils.newHash. destruct (switch a); intros [= <- <-]; split; auto 6.
Qed.

Lemma newHash_sizes (a : ChecksumAlgorithm) (h : hash.Hash)
    (err : option string) (data : list byte) :
  Utils.newHash a = Return (Some h) err ->
  hash.written h = []
  /\ List.length (hash.Sum (hash.Write h data)) = digestSize a
  /\ String.length (base64.EncodeToString (hash.Sum (hash.Write h data))) = encodedSize a.
Proof.
  intros H. destruct (newHash_cases _ _ _ H) as [_ Hc].
  assert (Hl : hash.written h = []
               /\ List.length (hash.Sum (hash.Write h data)) = digestSize a).
  { unfold digestSize, hash.Sum, hash.Write.
    destruct Hc as [[-> ->]|[[-> ->]|[[-> ->]|[-> ->]]]]; cbn [hash.digest hash.written
      sha1.New sha256.New crc32.NewIEEE crc32.New hash.New app];
      split; try reflexivity.
    - apply sha1_Sum_length.
    - apply sha256_Sum_length. }
  destruct Hl as [Hw Hl]. repeat split; try assumption.
  rewrite base64_length, Hl. unfold encodedSize, digestSize.
  destruct Hc as [[-> _]|[[-> _]|[[-> _]|[-> _]]]]; reflexivity.
Qed.

(** The encoded digest of a hasher made by [newHash], as the loops compute
    it from the digest function alone. *)
Lemma encoded_digest_size (a : ChecksumAlgorithm) (h : hash.Hash) (data : list byte) :
  Utils.newHash a = Return (Some h) None ->
  String.length (base64.EncodeToString (hash.digest h data)) = encodedSize a
  /\ encodedSize a <> 0%nat.
Proof.
  intros H. destruct (newHash_sizes a h None data H) as (Hw & _ & Hl).
  unfold hash.Sum, hash.Write in Hl. cbn [hash.digest hash.written] in Hl.
  rewrite Hw in Hl. cbn [app] in Hl. split; [exact Hl|].
  destruct (newHash_cases _ _ _ H) as [_ Hc]. unfold encodedSize.
  destruct Hc as [[-> _]|[[-> _]|[[-> _]|[-> _]]]]; discriminate.
Qed.

(** X4. A hasher made by [newHash] is empty, and whatever is written to it
    its digest has the size of its algorithm (20 bytes for SHA1, 32 for
    SHA256, 4 for CRC32 and CRC32C), so that the base64 text compared with
    the checksums of S3 has 28, 44 or 8 characters. *)
Theorem X4_newHash_digest_sizes (a : ChecksumAlgorithm) (h : hash.Hash)
    (err : option string) (data : list byte) :
  Utils.newHash a = Return (Some h) err ->
  hash.written h = []
  /\ List.length (hash.Sum (hash.Write h data)) = digestSize a
  /\ String.length (base64.EncodeToString (hash.Sum (hash.Write h data))) = encodedSize a.
Proof. apply newHash_sizes. Qed.

End DigestSizes.

(** ** More on version 0.0.1 *)
Section More001.
Import s3Types s3.

(** A section within the range of [int64] is read as the bytes from [off] up
    to [off + n], as far as the file goes. *)
Lemma CopySection_in_range (path : string) (f : list byte) (off n : Z) :
  0 <= off -> 0 <= n -> off + n <= maxint64 ->
  io.CopySection path f off n
  = Return (firstn (Z.to_nat n) (skipn (Z.to_nat off) f)) None.
Proof.
  rewrite maxint64_value. intros Ho Hn Hs.
  unfold io.CopySection, io.sectionLimit. rewrite maxint64_value.
  rewrite (wrap64_small (9223372036854775807 - n)) by lia.
  destruct (Z.leb_spec off (9223372036854775807 - n)); [|lia].
  rewrite (wrap64_small (n + off)) by lia.
  destruct (Z.leb_spec (n + off) off).
  - assert (n = 0) by lia. subst n. reflexivity.
  - rewrite wrap64_small by lia.
    destruct (Z.ltb_spec (n + off - off) 0); [lia|].
    destruct (Z.ltb_spec off 0); [lia|].
    replace (n + off - off) with n by lia. reflexivity.
Qed.

(** Such a section lies within the first [off + n] bytes of the file. *)
Lemma CopySection_prefix (path path' : string) (f g : list byte) (off n limit : Z) :
  0 <= off -> 0 <= n -> off + n <= limit -> limit <= maxint64 ->
  firstn (Z.to_nat limit) f = firstn (Z.to_nat limit) g ->
  io.CopySection path f off n = io.CopySection path' g off n.
Proof.
  intros Ho Hn Hl Hm Hfg.
  rewrite !CopySection_in_range by lia. f_equal.
  rewrite !firstn_skipn_comm.
  assert (E : forall l : list byte,
            firstn (Z.to_nat off + Z.to_nat n) l
            = firstn (Z.to_nat off + Z.to_nat n) (firstn (Z.to_nat limit) l)).
  { intros l. rewrite firstn_firstn. f_equal. lia. }
  rewrite (E f), (E g), Hfg. reflexivity.
Qed.

Lemma totalSize_nonneg (parts : list ObjectPart.t) :
  Forall (fun part => 0 <= ObjectPart.Size part) parts -> 0 <= totalSize parts.
Proof. unfold totalSize. induction 1; cbn; lia. Qed.

Lemma totalSize_app (before rest : list ObjectPart.t) :
  totalSize (before ++ rest) = totalSize before + totalSize rest.
Proof.
  unfold totalSize. induction before as [|p before IH]; cbn; [reflexivity | rewrite IH; lia].
Qed.

(** With sizes that fit, [offset] is the plain sum of the sizes so far. *)
Lemma offsetAfter_sum (parts : list ObjectPart.t) (offset : Z) :
  Forall (fun part => 0 <= ObjectPart.Size part) parts ->
  0 <= offset -> offset + totalSize parts <= maxint64 ->
  offsetAfter parts offset = offset + totalSize parts.
Proof.
  rewrite maxint64_value. intros Hf. revert offset.
  induction Hf as [|part parts Hp Hf IH]; intros offset Ho Hs.
  - cbn. lia.
  - pose proof (totalSize_nonneg _ Hf).
    change (totalSize (part :: parts)) with (ObjectPart.Size part + totalSize parts) in *.
    change (offsetAfter (part :: parts) offset)
      with (offsetAfter parts (wrap64 (offset + ObjectPart.Size part))).
    rewrite wrap64_small by lia. rewrite IH by lia. lia.
Qed.

(** Where the loop leaves early: at the first part that fails. *)
Lemma range_exit_at (parts : list ObjectPart.t) (st : V001.Loop) (o : Outcome) (w : World) :
  V001.range parts st = V001.Exit o w ->
  exists before part rest st',
    parts = before ++ part :: rest
    /\ V001.range before st = V001.Continue st'
    /\ V001.iteration part st' = V001.Exit o w.
Proof.
  revert st. induction parts as [|part parts IH]; intros st; cbn [V001.range];
    [discriminate|].
  destruct (V001.iteration part st) as [st1|o1 w1] eqn:E.
  - intros R. destruct (IH _ R) as (before & p & rest & st' & -> & Rb & Ri).
    exists (part :: before), p, rest, st'. repeat split; auto.
    cbn [V001.range]. now rewrite E.
  - intros [= <- <-]. exists [], part, parts, st. repeat split; auto.
Qed.

(** Sizes below zero, which the store does not send: the first part is read
    from offset 0 to the end of the file, and leaves a negative offset for
    the second, whose read panics for a negative size and is refused by
    [ReadAt] for a size above zero. *)
Example negative_sizes :
  fst (V001.main (twoBareParts (-1) (-1)) helloworld) = Panicked
  /\ fst (V001.main (twoBareParts (-5) 3) helloworld)
     = Failed "readat helloworld.txt: negative offset".
Proof. split; lazy; reflexivity. Qed.

(** X5. A single-part object: when the response carries a checksum record,
    the sizes agree and there is no part listing, the whole file goes
    through the hasher of the selected algorithm once, and the run ends in a
    match exactly when the base64 text of that digest is the object's
    checksum.  Before that the run has named the algorithm on standard
    error. *)
Theorem X5_single_stream (objAttrs : GetObjectAttributesOutput) (w : World)
    (checksum : Checksum.t) (objSum : string) (h0 c0 : hash.Hash) :
  Checksum objAttrs = Some checksum ->
  ObjectSize objAttrs = Z.of_nat (List.length (file w)) ->
  V001.selectChecksum checksum = Some (objSum, h0, c0) ->
  ObjectParts objAttrs = None ->
  let sum := base64.EncodeToString (hash.digest h0 (file w)) in
  V001.main objAttrs w
  = (if (sum =? objSum)%string then ChecksumMatch else ChecksumMismatch,
     print (eprintln w (V001.notice checksum))
       [PrintObjectChecksum objSum; CopyFile; PrintLocalChecksum sum]).
Proof.
  intros Hc Hs Hsel Hp sum.
  destruct (selectChecksum_fresh _ _ _ _ Hsel) as [_ Hfresh].
  unfold V001.main. rewrite Hc, Hs, Z.eqb_refl. cbn [negb].
  unfold V001.verify. rewrite Hsel, Hp, single_whole_file. cbv zeta.
  rewrite print_file. cbn [eprintln file].
  unfold hash.Sum, hash.Write. cbn [hash.digest hash.written].
  rewrite Hfresh. cbn [app]. fold sum. rewrite print_print. cbn [app].
  reflexivity.
Qed.

(** X7. What each report of version 0.0.1 tells about its input: the
    missing checksum record, the two sizes that differ, no checksum field
    populated, and, for a part mismatch, a part of the listing, reported with
    its number and the byte range from the sizes before it added up in
    [int64] to that plus its own size.  No run refuses the listing, and a run
    panics only at a part whose offset, the sizes before it added up, has
    become negative.  What a failed read reports is left open. *)
Theorem X7_reports_accounted_for (objAttrs : GetObjectAttributesOutput) (w : World) :
  match fst (V001.main objAttrs w) with
  | NoChecksum => Checksum objAttrs = None
  | ObjectSizeMismatch objectSize fileSize =>
      objectSize = ObjectSize objAttrs
      /\ fileSize = Z.of_nat (List.length (file w))
      /\ objectSize <> fileSize
  | UnsupportedAlgorithm =>
      exists checksum, Checksum objAttrs = Some checksum /\ firstPopulated checksum = None
  | PartMismatch partNumber from to =>
      exists objectParts before part rest,
        ObjectParts objAttrs = Some objectParts
        /\ Parts objectParts = before ++ part :: rest
        /\ partNumber = ObjectPart.PartNumber part
        /\ from = offsetAfter before 0
        /\ to = wrap64 (from + ObjectPart.Size part)
  | Panicked =>
      exists objectParts before part rest,
        ObjectParts objAttrs = Some objectParts
        /\ Parts objectParts = before ++ part :: rest
        /\ offsetAfter before 0 < 0
  | PartsTruncated | PartsNotSorted => False
  | Failed _ | ChecksumMismatch | ChecksumMatch => True
  end.
Proof.
  unfold V001.main.
  destruct (Checksum objAttrs) as [checksum|] eqn:Hc; [|reflexivity].
  destruct (Z.eqb_spec (ObjectSize objAttrs) (Z.of_nat (List.length (file w))));
    cbn [negb fst]; [|now repeat split].
  unfold V001.verify.
  destruct (V001.selectChecksum checksum) as [[[objSum h0] c0]|] eqn:Hsel.
  2: { cbn [fst]. exists checksum. split; [reflexivity|].
       destruct checksum as [c32 c32c s1 s256]. unfold V001.selectChecksum in Hsel.
       cbn in Hsel. destruct s1, s256, c32, c32c; try discriminate. reflexivity. }
  destruct (ObjectParts objAttrs) as [objectParts|] eqn:Hp.
  - unfold V001.multipart.
    match goal with
    | |- context [V001.range ?ps ?a] =>
        destruct (V001.range ps a) as [sa|oa wa] eqn:E
    end.
    + now destruct (negb _).
    + cbn [fst].
      destruct (range_exit_at _ _ _ _ E) as (before & part & rest & st' & Hparts & Rb & Ri).
      destruct (range_continue _ _ _ Rb) as (_ & Ho & _). cbn [V001.offset] in Ho.
      destruct (iteration_exit _ _ _ _ Ri) as [(-> & Hneg)|[(err & -> & _)| ->]].
      * exists objectParts, before, part, rest. rewrite <- Ho. repeat split; auto.
      * exact I.
      * exists objectParts, before, part, rest. rewrite Ho. repeat split; auto.
  - rewrite single_whole_file. cbv zeta. now destruct (_ =? _)%string.
Qed.

(** With sizes that fit the loop leaves early only at a part that fails. *)
Lemma range_sizesFit (parts : list ObjectPart.t) (st : V001.Loop) (o : Outcome) (w : World) :
  Forall (fun part => 0 <= ObjectPart.Size part) parts ->
  0 <= V001.offset st -> V001.offset st + totalSize parts <= maxint64 ->
  V001.range parts st = V001.Exit o w ->
  exists before part rest,
    parts = before ++ part :: rest
    /\ o = PartMismatch (ObjectPart.PartNumber part)
             (V001.offset st + totalSize before)
             (V001.offset st + totalSize before + ObjectPart.Size part).
Proof.
  intros Hf Ho Hs R.
  destruct (range_exit_at _ _ _ _ R) as (before & part & rest & st' & -> & Rb & Ri).
  apply Forall_app in Hf. destruct Hf as [Hb Hr]. inversion Hr as [|? ? Hp Hrest]; subst.
  rewrite totalSize_app in Hs.
  change (totalSize (part :: rest)) with (ObjectPart.Size part + totalSize rest) in Hs.
  pose proof (totalSize_nonneg _ Hb). pose proof (totalSize_nonneg _ Hrest).
  destruct (range_continue _ _ _ Rb) as (_ & Hoff & _).
  rewrite offsetAfter_sum in Hoff by (auto; lia).
  exists before, part, rest. split; [reflexivity|].
  unfold V001.iteration in Ri. rewrite print_file, print_name in Ri.
  rewrite CopySection_in_range in Ri by (rewrite ?maxint64_value in *; lia).
  cbv zeta in Ri. destruct (V001.partFailed _ _); [|discriminate].
  injection Ri as <- _. rewrite Hoff.
  rewrite wrap64_small by (rewrite maxint64_value in *; lia). reflexivity.
Qed.

(** X8. For a listing whose sizes are not negative and add up within
    [int64], no read of version 0.0.1 is refused for its offset and none
    panics, and a part mismatch is reported with the true byte range of the
    part: from the sum of the sizes before it to that sum plus its own
    size. *)
Theorem X8_sizes_that_fit (objAttrs : GetObjectAttributesOutput) (w : World)
    (objectParts : GetObjectAttributesParts) :
  ObjectParts objAttrs = Some objectParts ->
  sizesFit (Parts objectParts) ->
  match fst (V001.main objAttrs w) with
  | Panicked => False
  | Failed err => err <> os.PathError "readat" (name w) "negative offset"
  | PartMismatch partNumber from to =>
      exists before part rest,
        Parts objectParts = before ++ part :: rest
        /\ partNumber = ObjectPart.PartNumber part
        /\ from = totalSize before
        /\ to = totalSize before + ObjectPart.Size part
  | _ => True
  end.
Proof.
  intros Hp [Hf Hs]. unfold V001.main.
  destruct (Checksum objAttrs) as [checksum|]; [|exact I].
  destruct (negb _); [exact I|]. unfold V001.verify.
  destruct (V001.selectChecksum checksum) as [[[objSum h0] c0]|]; [|exact I].
  rewrite Hp. unfold V001.multipart.
  match goal with
  | |- context [V001.range ?ps ?a] =>
      destruct (V001.range ps a) as [sa|oa wa] eqn:E
  end.
  - now destruct (negb _).
  - cbn [fst].
    apply range_sizesFit in E;
      [|assumption|cbn [V001.offset]; lia|cbn [V001.offset]; lia].
    destruct E as (before & part & rest & Hparts & ->).
    cbn [V001.offset]. exists before, part, rest. repeat split; auto.
Qed.

(** One iteration reads within the first [offset + Size] bytes. *)
Lemma iteration_prefix (part : ObjectPart.t) (a b : V001.Loop) (limit : Z) :
  V001.h a = V001.h b ->
  V001.checksumOfChecksums a = V001.checksumOfChecksums b ->
  V001.offset a = V001.offset b ->
  0 <= V001.offset a -> 0 <= ObjectPart.Size part ->
  V001.offset a + ObjectPart.Size part <= limit -> limit <= maxint64 ->
  firstn (Z.to_nat limit) (file (V001.out a)) = firstn (Z.to_nat limit) (file (V001.out b)) ->
  sameOutcome (V001.iteration part a) (V001.iteration part b).
Proof.
  intros Hh Hc Ho H0 Hp Hl Hm Hfg. unfold V001.iteration.
  rewrite !print_file, !print_name.
  rewrite <- Ho, <- Hh, <- Hc.
  rewrite <- (CopySection_prefix (name (V001.out a)) (name (V001.out b))
                _ _ _ _ _ H0 Hp Hl Hm Hfg).
  rewrite CopySection_in_range by lia.
  cbv zeta. destruct (V001.partFailed _ _); cbn; auto.
Qed.

Lemma range_prefix (parts : list ObjectPart.t) (a b : V001.Loop) (limit : Z) :
  V001.h a = V001.h b ->
  V001.checksumOfChecksums a = V001.checksumOfChecksums b ->
  V001.offset a = V001.offset b ->
  0 <= V001.offset a ->
  Forall (fun part => 0 <= ObjectPart.Size part) parts ->
  V001.offset a + totalSize parts <= limit -> limit <= maxint64 ->
  firstn (Z.to_nat limit) (file (V001.out a)) = firstn (Z.to_nat limit) (file (V001.out b)) ->
  sameOutcome (V001.range parts a) (V001.range parts b).
Proof.
  intros Hh Hc Ho H0 Hf. revert a b Hh Hc Ho H0.
  induction Hf as [|part parts Hp Hf IH]; intros a b Hh Hc Ho H0 Hl Hm Hfg.
  - cbn. auto.
  - change (totalSize (part :: parts)) with (ObjectPart.Size part + totalSize parts) in Hl.
    pose proof (totalSize_nonneg _ Hf).
    cbn [V001.range].
    assert (Hi : sameOutcome (V001.iteration part a) (V001.iteration part b))
      by (apply (iteration_prefix part a b limit); auto; lia).
    pose proof (iteration_file part a) as [_ Fa].
    pose proof (iteration_file part b) as [_ Fb].
    assert (Hoa : forall st', V001.iteration part a = V001.Continue st' ->
                    V001.offset st' = V001.offset a + ObjectPart.Size part).
    { intros st' E. unfold V001.iteration in E.
      destruct (io.CopySection _ _ _ _) as [p [err|]|]; try discriminate. cbv zeta in E.
      destruct (V001.partFailed _ _); [discriminate|]. injection E as <-. cbn.
      apply wrap64_small. rewrite maxint64_value in *. lia. }
    destruct (V001.iteration part a) as [a'|oa wa], (V001.iteration part b) as [b'|ob wb];
      cbn in Hi; try contradiction; [|exact Hi].
    destruct Hi as (Hh' & Hc' & Ho'). cbn [stepWorld] in Fa, Fb.
    specialize (Hoa a' eq_refl).
    apply IH; auto; try lia. now rewrite Fa, Fb.
Qed.

(** X9. Version 0.0.1 never looks at the bytes after the last part of the
    listing: for sizes that fit, two files of the same length that agree on
    as many bytes as the sizes add up to end the run alike. *)
Theorem X9_bytes_after_the_parts_unread (objAttrs : GetObjectAttributesOutput)
    (objectParts : GetObjectAttributesParts) (w1 w2 : World) :
  ObjectParts objAttrs = Some objectParts ->
  sizesFit (Parts objectParts) ->
  List.length (file w1) = List.length (file w2) ->
  firstn (Z.to_nat (totalSize (Parts objectParts))) (file w1)
  = firstn (Z.to_nat (totalSize (Parts objectParts))) (file w2) ->
  fst (V001.main objAttrs w1) = fst (V001.main objAttrs w2).
Proof.
  intros Hp [Hf Hs] Hlen Hfg. unfold V001.main. rewrite Hlen.
  destruct (Checksum objAttrs) as [checksum|]; [|reflexivity].
  destruct (negb _); [reflexivity|]. unfold V001.verify.
  destruct (V001.selectChecksum checksum) as [[[objSum h0] c0]|]; [|reflexivity].
  rewrite Hp. unfold V001.multipart.
  match goal with
  | |- fst (match V001.range ?ps ?a with _ => _ end)
       = fst (match V001.range ?ps ?b with _ => _ end) =>
      assert (H : sameOutcome (V001.range ps a) (V001.range ps b))
        by (apply (range_prefix ps a b (totalSize ps));
            cbn [V001.h V001.checksumOfChecksums V001.offset V001.out]; auto;
            rewrite ?print_file; auto; lia);
      destruct (V001.range ps a) as [sa|oa wa], (V001.range ps b) as [sb|ob wb]
  end; cbn in H; try contradiction.
  - destruct H as (_ & Hc & _). rewrite Hc. now destruct (negb _).
  - exact H.
Qed.

End More001.

(** ** More on version 0.1.0 *)
Section More010.
Import s3Types s3.

(** What the selection of the algorithm tells about it. *)
Lemma getChecksumAlgorithm_cases (c : Checksum.t) (a : ChecksumAlgorithm)
    (err : option string) :
  Utils.getChecksumAlgorithm c = Return a err ->
  (err = None /\ switch a <> CaseDefault /\ firstPopulated c = Some a
   /\ exists objSum, checksumField a c = Some objSum)
  \/ (err = Some "unsupported checksum algorithm" /\ firstPopulated c = None).
Proof.
  destruct c as [c32 c32c s1 s256].
  unfold Utils.getChecksumAlgorithm, firstPopulated, checksumField, selectionOrder.
  cbn [find fst snd notNil option_map Checksum.ChecksumSHA1 Checksum.ChecksumSHA256
       Checksum.ChecksumCRC32 Checksum.ChecksumCRC32C].
  destruct s1 as [x|]; cbn.
  { intros [= <- <-]. left. split; [reflexivity|]. split; [discriminate|].
    split; [reflexivity|]. eexists. reflexivity. }
  destruct s256 as [x|]; cbn.
  { intros [= <- <-]. left. split; [reflexivity|]. split; [discriminate|].
    split; [reflexivity|]. eexists. reflexivity. }
  destruct c32 as [x|]; cbn.
  { intros [= <- <-]. left. split; [reflexivity|]. split; [discriminate|].
    split; [reflexivity|]. eexists. reflexivity. }
  destruct c32c as [x|]; cbn.
  { intros [= <- <-]. left. split; [reflexivity|]. split; [discriminate|].
    split; [reflexivity|]. eexists. reflexivity. }
  intros [= <- <-]. now right.
Qed.

(** For an algorithm of the four, the hasher is made and the lookups of
    version 0.1.0 return the field, or the empty string for an absent one. *)
Lemma supported (a : ChecksumAlgorithm) :
  switch a <> CaseDefault ->
  (exists h, Utils.newHash a = Return (Some h) None)
  /\ (forall part, Utils010.getPartChecksum part a
                   = Return (aws.ToString (partField a part)) None)
  /\ (forall c, Utils010.getChecksum c a = Return (aws.ToString (checksumField a c)) None).
Proof.
  intros H. unfold Utils.newHash, Utils010.getPartChecksum, Utils010.getChecksum,
    partField, checksumField.
  destruct (switch a); try contradiction; repeat split; eauto.
Qed.

(** One iteration of version 0.1.0, case by case, for a supported
    algorithm. *)
Lemma iteration010_cases (a : ChecksumAlgorithm) (partHash : hash.Hash)
    (part : ObjectPart.t) (st : V010.Loop) :
  Utils.newHash a = Return (Some partHash) None ->
  let chunk := firstn (Z.to_nat (ObjectPart.Size part)) (V010.f st) in
  let partSum := hash.digest partHash chunk in
  let partSumEncoded := base64.EncodeToString partSum in
  let w := print (V010.out st)
             [CopyLimit (ObjectPart.Size part); PrintPart (V010.partNumber st) partSumEncoded] in
  V010.iteration a part st
  = if negb (V010.partNumber st =? ObjectPart.PartNumber part)
    then V010.Exit PartsNotSorted (V010.out st)
    else if negb (partSumEncoded =? aws.ToString (partField a part))%string
    then V010.Exit
           (PartMismatch (V010.partNumber st) (V010.offset st)
              (wrap64 (V010.offset st + ObjectPart.Size part)))
           (print w [PrintFAILED])
    else V010.Continue
           {| V010.f := skipn (Z.to_nat (ObjectPart.Size part)) (V010.f st);
              V010.h := hash.Write (V010.h st) partSum;
              V010.offset := wrap64 (V010.offset st + ObjectPart.Size part);
              V010.partNumber := wrap32 (V010.partNumber st + 1);
              V010.out := print w [PrintOK] |}.
Proof.
  intros Hn chunk partSum enc w.
  assert (Hs : switch a <> CaseDefault).
  { unfold Utils.newHash in Hn. destruct (switch a); discriminate. }
  destruct (supported a Hs) as (_ & Hp & _).
  pose proof (newHash_fresh _ _ _ Hn) as Hfresh.
  unfold V010.iteration.
  destruct (negb (V010.partNumber st =? ObjectPart.PartNumber part)); [reflexivity|].
  unfold Utils010.newHash. rewrite Hn, CopyLimit_all, Hp.
  unfold hash.Sum, hash.Write. cbn [hash.digest hash.written]. rewrite Hfresh. cbn [app].
  fold chunk. fold partSum. fold enc.
  rewrite !print_print. cbn [app]. subst w. rewrite !print_print. cbn [app].
  reflexivity.
Qed.

Lemma range010_app (a : ChecksumAlgorithm) (before rest : list ObjectPart.t)
    (st : V010.Loop) :
  V010.range a (before ++ rest) st
  = match V010.range a before st with
    | V010.Continue st' => V010.range a rest st'
    | V010.Exit o w => V010.Exit o w
    end.
Proof.
  revert st. induction before as [|part before IH]; intros st; cbn; [reflexivity|].
  destruct (V010.iteration a part st); [apply IH | reflexivity].
Qed.

Lemma range010_exit_at (a : ChecksumAlgorithm) (parts : list ObjectPart.t)
    (st : V010.Loop) (o : Outcome) (w : World) :
  V010.range a parts st = V010.Exit o w ->
  exists before part rest st',
    parts = before ++ part :: rest
    /\ V010.range a before st = V010.Continue st'
    /\ V010.iteration a part st' = V010.Exit o w.
Proof.
  revert st. induction parts as [|part parts IH]; intros st; cbn [V010.range];
    [discriminate|].
  destruct (V010.iteration a part st) as [st1|o1 w1] eqn:E.
  - intros R. destruct (IH _ R) as (before & p & rest & st' & -> & Rb & Ri).
    exists (part :: before), p, rest, st'. repeat split; auto.
    cbn [V010.range]. now rewrite E.
  - intros [= <- <-]. exists [], part, parts, st. repeat split; auto.
Qed.

(** What a completed loop of version 0.1.0 has established. *)
Lemma range010_continue (a : ChecksumAlgorithm) (partHash : hash.Hash)
    (parts : list ObjectPart.t) (st st' : V010.Loop) :
  Utils.newHash a = Return (Some partHash) None ->
  V010.range a parts st = V010.Continue st' ->
  map ObjectPart.PartNumber parts = numbers (V010.partNumber st) (List.length parts)
  /\ V010.partNumber st' = numberAfter (V010.partNumber st) (List.length parts)
  /\ Forall2 (fun part chunk =>
                aws.ToString (partField a part)
                = base64.EncodeToString (hash.digest partHash chunk))
       parts (chunks (V010.f st) parts)
  /\ hash.digest (V010.h st') = hash.digest (V010.h st)
  /\ hash.written (V010.h st')
     = hash.written (V010.h st)
       ++ List.concat (map (hash.digest partHash) (chunks (V010.f st) parts))
  /\ V010.f st' = skipn (bytesAsked parts) (V010.f st)
  /\ V010.offset st' = offsetAfter parts (V010.offset st).
Proof.
  intros Hn. revert st. induction parts as [|part parts IH]; intros st; cbn [V010.range].
  - intros [= <-]. cbn. rewrite app_nil_r. repeat split; constructor.
  - rewrite (iteration010_cases _ _ _ _ Hn).
    destruct (Z.eqb_spec (V010.partNumber st) (ObjectPart.PartNumber part)) as [En|];
      cbn [negb]; [|discriminate].
    match goal with
    | |- context [(?x =? ?y)%string] => destruct (String.eqb_spec x y) as [Es|]
    end; cbn [negb]; [|discriminate].
    intros R. apply IH in R.
    cbn [V010.f V010.h V010.offset V010.partNumber hash.Write hash.digest hash.written] in R.
    destruct R as (R1 & R2 & R3 & R4 & R5 & R6 & R7).
    cbn [map List.length numbers numberAfter chunks bytesAsked fold_right List.concat
         offsetAfter fold_left].
    repeat split.
    + rewrite R1, En. reflexivity.
    + exact R2.
    + constructor; [now rewrite Es | exact R3].
    + exact R4.
    + rewrite R5, <- app_assoc. reflexivity.
    + rewrite R6. fold (bytesAsked parts). now rewrite skipn_skipn, Nat.add_comm.
    + exact R7.
Qed.

Lemma getChecksumAlgorithm_newHash (c : Checksum.t) (a : ChecksumAlgorithm) :
  Utils.getChecksumAlgorithm c = Return a None ->
  exists h objSum,
    Utils.newHash a = Return (Some h) None
    /\ checksumField a c = Some objSum
    /\ Utils010.getChecksum c a = Return objSum None
    /\ firstPopulated c = Some a.
Proof.
  intros H. destruct (getChecksumAlgorithm_cases _ _ _ H)
    as [(_ & Hs & Hf & objSum & Hc)|[[=] _]].
  destruct (supported a Hs) as ((h & Hh) & _ & Hg).
  exists h, objSum. repeat split; auto. now rewrite Hg, Hc.
Qed.

(** X10. What each report of version 0.1.0 tells about its input.  The
    size mismatch arises only for a local path other than [-]; the listing is
    refused when the declared count is not the number of parts, when it is
    marked truncated, or at the first part whose number is not the next one
    counted from 1; a part mismatch names a part of the listing that carries
    the expected number, with the byte range of the sizes before it; and no
    run panics.  What a failed read reports is left open; the errors of
    [getChecksum], [newHash] and [getPartChecksum] are not among the
    failures, since for the algorithm that [getChecksumAlgorithm] selected
    all three return without one. *)
Theorem X10_reports_accounted_for (localPath : string)
    (objAttrs : GetObjectAttributesOutput) (w : World) :
  match fst (V010.main localPath objAttrs w) with
  | NoChecksum => Checksum objAttrs = None
  | ObjectSizeMismatch objectSize fileSize =>
      localPath <> "-"
      /\ objectSize = ObjectSize objAttrs
      /\ fileSize = Z.of_nat (List.length (file w))
      /\ objectSize <> fileSize
  | UnsupportedAlgorithm =>
      exists checksum, Checksum objAttrs = Some checksum /\ firstPopulated checksum = None
  | Panicked => False
  | PartsTruncated =>
      exists objectParts,
        ObjectParts objAttrs = Some objectParts
        /\ (TotalPartsCount objectParts <> Z.of_nat (List.length (Parts objectParts))
            \/ IsTruncated objectParts = true)
  | PartsNotSorted =>
      exists objectParts before part rest,
        ObjectParts objAttrs = Some objectParts
        /\ Parts objectParts = before ++ part :: rest
        /\ map ObjectPart.PartNumber before = numbers 1 (List.length before)
        /\ ObjectPart.PartNumber part <> numberAfter 1 (List.length before)
  | PartMismatch partNumber from to =>
      exists objectParts before part rest,
        ObjectParts objAttrs = Some objectParts
        /\ Parts objectParts = before ++ part :: rest
        /\ map ObjectPart.PartNumber before = numbers 1 (List.length before)
        /\ partNumber = ObjectPart.PartNumber part
        /\ partNumber = numberAfter 1 (List.length before)
        /\ from = offsetAfter before 0
        /\ to = wrap64 (from + ObjectPart.Size part)
  | Failed _ | ChecksumMismatch | ChecksumMatch => True
  end
  /\ match Checksum objAttrs with
     | None => True
     | Some checksum =>
         match Utils010.getChecksumAlgorithm checksum with
         | Return algorithm None =>
             (exists objSum, Utils010.getChecksum checksum algorithm = Return objSum None)
             /\ (exists h, Utils010.newHash algorithm = Return (Some h) None)
             /\ (forall part,
                   exists partChecksum,
                     Utils010.getPartChecksum part algorithm = Return partChecksum None)
         | _ => True
         end
     end.
Proof.
  split.
  2: { destruct (Checksum objAttrs) as [checksum|]; [|exact I].
       unfold Utils010.getChecksumAlgorithm, Utils010.newHash.
       destruct (Utils.getChecksumAlgorithm checksum) as [a [err|]|] eqn:Ha; try exact I.
       destruct (getChecksumAlgorithm_cases _ _ _ Ha) as [(_ & Hs & _)|[[=] _]].
       destruct (getChecksumAlgorithm_newHash _ _ Ha) as (h0 & objSum & Hn & _ & Hg & _).
       destruct (supported a Hs) as (_ & Hpart & _).
       repeat split; eauto. }
  destruct (Checksum objAttrs) as [checksum|] eqn:Hc;
    [|unfold V010.main; now rewrite Hc].
  rewrite (main010_sizes _ _ _ _ Hc).
  destruct (String.eqb_spec localPath "-") as [Hl|Hl]; cbn [negb andb].
  2: destruct (Z.eqb_spec (ObjectSize objAttrs) (Z.of_nat (List.length (file w))));
       cbn [negb fst]; [|now repeat split].
  all: unfold V010.verify, Utils010.getChecksumAlgorithm.
  all: destruct (Utils.getChecksumAlgorithm checksum) as [a [err|]|] eqn:Ha.
  all: try (destruct (getChecksumAlgorithm_cases _ _ _ Ha) as [([=] & _)|(_ & Hf)];
            cbn [fst]; exists checksum; now split).
  all: try (exfalso; destruct checksum as [c32 c32c s1 s256];
            unfold Utils.getChecksumAlgorithm in Ha; cbn in Ha;
            destruct s1, s256, c32, c32c; discriminate).
  all: destruct (getChecksumAlgorithm_newHash _ _ Ha) as (h0 & objSum & Hn & _ & Hg & _).
  all: rewrite Hg; unfold Utils010.newHash; rewrite Hn.
  all: destruct (ObjectParts objAttrs) as [objectParts|] eqn:Hp;
         [|rewrite single010_whole_file; cbv zeta; now destruct (_ =? _)%string].
  all: unfold V010.multipart.
  all: destruct (Z.eqb_spec (TotalPartsCount objectParts)
                   (Z.of_nat (List.length (Parts objectParts)))) as [Ec|Ec]; cbn [negb orb];
         [|cbn [fst]; exists objectParts; split; auto].
  all: destruct (IsTruncated objectParts) eqn:Et;
         [cbn [fst]; exists objectParts; split; auto|].
  all: match goal with
       | |- context [V010.range ?a ?ps ?st] =>
           destruct (V010.range a ps st) as [sa|oa wa] eqn:E
       end; [match goal with |- context [negb ?b] => now destruct (negb b) end|].
  all: cbn [fst].
  all: destruct (range010_exit_at _ _ _ _ _ E)
         as (before & part & rest & st' & Hparts & Rb & Ri).
  all: destruct (range010_continue _ _ _ _ _ Hn Rb) as (R1 & R2 & _ & _ & _ & _ & R7).
  all: cbn [V010.partNumber V010.offset] in R1, R2, R7.
  all: rewrite (iteration010_cases _ _ _ _ Hn) in Ri.
  all: destruct (Z.eqb_spec (V010.partNumber st') (ObjectPart.PartNumber part)) as [En|En];
         cbn [negb] in Ri;
         [|injection Ri as <- _; exists objectParts, before, part, rest;
           repeat split; auto; congruence].
  all: match type of Ri with
       | context [negb ?b] => destruct (negb b); [|discriminate]
       end.
  all: injection Ri as <- _; exists objectParts, before, part, rest.
  all: repeat split; auto; congruence.
Qed.

Lemma empty_or_populated (p : option string) (enc : string) :
  String.length enc <> 0%nat -> aws.ToString p = enc -> p = Some enc.
Proof.
  intros Hl H. destruct p as [s|]; cbn in H; [now subst|].
  subst enc. now elim Hl.
Qed.

(** X11. What a match of a multi-part object means in version 0.1.0: the
    listing is complete and numbered from 1, every part record carries, in
    the field of the algorithm selected for the object, the base64 digest of
    its own stretch of the local stream, and the object's checksum is the
    base64 digest of those raw digests in order, with or without the count
    of parts appended. *)
Theorem X11_match_of_a_multipart_object (localPath : string)
    (objAttrs : GetObjectAttributesOutput) (w : World) (checksum : Checksum.t)
    (objectParts : GetObjectAttributesParts) :
  Checksum objAttrs = Some checksum ->
  ObjectParts objAttrs = Some objectParts ->
  fst (V010.main localPath objAttrs w) = ChecksumMatch ->
  exists a partHash objSum,
    firstPopulated checksum = Some a
    /\ Utils.newHash a = Return (Some partHash) None
    /\ checksumField a checksum = Some objSum
    /\ TotalPartsCount objectParts = Z.of_nat (List.length (Parts objectParts))
    /\ IsTruncated objectParts = false
    /\ map ObjectPart.PartNumber (Parts objectParts)
       = numbers 1 (List.length (Parts objectParts))
    /\ Forall2 (fun part chunk =>
                  partField a part
                  = Some (base64.EncodeToString (hash.digest partHash chunk)))
         (Parts objectParts) (chunks (file w) (Parts objectParts))
    /\ let candidate :=
         base64.EncodeToString
           (hash.digest partHash
              (List.concat (map (hash.digest partHash)
                              (chunks (file w) (Parts objectParts))))) in
       objSum = candidate
       \/ objSum = (candidate ++ "-" ++ fmt.d (TotalPartsCount objectParts))%string.
Proof.
  intros Hc Hp. rewrite (main010_sizes _ _ _ _ Hc).
  destruct (negb (localPath =? "-")%string && _); [discriminate|].
  unfold V010.verify, Utils010.getChecksumAlgorithm.
  destruct (Utils.getChecksumAlgorithm checksum) as [a [err|]|] eqn:Ha; try discriminate.
  destruct (getChecksumAlgorithm_newHash _ _ Ha) as (h0 & objSum & Hn & Hf & Hg & Hfirst).
  rewrite Hg. unfold Utils010.newHash. rewrite Hn, Hp. unfold V010.multipart.
  destruct (Z.eqb_spec (TotalPartsCount objectParts)
              (Z.of_nat (List.length (Parts objectParts)))) as [Ec|Ec]; cbn [negb orb];
    [|discriminate].
  destruct (IsTruncated objectParts) eqn:Et; [discriminate|].
  match goal with
  | |- context [V010.range ?a ?ps ?st] =>
      destruct (V010.range a ps st) as [st'|oa wa] eqn:E
  end.
  2: { cbn [fst]. intros ->.
       destruct (range010_exit_at _ _ _ _ _ E) as (b & p & r & s' & _ & _ & Ri).
       rewrite (iteration010_cases _ _ _ _ Hn) in Ri.
       destruct (negb (_ =? _)); [discriminate|].
       destruct (negb (_ =? _)%string); discriminate. }
  destruct (range010_continue _ _ _ _ _ Hn E) as (R1 & _ & R3 & R4 & R5 & _ & _).
  cbn [V010.partNumber V010.f V010.h] in R1, R3, R4, R5. rewrite print_file in R3, R5.
  rewrite (newHash_fresh _ _ _ Hn) in R5. cbn [app] in R5.
  unfold hash.Sum. rewrite R4, R5.
  set (candidate := base64.EncodeToString _).
  intros Hm. exists a, h0, objSum. repeat split; auto.
  - eapply Forall2_impl; [|exact R3]. intros part chunk Hpc. cbn beta in Hpc.
    symmetry in Hpc. apply empty_or_populated; [|now symmetry].
    destruct (encoded_digest_size a h0 chunk Hn) as [-> Hnz]. exact Hnz.
  - fold candidate. cbv zeta in Hm |- *.
    destruct (negb (String.length candidate =? String.length objSum)%nat).
    + right. destruct (String.eqb_spec (candidate ++ "-" ++ fmt.d (TotalPartsCount objectParts))
                         objSum) as [Heq|]; [now symmetry | discriminate].
    + left. destruct (String.eqb_spec candidate objSum) as [Heq|];
        [now symmetry | discriminate].
Qed.

(** X12. In version 0.1.0 a part record that lacks the field of the
    algorithm selected for the object never passes: once its number is the
    expected one, the iteration ends in the mismatch of that part. *)
Theorem X12_part_without_checksum_fails (a : ChecksumAlgorithm) (partHash : hash.Hash)
    (part : ObjectPart.t) (st : V010.Loop) :
  Utils.newHash a = Return (Some partHash) None ->
  partField a part = None ->
  V010.partNumber st = ObjectPart.PartNumber part ->
  exists w,
    V010.iteration a part st
    = V010.Exit
        (PartMismatch (ObjectPart.PartNumber part) (V010.offset st)
           (wrap64 (V010.offset st + ObjectPart.Size part))) w.
Proof.
  intros Hn Hf En. rewrite (iteration010_cases _ _ _ _ Hn), Hf, En, Z.eqb_refl.
  cbn [negb aws.ToString].
  match goal with
  | |- context [(?x =? EmptyString)%string] =>
      destruct (String.eqb_spec x EmptyString) as [Es|]
  end; cbn [negb]; [|eauto].
  exfalso.
  destruct (encoded_digest_size a partHash
              (firstn (Z.to_nat (ObjectPart.Size part)) (V010.f st)) Hn) as [Hl Hnz].
  rewrite Es in Hl. cbn in Hl. congruence.
Qed.

(** Reading from a longer stream: as long as the listing asks for no more
    than the shorter one holds, the loop runs alike on both. *)
Lemma range010_longer_stream (a : ChecksumAlgorithm) (partHash : hash.Hash)
    (parts : list ObjectPart.t) (extra : list byte) (x y : V010.Loop) :
  Utils.newHash a = Return (Some partHash) None ->
  V010.f y = V010.f x ++ extra ->
  V010.h x = V010.h y -> V010.offset x = V010.offset y ->
  V010.partNumber x = V010.partNumber y ->
  (bytesAsked parts <= List.length (V010.f x))%nat ->
  sameOutcome010 (V010.range a parts x) (V010.range a parts y).
Proof.
  intros Hn. revert x y.
  induction parts as [|part parts IH]; intros x y Hf Hh Ho Hp Hb; cbn [V010.range].
  - cbn. auto.
  - cbn [bytesAsked fold_right] in Hb. fold (bytesAsked parts) in Hb.
    rewrite !(iteration010_cases _ _ _ _ Hn). rewrite <- Hp, <- Ho, <- Hh, Hf.
    rewrite firstn_app.
    replace (Z.to_nat (ObjectPart.Size part) - List.length (V010.f x))%nat with 0%nat by lia.
    cbn [firstn]. rewrite app_nil_r.
    destruct (negb (V010.partNumber x =? ObjectPart.PartNumber part)); [reflexivity|].
    destruct (negb (_ =? _)%string); [reflexivity|].
    apply IH; cbn [V010.f V010.h V010.offset V010.partNumber]; auto.
    + rewrite skipn_app.
      replace (Z.to_nat (ObjectPart.Size part) - List.length (V010.f x))%nat with 0%nat by lia.
      reflexivity.
    + rewrite length_skipn. lia.
Qed.

(** X13. Version 0.1.0 reading from standard input, whose size it does not
    look up, never looks at what follows the parts of the listing: bytes
    appended to a stream that holds as many bytes as the listing asks for
    leave the outcome as it was. *)
Theorem X13_standard_input_tail_unread (objAttrs : GetObjectAttributesOutput)
    (objectParts : GetObjectAttributesParts) (w : World) (extra : list byte) :
  ObjectParts objAttrs = Some objectParts ->
  (bytesAsked (Parts objectParts) <= List.length (file w))%nat ->
  fst (V010.main "-" objAttrs
         {| name := name w; file := file w ++ extra; reads := reads w;
            stdout := stdout w; stderr := stderr w |})
  = fst (V010.main "-" objAttrs w).
Proof.
  intros Hp Hb.
  destruct (Checksum objAttrs) as [checksum|] eqn:Hc;
    [|unfold V010.main; now rewrite Hc].
  rewrite !(main010_sizes _ _ _ _ Hc).
  cbn [String.eqb Ascii.eqb Bool.eqb negb andb].
  unfold V010.verify, Utils010.getChecksumAlgorithm.
  destruct (Utils.getChecksumAlgorithm checksum) as [a [err|]|] eqn:Ha; try reflexivity.
  destruct (getChecksumAlgorithm_newHash _ _ Ha) as (h0 & objSum & Hn & _ & Hg & _).
  rewrite Hg. unfold Utils010.newHash. rewrite Hn, Hp. unfold V010.multipart.
  destruct (negb _ || _); [reflexivity|].
  match goal with
  | |- fst (match V010.range ?a ?ps ?y with _ => _ end)
       = fst (match V010.range ?a ?ps ?x with _ => _ end) =>
      assert (H : sameOutcome010 (V010.range a ps x) (V010.range a ps y))
        by (apply (range010_longer_stream a h0 ps extra x y Hn);
            cbn [V010.f V010.h V010.offset V010.partNumber]; rewrite ?print_file; auto);
      destruct (V010.range a ps x) as [sx|ox wx], (V010.range a ps y) as [sy|oy wy]
  end; cbn in H; try contradiction.
  - destruct H as (Hh & _ & _). rewrite Hh.
    repeat match goal with |- context [negb ?b] => destruct (negb b) end; reflexivity.
  - now subst.
Qed.

(** X14. The count of parts is appended to the candidate exactly when the
    object's checksum has not the length of an encoded digest of its
    algorithm (28, 44 or 8 characters): such a checksum is compared with the
    suffixed candidate, any other with the bare one. *)
Theorem X14_suffix_by_length_of_algorithm (a : ChecksumAlgorithm) (objSum : string)
    (h0 : hash.Hash) (objectParts : GetObjectAttributesParts) (w : World)
    (st : V010.Loop) :
  Utils.newHash a = Return (Some h0) None ->
  TotalPartsCount objectParts = Z.of_nat (List.length (Parts objectParts)) ->
  IsTruncated objectParts = false ->
  V010.range a (Parts objectParts)
    {| V010.f := file w; V010.h := h0; V010.offset := 0; V010.partNumber := 1;
       V010.out := print w [PrintNumParts (TotalPartsCount objectParts)] |}
  = V010.Continue st ->
  let candidate := base64.EncodeToString (hash.Sum (V010.h st)) in
  let sum :=
    if (String.length objSum =? encodedSize a)%nat then candidate
    else (candidate ++ "-" ++ fmt.d (TotalPartsCount objectParts))%string in
  V010.multipart a objSum h0 objectParts w
  = (if (sum =? objSum)%string then ChecksumMatch else ChecksumMismatch,
     print (V010.out st) [PrintChecksumOfChecksums sum]).
Proof.
  intros Hn Hcount Htrunc Hrange candidate sum.
  rewrite (multipart010_suffix a objSum h0 objectParts w st Hcount Htrunc Hrange).
  destruct (range010_continue _ _ _ _ _ Hn Hrange) as (_ & _ & _ & R4 & _).
  cbn [V010.h] in R4.
  assert (Hl : String.length candidate = encodedSize a).
  { subst candidate. unfold hash.Sum. rewrite R4.
    now destruct (encoded_digest_size a h0 (hash.written (V010.h st)) Hn). }
  fold candidate. rewrite Hl. subst sum.
  rewrite (Nat.eqb_sym (encodedSize a)). reflexivity.
Qed.

(** X15. On an object without a part listing, and a local path other than
    [-], the two versions of [main] end with the same outcome after the same
    read and the same lines on standard output.  On standard error they
    differ: a run of version 0.0.1 that gets to compare the checksums has
    named the algorithm there, a run of version 0.1.0 has written nothing
    there. *)
Theorem X15_versions_agree_on_single_part_objects (localPath : string)
    (objAttrs : GetObjectAttributesOutput) (w : World) :
  localPath <> "-" ->
  ObjectParts objAttrs = None ->
  V001.main objAttrs w
  = (fst (V010.main localPath objAttrs w),
     match fst (V010.main localPath objAttrs w), Checksum objAttrs with
     | (ChecksumMatch | ChecksumMismatch), Some checksum =>
         eprintln (snd (V010.main localPath objAttrs w)) (V001.notice checksum)
     | _, _ => snd (V010.main localPath objAttrs w)
     end)
  /\ stderr (snd (V010.main localPath objAttrs w)) = stderr w.
Proof.
  intros Hl Hp.
  destruct (Checksum objAttrs) as [checksum|] eqn:Hc;
    [|unfold V010.main, V001.main; now rewrite Hc].
  rewrite (main010_sizes _ _ _ _ Hc). unfold V001.main. rewrite Hc.
  destruct (String.eqb_spec localPath "-"); [contradiction|]. cbn [negb andb].
  destruct (negb _); [now split|].
  unfold V010.verify, V001.verify. rewrite Hp.
  destruct checksum as [c32 c32c s1 s256].
  unfold Utils010.getChecksumAlgorithm, Utils.getChecksumAlgorithm, V001.selectChecksum,
    V001.notice, Utils010.getChecksum, Utils010.newHash, Utils.newHash.
  cbn [Checksum.ChecksumSHA1 Checksum.ChecksumSHA256 Checksum.ChecksumCRC32
       Checksum.ChecksumCRC32C].
  destruct s1 as [x|]; [|destruct s256 as [x|]; [|destruct c32 as [x|];
    [|destruct c32c as [x|]; [|now split]]]];
    cbn [notNil]; rewrite ?switch_Sha1, ?switch_Sha256, ?switch_Crc32, ?switch_Crc32c;
    cbn [aws.ToString]; rewrite single010_whole_file, single_whole_file; cbv zeta;
    rewrite !print_file; cbn [eprintln file];
    destruct (_ =? _)%string; split; reflexivity.
Qed.

End More010.

(** ** The listing refused *)
Section Refused010.
Import s3Types s3.

(** X16. In version 0.1.0 a multi-part object whose checksum is supported
    and whose listing declares a count other than the number of parts
    returned, or is marked truncated, is refused once the sizes have been
    compared: the run prints the object's checksum and the declared count,
    and reads nothing of the local stream. *)
Theorem X16_incomplete_listing_refused (localPath : string)
    (objAttrs : GetObjectAttributesOutput) (w : World) (checksum : Checksum.t)
    (objectParts : GetObjectAttributesParts) (a : ChecksumAlgorithm) (objSum : string) :
  Checksum objAttrs = Some checksum ->
  ObjectParts objAttrs = Some objectParts ->
  localPath = "-" \/ ObjectSize objAttrs = Z.of_nat (List.length (file w)) ->
  firstPopulated checksum = Some a ->
  checksumField a checksum = Some objSum ->
  TotalPartsCount objectParts <> Z.of_nat (List.length (Parts objectParts))
  \/ IsTruncated objectParts = true ->
  V010.main localPath objAttrs w
  = (PartsTruncated,
     print w [PrintObjectChecksum objSum; PrintNumParts (TotalPartsCount objectParts)]).
Proof.
  intros Hc Hp Hsize Hfirst Hfield Hbad. rewrite (main010_sizes _ _ _ _ Hc).
  assert (Hs : negb (localPath =? "-")%string
               && negb (ObjectSize objAttrs =? Z.of_nat (List.length (file w))) = false).
  { destruct Hsize as [-> | ->]; [reflexivity|].
    rewrite Z.eqb_refl. apply andb_false_r. }
  rewrite Hs. unfold V010.verify, Utils010.getChecksumAlgorithm.
  destruct (Utils.getChecksumAlgorithm checksum) as [a' [err|]|] eqn:Ha.
  - destruct (getChecksumAlgorithm_cases _ _ _ Ha) as [([=] & _)|(_ & Hn)]. congruence.
  - destruct (getChecksumAlgorithm_newHash _ _ Ha) as (h0 & objSum' & Hn & Hf & Hg & Hfirst').
    assert (a' = a) by congruence. subst a'.
    assert (objSum' = objSum) by congruence. subst objSum'.
    rewrite Hg. unfold Utils010.newHash. rewrite Hn, Hp.
    rewrite (multipart010_refuses _ _ _ _ _ Hbad). now rewrite print_print.
  - exfalso. destruct checksum as [c32 c32c s1 s256].
    unfold Utils.getChecksumAlgorithm in Ha. cbn in Ha.
    destruct s1, s256, c32, c32c; discriminate.
Qed.

End Refused010.

(** ** The numbering of the parts *)
Section Numbering.

Lemma wrap32_small (x : Z) : - 2147483648 <= x <= 2147483647 -> wrap32 x = x.
Proof.
  intros H. unfold wrap32, wrap.
  change (2 ^ (32 - 1)) with 2147483648. change (2 ^ 32) with 4294967296.
  rewrite Z.mod_small; lia.
Qed.

(** Within [int32] the expected numbers are 1, 2, 3 and so on. *)
Lemma numbers_plain (p : Z) (n : nat) :
  0 <= p -> p + Z.of_nat n <= 2147483647 ->
  numbers p n = map (fun i => p + Z.of_nat i) (seq 0 n).
Proof.
  revert p. induction n as [|n IH]; intros p Hp Hn; [reflexivity|].
  cbn [numbers seq map]. rewrite Z.add_0_r. f_equal.
  rewrite wrap32_small by lia. rewrite IH by lia.
  rewrite <- seq_shift, map_map. apply map_ext. intros i. lia.
Qed.

End Numbering.

(** ** The small helpers *)
Section SmallHelpers.

Lemma normalizeBucketLocation_region (loc : string) :
  Helpers.normalizeBucketLocation loc <> EmptyString
  /\ Helpers.normalizeBucketLocation (Helpers.normalizeBucketLocation loc)
     = Helpers.normalizeBucketLocation loc.
Proof.
  unfold Helpers.normalizeBucketLocation.
  destruct loc as [|c loc]; cbn; (split; [intros H; discriminate H | reflexivity]).
Qed.

Lemma pluralize_one (n : Z) : Helpers.pluralize n = EmptyString <-> n = 1.
Proof.
  unfold Helpers.pluralize.
  destruct (Z.eqb_spec n 1); split; intros H; auto; (discriminate || contradiction).
Qed.

Lemma isNumeric_append (a b : string) :
  Helpers.isNumeric (a ++ b) = Helpers.isNumeric a && Helpers.isNumeric b.
Proof.
  induction a as [|c a IH]; cbn; [reflexivity|].
  now destruct ((c <? "0")%char || ("9" <? c)%char).
Qed.

End SmallHelpers.

(** ** The further theorems at concrete inputs *)
Section MoreWitnesses.
Import s3Types s3.

Lemma X1_witness :
  holds "/" "bucket" = false
  /\ Helpers.parseS3Uri "s3://bucket/path/to/key" = ("bucket", "path/to/key").
Proof.
  split; [reflexivity|].
  exact (proj1 (X1_parseS3Uri_round_trip "bucket" "path/to/key" eq_refl)).
Defined.

Lemma X4_witness :
  Utils.newHash ChecksumAlgorithmCrc32 = Return (Some crc32.NewIEEE) None
  /\ String.length
       (base64.EncodeToString (hash.Sum (hash.Write crc32.NewIEEE (bytes "hello"))))
     = 8%nat.
Proof.
  split; [reflexivity|].
  exact (proj2 (proj2 (X4_newHash_digest_sizes ChecksumAlgorithmCrc32 crc32.NewIEEE None
                         (bytes "hello") eq_refl))).
Defined.

Lemma X5_witness :
  Checksum singleObject = Some (crc32Checksum "NhCmhg==")
  /\ ObjectSize singleObject = Z.of_nat (List.length (file hello))
  /\ ObjectParts singleObject = None
  /\ fst (V001.main singleObject hello) = ChecksumMatch.
Proof.
  split; [reflexivity|]. split; [reflexivity|]. split; [reflexivity|].
  rewrite (X5_single_stream singleObject hello (crc32Checksum "NhCmhg==") "NhCmhg=="
             crc32.NewIEEE crc32.NewIEEE eq_refl eq_refl eq_refl eq_refl).
  vm_compute. reflexivity.
Defined.

Lemma X8_witness :
  sizesFit [crc32Part 1 5 "NhCmhg=="; crc32Part 2 5 "OncRQw=="]
  /\ match fst (V001.main twoPartObject helloworld) with
     | Panicked => False
     | Failed err => err <> os.PathError "readat" (name helloworld) "negative offset"
     | PartMismatch partNumber from to =>
         exists before part rest,
           [crc32Part 1 5 "NhCmhg=="; crc32Part 2 5 "OncRQw=="] = before ++ part :: rest
           /\ partNumber = ObjectPart.PartNumber part
           /\ from = totalSize before
           /\ to = totalSize before + ObjectPart.Size part
     | _ => True
     end.
Proof.
  assert (H : sizesFit [crc32Part 1 5 "NhCmhg=="; crc32Part 2 5 "OncRQw=="]).
  { split; [repeat constructor; cbn; lia | vm_compute; discriminate]. }
  split; [exact H|].
  exact (X8_sizes_that_fit twoPartObject helloworld
           {| IsTruncated := false;
              Parts := [crc32Part 1 5 "NhCmhg=="; crc32Part 2 5 "OncRQw=="];
              TotalPartsCount := 2 |} eq_refl H).
Defined.

Lemma X9_witness :
  sizesFit [crc32Part 1 5 "NhCmhg=="]
  /\ firstn 5 (file helloworld) = firstn 5 (file helloWORLD)
  /\ fst (V001.main truncatedListing helloworld)
     = fst (V001.main truncatedListing helloWORLD).
Proof.
  assert (H : sizesFit [crc32Part 1 5 "NhCmhg=="]).
  { split; [repeat constructor; cbn; lia | vm_compute; discriminate]. }
  split; [exact H|]. split; [reflexivity|].
  exact (X9_bytes_after_the_parts_unread truncatedListing
           {| IsTruncated := true; Parts := [crc32Part 1 5 "NhCmhg=="];
              TotalPartsCount := 2 |} helloworld helloWORLD eq_refl H eq_refl eq_refl).
Defined.

Lemma X11_witness :
  fst (V010.main "helloworld.txt" twoPartObject helloworld) = ChecksumMatch
  /\ exists a partHash,
       firstPopulated (crc32Checksum "wpn7tg==") = Some a
       /\ Forall2 (fun part chunk =>
                     partField a part
                     = Some (base64.EncodeToString (hash.digest partHash chunk)))
            [crc32Part 1 5 "NhCmhg=="; crc32Part 2 5 "OncRQw=="]
            (chunks (file helloworld) [crc32Part 1 5 "NhCmhg=="; crc32Part 2 5 "OncRQw=="]).
Proof.
  assert (H : fst (V010.main "helloworld.txt" twoPartObject helloworld) = ChecksumMatch)
    by (vm_compute; reflexivity).
  split; [exact H|].
  destruct (X11_match_of_a_multipart_object "helloworld.txt" twoPartObject helloworld
              (crc32Checksum "wpn7tg==")
              {| IsTruncated := false;
                 Parts := [crc32Part 1 5 "NhCmhg=="; crc32Part 2 5 "OncRQw=="];
                 TotalPartsCount := 2 |} eq_refl eq_refl H)
    as (a & partHash & objSum & H1 & _ & _ & _ & _ & _ & H7 & _).
  exists a, partHash. split; assumption.
Defined.

Lemma X12_witness :
  Utils.newHash ChecksumAlgorithmCrc32 = Return (Some crc32.NewIEEE) None
  /\ partField ChecksumAlgorithmCrc32 (barePart 1 5) = None
  /\ exists w,
       V010.iteration ChecksumAlgorithmCrc32 (barePart 1 5) loopStart010
       = V010.Exit (PartMismatch 1 0 5) w.
Proof.
  split; [reflexivity|]. split; [reflexivity|].
  destruct (X12_part_without_checksum_fails ChecksumAlgorithmCrc32 crc32.NewIEEE
              (barePart 1 5) loopStart010 eq_refl eq_refl eq_refl) as [w H].
  exists w. rewrite H. reflexivity.
Defined.

Lemma X13_witness :
  (bytesAsked [crc32Part 1 5 "NhCmhg=="; crc32Part 2 5 "OncRQw=="]
   <= List.length (file helloworld))%nat
  /\ fst (V010.main "-" twoPartObject
            {| name := name helloworld; file := file helloworld ++ bytes "and more";
               reads := reads helloworld; stdout := stdout helloworld;
               stderr := stderr helloworld |})
     = fst (V010.main "-" twoPartObject helloworld).
Proof.
  assert (H : (bytesAsked [crc32Part 1 5 "NhCmhg=="; crc32Part 2 5 "OncRQw=="]
               <= List.length (file helloworld))%nat) by (vm_compute; lia).
  split; [exact H|].
  exact (X13_standard_input_tail_unread twoPartObject
           {| IsTruncated := false;
              Parts := [crc32Part 1 5 "NhCmhg=="; crc32Part 2 5 "OncRQw=="];
              TotalPartsCount := 2 |} helloworld (bytes "and more") eq_refl H).
Defined.

Lemma X14_witness :
  V010.range ChecksumAlgorithmCrc32 [crc32Part 1 5 "NhCmhg=="] loopStart010
  = V010.Continue loopEnd010
  /\ fst (V010.multipart ChecksumAlgorithmCrc32 "FKTmaw==-1" crc32.NewIEEE
            {| IsTruncated := false; Parts := [crc32Part 1 5 "NhCmhg=="];
               TotalPartsCount := 1 |} hello)
     = ChecksumMatch.
Proof.
  assert (H : V010.range ChecksumAlgorithmCrc32 [crc32Part 1 5 "NhCmhg=="] loopStart010
              = V010.Continue loopEnd010) by reflexivity.
  split; [exact H|].
  rewrite (X14_suffix_by_length_of_algorithm ChecksumAlgorithmCrc32 "FKTmaw==-1"
             crc32.NewIEEE
             {| IsTruncated := false; Parts := [crc32Part 1 5 "NhCmhg=="];
                TotalPartsCount := 1 |} hello loopEnd010 eq_refl eq_refl eq_refl H).
  vm_compute. reflexivity.
Defined.

Lemma X15_witness :
  "hello.txt" <> "-"
  /\ V010.main "hello.txt" singleObject hello
     = (ChecksumMatch,
        print hello
          [PrintObjectChecksum "NhCmhg=="; CopyFile; PrintLocalChecksum "NhCmhg=="])
  /\ V001.main singleObject hello
     = (ChecksumMatch,
        eprintln
          (print hello
             [PrintObjectChecksum "NhCmhg=="; CopyFile; PrintLocalChecksum "NhCmhg=="])
          "S3 object was uploaded using the CRC32 checksum algorithm.").
Proof.
  assert (H : "hello.txt" <> "-") by discriminate.
  assert (E : V010.main "hello.txt" singleObject hello
              = (ChecksumMatch,
                 print hello
                   [PrintObjectChecksum "NhCmhg=="; CopyFile; PrintLocalChecksum "NhCmhg=="]))
    by (vm_compute; reflexivity).
  split; [exact H|]. split; [exact E|].
  rewrite (proj1 (X15_versions_agree_on_single_part_objects "hello.txt" singleObject hello
                    H eq_refl)).
  rewrite E. reflexivity.
Defined.

Lemma X16_witness :
  firstPopulated (crc32Checksum "wpn7tg==") = Some ChecksumAlgorithmCrc32
  /\ IsTruncated {| IsTruncated := true; Parts := [crc32Part 1 5 "NhCmhg=="];
                    TotalPartsCount := 2 |} = true
  /\ V010.main "-" truncatedListing helloworld
     = (PartsTruncated, print helloworld [PrintObjectChecksum "wpn7tg=="; PrintNumParts 2]).
Proof.
  split; [reflexivity|]. split; [reflexivity|].
  exact (X16_incomplete_listing_refused "-" truncatedListing helloworld
           (crc32Checksum "wpn7tg==")
           {| IsTruncated := true; Parts := [crc32Part 1 5 "NhCmhg=="];
              TotalPartsCount := 2 |}
           ChecksumAlgorithmCrc32 "wpn7tg==" eq_refl eq_refl (or_introl eq_refl)
           eq_refl eq_refl (or_intror eq_refl)).
Defined.

End MoreWitnesses.
